(** * The xv6 console driver with the colour menu (kernel/console.c)

    A shallow embedding of the console driver: the CGA text grid and its
    hardware cursor, the circular input buffer with its line discipline,
    the Alt-c / Alt-o / Alt-l sequence detector, the colour menu and the
    blocking reader.  Every definition below follows the C function of the
    same name.

    Conventions.
    - [int] and [uint] values are integers of [Z]; the wrap-around of the
      32-bit unsigned buffer indices is written out with [to_uint].
    - [char] is the signed 8-bit type of the x86 build ([to_char]); a cell of
      the CGA grid is an [unsigned short] ([to_ushort]).
    - Arrays are lists read with [cell] and written with [store].
    - The globals of the file are the fields of [state]; the code runs with
      [cons.lock] held, so one call is one state transformer.
    - [panic] never returns: it is the [panicked] flag, and no statement
      runs once it is set ([andthen]). *)

From Stdlib Require Import ZArith Lia Bool List String Ascii.
From stdpp Require Import base list list_numbers.

Local Open Scope Z_scope.

(** [lia] after the equations of every division and remainder. *)
Ltac zlia := Z.to_euclidean_division_equations; lia.

(** ** Machine integers *)

Definition to_uint (x : Z) : Z := x mod 2 ^ 32.
Definition to_ushort (x : Z) : Z := Z.land x 0xFFFF.
Definition to_char (x : Z) : Z := (x + 128) mod 256 - 128.

(** ** Arrays *)

(** [a[i]]; nothing is modelled outside the array, where a read gives a
    fixed value: 0 below it, the default of the total lookup past its end. *)
Definition cell (l : list Z) (i : Z) : Z :=
  if i <? 0 then 0 else l !!! Z.to_nat i.

(** [a[i] = v]; a store outside the array leaves the array as it is. *)
Definition store (l : list Z) (i v : Z) : list Z :=
  if i <? 0 then l else <[Z.to_nat i := v]> l.

(** [for (i = a; i < a + n; i++) a[i] = f(i, a[i]);] *)
Definition for_cells (a n : Z) (f : Z -> Z -> Z) (l : list Z) : list Z :=
  fold_left (fun l i => store l i (f i (cell l i))) (seqZ a n) l.

(** ** Constants of the file *)

Definition clrs : list Z :=
  [ 0x0000; 0x0000; 0x0100; 0x1000; 0x0200; 0x2000; 0x0300; 0x3000;
    0x0400; 0x4000; 0x0500; 0x5000; 0x0600; 0x6000; 0x0700; 0x7000 ].

Definition BACKSPACE : Z := 0x100.
Definition INPUT_BUF : Z := 128.

(** [C(x)] is [x - '@'] and [A(x)] is [x + 100]. *)
Definition C_P : Z := 16.
Definition C_U : Z := 21.
Definition C_H : Z := 8.
Definition C_D : Z := 4.
Definition DEL : Z := 0x7f.
Definition A_c : Z := 199.
Definition A_o : Z := 211.
Definition A_l : Z := 208.

Definition chars_of (s : string) : list Z :=
  map (fun a => Z.of_N (N_of_ascii a)) (list_ascii_of_string s).

Definition menustr : list Z := Eval vm_compute in
  chars_of "/---<FG>--- ---<BG>---\|Black     |Black     ||Blue      |Blue      ||Green     |Green     ||Aqua      |Aqua      ||Red       |Red       ||Purple    |Purple    ||Yellow    |Yellow    ||White     |White     |\---------------------/".

(** ** The globals *)

Record state := mkState {
  crt : list Z;               (* the CGA grid, 80 x 25 cells *)
  cursor : Z;                 (* CRT registers 14 and 15 *)
  uart : list Z;              (* arguments of uartputc, latest first *)
  currentColor : Z;
  panicked : bool;
  input_buf : list Z;         (* input.buf, INPUT_BUF chars *)
  input_r : Z;                (* input.r *)
  input_w : Z;                (* input.w *)
  input_e : Z;                (* input.e *)
  backgroundBackup : list Z;  (* 230 chars *)
  flagC : bool;
  flagO : bool;
  menuStatus : bool;
  currentSelection : Z;
  doprocdump : bool           (* the local of consoleintr *)
}.

Definition set_crt (v : list Z) (s : state) : state :=
  mkState v (cursor s) (uart s) (currentColor s) (panicked s)
    (input_buf s) (input_r s) (input_w s) (input_e s) (backgroundBackup s)
    (flagC s) (flagO s) (menuStatus s) (currentSelection s) (doprocdump s).
Definition set_cursor (v : Z) (s : state) : state :=
  mkState (crt s) v (uart s) (currentColor s) (panicked s)
    (input_buf s) (input_r s) (input_w s) (input_e s) (backgroundBackup s)
    (flagC s) (flagO s) (menuStatus s) (currentSelection s) (doprocdump s).
Definition set_uart (v : list Z) (s : state) : state :=
  mkState (crt s) (cursor s) v (currentColor s) (panicked s)
    (input_buf s) (input_r s) (input_w s) (input_e s) (backgroundBackup s)
    (flagC s) (flagO s) (menuStatus s) (currentSelection s) (doprocdump s).
Definition set_currentColor (v : Z) (s : state) : state :=
  mkState (crt s) (cursor s) (uart s) v (panicked s)
    (input_buf s) (input_r s) (input_w s) (input_e s) (backgroundBackup s)
    (flagC s) (flagO s) (menuStatus s) (currentSelection s) (doprocdump s).
Definition set_panicked (v : bool) (s : state) : state :=
  mkState (crt s) (cursor s) (uart s) (currentColor s) v
    (input_buf s) (input_r s) (input_w s) (input_e s) (backgroundBackup s)
    (flagC s) (flagO s) (menuStatus s) (currentSelection s) (doprocdump s).
Definition set_input_buf (v : list Z) (s : state) : state :=
  mkState (crt s) (cursor s) (uart s) (currentColor s) (panicked s)
    v (input_r s) (input_w s) (input_e s) (backgroundBackup s)
    (flagC s) (flagO s) (menuStatus s) (currentSelection s) (doprocdump s).
Definition set_input_r (v : Z) (s : state) : state :=
  mkState (crt s) (cursor s) (uart s) (currentColor s) (panicked s)
    (input_buf s) v (input_w s) (input_e s) (backgroundBackup s)
    (flagC s) (flagO s) (menuStatus s) (currentSelection s) (doprocdump s).
Definition set_input_w (v : Z) (s : state) : state :=
  mkState (crt s) (cursor s) (uart s) (currentColor s) (panicked s)
    (input_buf s) (input_r s) v (input_e s) (backgroundBackup s)
    (flagC s) (flagO s) (menuStatus s) (currentSelection s) (doprocdump s).
Definition set_input_e (v : Z) (s : state) : state :=
  mkState (crt s) (cursor s) (uart s) (currentColor s) (panicked s)
    (input_buf s) (input_r s) (input_w s) v (backgroundBackup s)
    (flagC s) (flagO s) (menuStatus s) (currentSelection s) (doprocdump s).
Definition set_backgroundBackup (v : list Z) (s : state) : state :=
  mkState (crt s) (cursor s) (uart s) (currentColor s) (panicked s)
    (input_buf s) (input_r s) (input_w s) (input_e s) v
    (flagC s) (flagO s) (menuStatus s) (currentSelection s) (doprocdump s).
Definition set_flagC (v : bool) (s : state) : state :=
  mkState (crt s) (cursor s) (uart s) (currentColor s) (panicked s)
    (input_buf s) (input_r s) (input_w s) (input_e s) (backgroundBackup s)
    v (flagO s) (menuStatus s) (currentSelection s) (doprocdump s).
Definition set_flagO (v : bool) (s : state) : state :=
  mkState (crt s) (cursor s) (uart s) (currentColor s) (panicked s)
    (input_buf s) (input_r s) (input_w s) (input_e s) (backgroundBackup s)
    (flagC s) v (menuStatus s) (currentSelection s) (doprocdump s).
Definition set_menuStatus (v : bool) (s : state) : state :=
  mkState (crt s) (cursor s) (uart s) (currentColor s) (panicked s)
    (input_buf s) (input_r s) (input_w s) (input_e s) (backgroundBackup s)
    (flagC s) (flagO s) v (currentSelection s) (doprocdump s).
Definition set_currentSelection (v : Z) (s : state) : state :=
  mkState (crt s) (cursor s) (uart s) (currentColor s) (panicked s)
    (input_buf s) (input_r s) (input_w s) (input_e s) (backgroundBackup s)
    (flagC s) (flagO s) (menuStatus s) v (doprocdump s).
Definition set_doprocdump (v : bool) (s : state) : state :=
  mkState (crt s) (cursor s) (uart s) (currentColor s) (panicked s)
    (input_buf s) (input_r s) (input_w s) (input_e s) (backgroundBackup s)
    (flagC s) (flagO s) (menuStatus s) (currentSelection s) v.

(** [f; g] where [f] may end in [panic]. *)
Definition andthen (f g : state -> state) (s : state) : state :=
  let s' := f s in if panicked s' then s' else g s'.

Notation "f >> g" := (andthen f g) (at level 62, left associativity).

(** The globals as the kernel image initialises them; the grid and the
    cursor are what the firmware leaves behind. *)
Definition boot (grid : list Z) (pos : Z) : state :=
  mkState grid pos [] 0x0700 false
    (replicate 128 0) 0 0 0 (replicate 230 0)
    false false false 0 false.

(** ** Output: cgaputc and consputc *)

(** [panic]: the diagnostic goes to the formatted printer, the CPU stops. *)
Definition panic (s : state) : state := set_panicked true s.

(** The cursor after the character, before the range check. *)
Definition advance (c pos : Z) : Z :=
  if c =? 10 then pos + (80 - Z.rem pos 80)
  else if c =? BACKSPACE then (if 0 <? pos then pos - 1 else pos)
  else pos + 1.

Definition repaintLastRow (s : state) : state :=
  set_crt (for_cells 1840 80
             (fun _ v => to_ushort (Z.lor (Z.land v 0xff) (currentColor s)))
             (crt s)) s.

(** The scroll block of cgaputc, entered with the cursor at [pos]:
    memmove of 23 rows, [pos -= 80], memset up to the end of row 23,
    and the repaint.  It gives the new [pos] with the state. *)
Definition scroll (pos : Z) (s : state) : Z * state :=
  let g := crt s in
  let moved := take 1840 (drop 80 g) ++ drop 1840 g in
  let pos := pos - 80 in
  let cleared := for_cells pos (24 * 80 - pos) (fun _ _ => 0) moved in
  let s := set_crt cleared s in
  (pos, if currentColor s =? 0x0700 then s else repaintLastRow s).

(** [crt[pos++] = (c&0xff) | currentColor] of the last branch. *)
Definition draw (c : Z) (s : state) : state :=
  if (c =? 10) || (c =? BACKSPACE) then s
  else set_crt (store (crt s) (cursor s)
                  (to_ushort (Z.lor (Z.land c 0xff) (currentColor s)))) s.

(** The end of cgaputc: the cursor registers, one byte each, and the
    blank under the cursor. *)
Definition park (pos : Z) (s : state) : state :=
  let s := set_cursor (to_ushort pos) s in
  set_crt (store (crt s) pos (to_ushort (Z.lor 32 (currentColor s)))) s.

Definition cgaputc (c : Z) (s : state) : state :=
  let pos := advance c (cursor s) in
  let s := draw c s in
  if (pos <? 0) || (25 * 80 <? pos) then panic s
  else
    let '(pos, s) := if 24 <=? Z.quot pos 80 then scroll pos s else (pos, s) in
    park pos s.

Definition uartputc (c : Z) (s : state) : state := set_uart (c :: uart s) s.

Definition consputc (c : Z) (s : state) : state :=
  if panicked s then s
  else
    let s := if c =? BACKSPACE
             then uartputc 8 (uartputc 32 (uartputc 8 s))
             else uartputc c s in
    cgaputc c s.

Definition consolewrite (buf : list Z) (s : state) : state * Z :=
  (fold_left (fun s b => if panicked s then s else consputc (Z.land b 0xff) s) buf s,
   Z.of_nat (length buf)).

(** ** The colour menu *)

Definition showMenu (s : state) : state :=
  set_crt (snd (fold_left
    (fun '(startingPosition, g) i =>
       let startingPosition :=
         if Z.rem i 23 =? 0 then 57 + 80 * Z.quot i 23 else startingPosition in
       (startingPosition + 1,
        store g startingPosition
          (to_ushort (Z.lor (Z.land (cell menustr i) 0xff) 0x0f00))))
    (seqZ 0 230) (57, crt s))) s.

(** [backgroundBackup] is an array of [char]: the cell is cut to 8 bits. *)
Definition saveBackground (s : state) : state :=
  set_backgroundBackup (snd (fold_left
    (fun '(startingPosition, bk) i =>
       let startingPosition :=
         if Z.rem i 23 =? 0 then 57 + 80 * Z.quot i 23 else startingPosition in
       (startingPosition + 1,
        store bk i (to_char (cell (crt s) startingPosition))))
    (seqZ 0 230) (57, backgroundBackup s))) s.

(** The saved [char] is promoted to [int] before the [|]. *)
Definition loadBackground (s : state) : state :=
  set_crt (snd (fold_left
    (fun '(startingPosition, g) i =>
       let startingPosition :=
         if Z.rem i 23 =? 0 then 57 + 80 * Z.quot i 23 else startingPosition in
       (startingPosition + 1,
        store g startingPosition
          (to_ushort (Z.lor (cell (backgroundBackup s) i) (currentColor s)))))
    (seqZ 0 230) (57, crt s))) s.

Definition getColor (s : state) : state :=
  let sel := currentSelection s in
  if negb (Z.rem sel 2 =? 0)
  then set_currentColor
         (Z.lor (Z.land (currentColor s) 0x0fff) (cell clrs sel)) s
  else set_currentColor
         (Z.lor (Z.land (currentColor s) 0xf0ff) (cell clrs sel)) s.

Definition getBrightColor (s : state) : state :=
  let sel := currentSelection s in
  if negb (Z.rem sel 2 =? 0)
  then set_currentColor
         (Z.lor (Z.land (currentColor s) 0x0fff) (cell clrs sel + 0x8000)) s
  else set_currentColor
         (Z.lor (Z.land (currentColor s) 0xf0ff) (cell clrs sel + 0x0800)) s.

Definition repaint (s : state) : state :=
  set_crt (for_cells 0 2000
             (fun _ v => to_ushort (Z.lor (Z.land v 0xff) (currentColor s)))
             (crt s)) s.

(** The parameter is a [char]. *)
Definition handleInput (c : Z) (s : state) : state :=
  let c := to_char c in
  let sel := currentSelection s in
  if c =? 115 (* 's' *) then set_currentSelection (Z.rem (sel + 2) 16) s
  else if c =? 119 (* 'w' *) then set_currentSelection (Z.rem (sel - 2 + 16) 16) s
  else if (c =? 100) || (c =? 97) (* 'd', 'a' *) then
    set_currentSelection (if negb (Z.rem sel 2 =? 0) then sel - 1 else sel + 1) s
  else if c =? 101 (* 'e' *) then repaint (getColor s)
  else if c =? 114 (* 'r' *) then repaint (getBrightColor s)
  else s.

Definition computeLowerBound (x : Z) : Z :=
  let startingbound := if negb (Z.rem x 2 =? 0) then 149 else 138 in
  startingbound + Z.quot x 2 * 80.

Definition displaySelection (cur : Z) (s : state) : state :=
  set_crt (for_cells (computeLowerBound cur) 10
             (fun _ v => to_ushort (Z.lor (Z.land v 0xff) 0xf000))
             (crt s)) s.

(** ** Input: consoleintr *)

Definition clearFlags (s : state) : state := set_flagO false (set_flagC false s).

(** The loop of the kill-line case.  [input.e] reaches [input.w] after
    [input.e - input.w] rounds at the latest, which bounds the loop. *)
Fixpoint kill_line (rounds : nat) (s : state) : state :=
  match rounds with
  | O => s
  | S rounds =>
      if negb (input_e s =? input_w s) &&
         negb (cell (input_buf s) (to_uint (input_e s - 1) mod INPUT_BUF) =? 10)
      then
        let s := set_input_e (to_uint (input_e s - 1)) s in
        (consputc BACKSPACE >> kill_line rounds) s
      else s
  end.

(** The else branch of the default case: the character goes to the menu. *)
Definition menu_forward (c : Z) (s : state) : state :=
  let s := handleInput c s in
  let s := showMenu s in
  let s := displaySelection (currentSelection s) s in
  if negb (c =? 0) then clearFlags s else s.

(** The then branch of the default case: the character goes to the line.
    (The wakeup of the readers belongs to the scheduler.) *)
Definition line_input (c : Z) (s : state) : state :=
  if negb (c =? 0) && (to_uint (input_e s - input_r s) <? INPUT_BUF) then
    let s := clearFlags s in
    let c := if c =? 13 then 10 else c in
    let s := set_input_buf
               (store (input_buf s) (input_e s mod INPUT_BUF) (to_char c)) s in
    let s := set_input_e (to_uint (input_e s + 1)) s in
    (consputc c >>
     (fun s => if (c =? 10) || (c =? C_D)
                  || (input_e s =? to_uint (input_r s + INPUT_BUF))
               then set_input_w (input_e s) s else s)) s
  else s.

(** The body of the loop of consoleintr for one character [c >= 0]. *)
Definition consoleintr_char (c : Z) (s : state) : state :=
  if panicked s then s
  else if c =? C_P then clearFlags (set_doprocdump true s)
  else if c =? C_U then
    (kill_line (Z.to_nat (to_uint (input_e s - input_w s))) >> clearFlags) s
  else if (c =? C_H) || (c =? DEL) then
    ((fun s => if negb (menuStatus s) && negb (input_e s =? input_w s)
               then consputc BACKSPACE (set_input_e (to_uint (input_e s - 1)) s)
               else s) >> clearFlags) s
  else if c =? A_c then set_flagO false (set_flagC true s)
  else if c =? A_o then
    (if flagO s then clearFlags s
     else if flagC s then set_flagO true s else clearFlags s)
  else if c =? A_l then
    clearFlags
      (if flagC s && flagO s
       then set_menuStatus (negb (menuStatus s))
              (if menuStatus s then loadBackground s else saveBackground s)
       else s)
  else if negb (menuStatus s) then line_input c s
  else menu_forward c s.

(** The characters that reach the default case of the switch. *)
Definition is_default (c : Z) : bool :=
  negb ((c =? C_P) || (c =? C_U) || (c =? C_H) || (c =? DEL)
        || (c =? A_c) || (c =? A_o) || (c =? A_l)).

(** The characters [getc] delivers, over any number of interrupts. *)
Definition keys (cs : list Z) (s : state) : state :=
  fold_left (fun s c => consoleintr_char c s) cs s.

(** One interrupt: [getc] gives the elements of [cs] and then -1. *)
Fixpoint consoleintr_loop (cs : list Z) (s : state) : state :=
  match cs with
  | [] => s
  | c :: cs => if c <? 0 then s else consoleintr_loop cs (consoleintr_char c s)
  end.

Definition consoleintr (cs : list Z) (s : state) : state :=
  if panicked s then s else consoleintr_loop cs (set_doprocdump false s).

(** ** The reader: consoleread *)

Inductive read_result :=
| ReadDone (s : state) (dst : list Z) (ret : Z)  (* returned [ret] *)
| ReadSleep (s : state) (dst : list Z) (n : nat) (* in [sleep], [n] to go *)
| ReadKilled (s : state) (dst : list Z).         (* returned -1 *)

(** The outer loop, by recursion on its own counter [n]; [dst] is what has
    been stored through the destination pointer so far.  A reader woken
    from [sleep] goes on in the same loop with the state it finds. *)
Fixpoint consoleread_loop (killed : bool) (target : Z) (n : nat)
    (dst : list Z) (s : state) : read_result :=
  match n with
  | O => ReadDone s dst target
  | S n' =>
      if input_r s =? input_w s then
        (if killed then ReadKilled s dst else ReadSleep s dst n)
      else
        let c := cell (input_buf s) (input_r s mod INPUT_BUF) in
        let s := set_input_r (to_uint (input_r s + 1)) s in
        if c =? C_D then
          ReadDone (if Z.of_nat n <? target
                    then set_input_r (to_uint (input_r s - 1)) s else s)
                   dst (target - Z.of_nat n)
        else
          let dst := dst ++ [to_char c] in
          if c =? 10 then ReadDone s dst (target - Z.of_nat n')
          else consoleread_loop killed target n' dst s
  end.

(** With [n <= 0] the loop is not entered and [target - n] is 0. *)
Definition consoleread (killed : bool) (n : Z) (s : state) : read_result :=
  if n <=? 0 then ReadDone s [] 0
  else consoleread_loop killed n (Z.to_nat n) [] s.

Definition result_state (r : read_result) : state :=
  match r with
  | ReadDone s _ _ | ReadSleep s _ _ | ReadKilled s _ => s
  end.

(** ** Trial runs *)

Definition blank : state := boot (replicate 2000 0) 0.

Example hi_line :
  consoleread false 16 (keys [104; 105; 10] blank)
  = ReadDone (set_input_r 3 (keys [104; 105; 10] blank)) [104; 105; 10] 3.
Proof. vm_compute. reflexivity. Qed.

Example menustr_length : length menustr = 230%nat.
Proof. reflexivity. Qed.

(** * Properties *)

(** ** Arrays *)

Lemma to_ushort_mod (x : Z) : to_ushort x = x mod 65536.
Proof. unfold to_ushort. change 0xFFFF with (Z.ones 16). now rewrite Z.land_ones. Qed.

Lemma to_ushort_small (x : Z) : 0 <= x < 65536 -> to_ushort x = x.
Proof. intros H. rewrite to_ushort_mod. now apply Z.mod_small. Qed.

Lemma length_store (l : list Z) (i v : Z) : length (store l i v) = length l.
Proof. unfold store. destruct (i <? 0); [reflexivity | apply length_insert]. Qed.

Lemma cell_store_eq (l : list Z) (i v : Z) :
  0 <= i < Z.of_nat (length l) -> cell (store l i v) i = v.
Proof.
  intros H. unfold cell, store.
  destruct (i <? 0) eqn:E; [lia |].
  apply list_lookup_total_insert_eq. lia.
Qed.

Lemma cell_store_ne (l : list Z) (i j v : Z) :
  i <> j -> cell (store l i v) j = cell l j.
Proof.
  intros H. unfold cell, store.
  destruct (j <? 0) eqn:Ej; [reflexivity |].
  destruct (i <? 0) eqn:Ei; [reflexivity |].
  apply list_lookup_total_insert_ne. lia.
Qed.

Lemma store_outside (l : list Z) (i v : Z) :
  Z.of_nat (length l) <= i -> store l i v = l.
Proof.
  intros H. unfold store. destruct (i <? 0) eqn:E; [reflexivity |].
  apply list_insert_ge. lia.
Qed.

Lemma for_cells_step (a n : Z) (f : Z -> Z -> Z) (l : list Z) :
  0 < n ->
  for_cells a n f l = for_cells (a + 1) (n - 1) f (store l a (f a (cell l a))).
Proof.
  intros H. unfold for_cells. rewrite (seqZ_cons a n) by lia.
  replace (Z.succ a) with (a + 1) by lia.
  replace (Z.pred n) with (n - 1) by lia. reflexivity.
Qed.

Lemma for_cells_done (a n : Z) (f : Z -> Z -> Z) (l : list Z) :
  n <= 0 -> for_cells a n f l = l.
Proof. intros H. unfold for_cells. now rewrite seqZ_nil. Qed.

Lemma length_for_cells (a n : Z) (f : Z -> Z -> Z) (l : list Z) :
  length (for_cells a n f l) = length l.
Proof.
  destruct (Z_le_gt_dec n 0) as [Hn | Hn]; [now rewrite for_cells_done |].
  rewrite <- (Z2Nat.id n) by lia.
  generalize (Z.to_nat n) as k. clear Hn n. intros k. revert a l.
  induction k as [| k IH]; intros a l.
  - now rewrite for_cells_done.
  - rewrite for_cells_step by lia.
    replace (Z.of_nat (S k) - 1) with (Z.of_nat k) by lia.
    rewrite IH. apply length_store.
Qed.

(** Every other cell is left alone. *)
Lemma cell_for_cells_out (a n : Z) (f : Z -> Z -> Z) (l : list Z) (j : Z) :
  j < a \/ a + n <= j -> cell (for_cells a n f l) j = cell l j.
Proof.
  intros Hj.
  destruct (Z_le_gt_dec n 0) as [Hn | Hn]; [now rewrite for_cells_done |].
  revert Hj. rewrite <- (Z2Nat.id n) by lia.
  generalize (Z.to_nat n) as k. clear Hn n. intros k. revert a l.
  induction k as [| k IH]; intros a l Hj.
  - now rewrite for_cells_done.
  - rewrite for_cells_step by lia.
    replace (Z.of_nat (S k) - 1) with (Z.of_nat k) by lia.
    rewrite IH by lia. apply cell_store_ne. lia.
Qed.

(** A cell inside the range and inside the array is rewritten once. *)
Lemma cell_for_cells_in (a n : Z) (f : Z -> Z -> Z) (l : list Z) (j : Z) :
  a <= j < a + n -> 0 <= j < Z.of_nat (length l) ->
  cell (for_cells a n f l) j = f j (cell l j).
Proof.
  intros Hj Hl. assert (Hn : 0 < n) by lia.
  revert Hj. rewrite <- (Z2Nat.id n) by lia.
  generalize (Z.to_nat n) as k. clear Hn n. intros k. revert a l Hl.
  induction k as [| k IH]; intros a l Hl Hj; [lia |].
  rewrite for_cells_step by lia.
  replace (Z.of_nat (S k) - 1) with (Z.of_nat k) by lia.
  destruct (Z.eq_dec a j) as [-> | Hne].
  - rewrite cell_for_cells_out by lia. now apply cell_store_eq.
  - rewrite IH; [| rewrite length_store; lia | lia].
    f_equal. apply cell_store_ne. exact Hne.
Qed.

(** ** The screen: cgaputc and its scroll *)

Ltac open_put :=
  unfold consputc, cgaputc, draw, park, scroll, repaintLastRow, uartputc, panic;
  cbv zeta.

Ltac split_ifs :=
  repeat match goal with
         | |- context [if ?b then _ else _] => destruct b
         end.

(** cgaputc writes the grid, the cursor and [panicked], consputc the
    serial line as well; nothing else. *)
Lemma cgaputc_shape (c : Z) (s : state) :
  exists g p h,
    cgaputc c s
    = mkState g p (uart s) (currentColor s) h
        (input_buf s) (input_r s) (input_w s) (input_e s)
        (backgroundBackup s) (flagC s) (flagO s) (menuStatus s)
        (currentSelection s) (doprocdump s).
Proof.
  destruct s. open_put. cbn. split_ifs; eexists _, _, _; reflexivity.
Qed.

Lemma consputc_shape (c : Z) (s : state) :
  exists g p u h,
    consputc c s
    = mkState g p u (currentColor s) h
        (input_buf s) (input_r s) (input_w s) (input_e s)
        (backgroundBackup s) (flagC s) (flagO s) (menuStatus s)
        (currentSelection s) (doprocdump s).
Proof.
  unfold consputc. destruct (panicked s) eqn:Hp.
  - destruct s. eexists _, _, _, _. reflexivity.
  - set (s1 := if c =? BACKSPACE then _ else _).
    destruct (cgaputc_shape c s1) as (g & p & h & ->).
    unfold s1, uartputc. destruct (c =? BACKSPACE);
      eexists _, _, _, _; reflexivity.
Qed.

Ltac frame_put :=
  intros;
  match goal with
  | |- context [consputc ?c ?s] =>
      destruct (consputc_shape c s) as (? & ? & ? & ? & ->); reflexivity
  | |- context [cgaputc ?c ?s] =>
      destruct (cgaputc_shape c s) as (? & ? & ? & ->); reflexivity
  end.

Lemma cgaputc_currentColor c s : currentColor (cgaputc c s) = currentColor s.
Proof. frame_put. Qed.
Lemma cgaputc_uart c s : uart (cgaputc c s) = uart s.
Proof. frame_put. Qed.

Lemma consputc_currentColor c s : currentColor (consputc c s) = currentColor s.
Proof. frame_put. Qed.
Lemma consputc_input_buf c s : input_buf (consputc c s) = input_buf s.
Proof. frame_put. Qed.
Lemma consputc_input_r c s : input_r (consputc c s) = input_r s.
Proof. frame_put. Qed.
Lemma consputc_input_w c s : input_w (consputc c s) = input_w s.
Proof. frame_put. Qed.
Lemma consputc_input_e c s : input_e (consputc c s) = input_e s.
Proof. frame_put. Qed.
Lemma consputc_backgroundBackup c s :
  backgroundBackup (consputc c s) = backgroundBackup s.
Proof. frame_put. Qed.
Lemma consputc_flagC c s : flagC (consputc c s) = flagC s.
Proof. frame_put. Qed.
Lemma consputc_flagO c s : flagO (consputc c s) = flagO s.
Proof. frame_put. Qed.
Lemma consputc_menuStatus c s : menuStatus (consputc c s) = menuStatus s.
Proof. frame_put. Qed.
Lemma consputc_currentSelection c s :
  currentSelection (consputc c s) = currentSelection s.
Proof. frame_put. Qed.
Lemma consputc_doprocdump c s : doprocdump (consputc c s) = doprocdump s.
Proof. frame_put. Qed.

Create Rewrite HintDb putframe.
#[export] Hint Rewrite consputc_currentColor consputc_input_buf consputc_input_r
  consputc_input_w consputc_input_e consputc_backgroundBackup consputc_flagC
  consputc_flagO consputc_menuStatus consputc_currentSelection
  consputc_doprocdump : putframe.

(** The cursor is on one of the rows 0..23 and the CPU runs: what cgaputc
    leaves behind, and what it needs to find. *)
Definition on_rows (s : state) : Prop :=
  panicked s = false /\ 0 <= cursor s < 1920.

Lemma advance_bounds (c p : Z) :
  0 <= p < 1920 -> 0 <= advance c p <= 1920.
Proof.
  intros H. unfold advance, BACKSPACE.
  destruct (c =? 10); [zlia |].
  destruct (c =? 256); [destruct (0 <? p) eqn:E; lia | lia].
Qed.

Lemma advance_on_screen (c p : Z) :
  0 <= p < 2000 -> 0 <= advance c p <= 2000.
Proof.
  intros H. unfold advance, BACKSPACE.
  destruct (c =? 10); [zlia |].
  destruct (c =? 256); [destruct (0 <? p) eqn:E; lia | lia].
Qed.

Lemma cgaputc_panicked (c : Z) (s : state) :
  panicked (cgaputc c s)
  = panicked s
    || ((advance c (cursor s) <? 0) || (25 * 80 <? advance c (cursor s))).
Proof.
  open_put.
  destruct ((advance c (cursor s) <? 0) || (25 * 80 <? advance c (cursor s))).
  - split_ifs; cbn; now rewrite ?orb_true_r.
  - split_ifs; cbn; now rewrite ?orb_false_r.
Qed.

Lemma cgaputc_cursor (c : Z) (s : state) :
  0 <= advance c (cursor s) <= 2000 ->
  cursor (cgaputc c s)
  = if 24 <=? Z.quot (advance c (cursor s)) 80
    then advance c (cursor s) - 80 else advance c (cursor s).
Proof.
  intros H. open_put.
  destruct ((advance c (cursor s) <? 0) || (25 * 80 <? advance c (cursor s)))
    eqn:E; [lia |].
  destruct (24 <=? Z.quot (advance c (cursor s)) 80) eqn:E24.
  - split_ifs; cbn; apply to_ushort_small; zlia.
  - split_ifs; cbn; apply to_ushort_small; zlia.
Qed.

Lemma cgaputc_on_rows (c : Z) (s : state) : on_rows s -> on_rows (cgaputc c s).
Proof.
  intros [Hp Hc]. pose proof (advance_bounds c _ Hc) as Ha. split.
  - rewrite cgaputc_panicked, Hp. cbn. lia.
  - rewrite cgaputc_cursor by lia.
    destruct (24 <=? Z.quot (advance c (cursor s)) 80) eqn:E; zlia.
Qed.

Lemma consputc_on_rows (c : Z) (s : state) : on_rows s -> on_rows (consputc c s).
Proof.
  intros [Hp Hc]. unfold consputc. rewrite Hp.
  apply cgaputc_on_rows. unfold uartputc.
  destruct (c =? BACKSPACE); (split; [exact Hp | exact Hc]).
Qed.

Lemma consputc_runs (c : Z) (s : state) :
  on_rows s -> panicked (consputc c s) = false.
Proof. intros H. now destruct (consputc_on_rows c s H). Qed.

(** C9. From an entry with the cursor on one of the rows 0..23 (the
    positions cgaputc itself leaves, see [cgaputc_on_rows]) and for every
    character, the position cgaputc computes stays within [0, 2000], the
    fatal halt is not taken, and the cursor is left on a row below 24.  For
    every entry state the halt is taken exactly when the computed position
    is outside [0, 2000]. *)
Theorem cgaputc_cursor_in_range (c : Z) (s : state) :
  on_rows s ->
  0 <= advance c (cursor s) <= 25 * 80
  /\ panicked (cgaputc c s) = false
  /\ 0 <= cursor (cgaputc c s)
  /\ Z.quot (cursor (cgaputc c s)) 80 < 24
  /\ (forall c' s', panicked s' = false ->
        panicked (cgaputc c' s') = true <->
        advance c' (cursor s') < 0 \/ 25 * 80 < advance c' (cursor s')).
Proof.
  intros H. destruct (cgaputc_on_rows c s H) as [Hp Hc].
  destruct H as [_ Hs]. pose proof (advance_bounds c _ Hs).
  repeat split; try lia; try zlia; try assumption.
  - intros Hh. rewrite cgaputc_panicked, H0 in Hh. cbn in Hh. lia.
  - intros Hh. rewrite cgaputc_panicked, H0. cbn. lia.
Qed.

Lemma cgaputc_cursor_in_range_witness :
  on_rows (boot (replicate 2000 0) 1919)
  /\ cursor (cgaputc 120 (boot (replicate 2000 0) 1919)) = 1840
  /\ Z.quot (cursor (cgaputc 120 (boot (replicate 2000 0) 1919))) 80 < 24.
Proof.
  assert (H : on_rows (boot (replicate 2000 0) 1919))
    by (split; [reflexivity | cbn; lia]).
  split; [exact H |]. split; [vm_compute; reflexivity |].
  apply (cgaputc_cursor_in_range 120 _ H).
Defined.

(** An entry anywhere on the 25 rows does not halt either. *)
Lemma cgaputc_on_screen (c : Z) (s : state) :
  panicked s = false -> 0 <= cursor s < 25 * 80 ->
  panicked (cgaputc c s) = false /\ 0 <= cursor (cgaputc c s) <= 24 * 80.
Proof.
  intros Hp Hc. pose proof (advance_on_screen c _ Hc) as Ha. split.
  - rewrite cgaputc_panicked, Hp. cbn. lia.
  - rewrite cgaputc_cursor by lia.
    destruct (24 <=? Z.quot (advance c (cursor s)) 80) eqn:E; zlia.
Qed.

Lemma cell_moved (g : list Z) (i : Z) :
  length g = 2000%nat -> 0 <= i < 2000 ->
  cell (take 1840 (drop 80 g) ++ drop 1840 g) i
  = if i <? 1840 then cell g (i + 80) else cell g i.
Proof.
  intros Hl Hi. unfold cell.
  destruct (i <? 0) eqn:E0; [lia |].
  destruct (i + 80 <? 0) eqn:E1; [lia |].
  assert (Ht : length (take 1840 (drop 80 g)) = 1840%nat)
    by (rewrite length_take, length_drop; lia).
  destruct (i <? 1840) eqn:E.
  - rewrite lookup_total_app_l by lia.
    rewrite lookup_total_take_lt by lia.
    rewrite lookup_total_drop. f_equal. lia.
  - rewrite lookup_total_app_r by lia.
    rewrite lookup_total_drop. f_equal. lia.
Qed.

Lemma length_moved (g : list Z) :
  length g = 2000%nat -> length (take 1840 (drop 80 g) ++ drop 1840 g) = 2000%nat.
Proof.
  intros Hl. rewrite length_app, length_take, !length_drop. lia.
Qed.

Lemma scroll_length (pos : Z) (s : state) :
  length (crt s) = 2000%nat -> length (crt (snd (scroll pos s))) = 2000%nat.
Proof.
  intros Hl. unfold scroll, repaintLastRow. cbv zeta. cbn [snd].
  destruct (currentColor _ =? 0x0700); cbn [crt set_crt];
    rewrite ?length_for_cells; now apply length_moved.
Qed.

(** The pieces of cgaputc when the new position is on row 24 or at 2000,
    and when it is on a row above. *)
Lemma cgaputc_scrolls (c : Z) (s : state) :
  24 * 80 <= advance c (cursor s) <= 25 * 80 ->
  cgaputc c s
  = park (fst (scroll (advance c (cursor s)) (draw c s)))
         (snd (scroll (advance c (cursor s)) (draw c s))).
Proof.
  intros H. unfold cgaputc. cbv zeta.
  destruct ((advance c (cursor s) <? 0) || (25 * 80 <? advance c (cursor s)))
    eqn:E; [lia |].
  destruct (24 <=? Z.quot (advance c (cursor s)) 80) eqn:E24; [| zlia].
  now destruct (scroll (advance c (cursor s)) (draw c s)).
Qed.

Lemma cgaputc_stays (c : Z) (s : state) :
  0 <= advance c (cursor s) < 24 * 80 ->
  cgaputc c s = park (advance c (cursor s)) (draw c s).
Proof.
  intros H. unfold cgaputc. cbv zeta.
  destruct ((advance c (cursor s) <? 0) || (25 * 80 <? advance c (cursor s)))
    eqn:E; [lia |].
  destruct (24 <=? Z.quot (advance c (cursor s)) 80) eqn:E24; [zlia |].
  reflexivity.
Qed.

(** C8, as the code has it.  cgaputc scrolls exactly when its new position
    is on row 24 or beyond (one past row 23, the last row in use).  The
    scroll copies rows 1..23 up to rows 0..22, leaves row 24 as it is,
    moves the cursor back by 80, zeroes row 23 from the new cursor to its
    end (all of row 23 when the position was 1920), and repaints the
    attribute byte of row 23 with the pen colour if and only if the pen
    colour is not 0x0700. *)
Theorem scroll_rows (pos : Z) (s : state) :
  length (crt s) = 2000%nat -> 24 * 80 <= pos <= 25 * 80 ->
  let s' := snd (scroll pos s) in
  let pen v := to_ushort (Z.lor (Z.land v 0xff) (currentColor s)) in
  fst (scroll pos s) = pos - 80
  /\ (forall i, 0 <= i < 23 * 80 -> cell (crt s') i = cell (crt s) (i + 80))
  /\ (forall i, pos - 80 <= i < 24 * 80 ->
        cell (crt s') i = if currentColor s =? 0x0700 then 0 else pen 0)
  /\ (forall i, 23 * 80 <= i < pos - 80 ->
        cell (crt s') i
        = if currentColor s =? 0x0700 then cell (crt s) i
          else pen (cell (crt s) i))
  /\ (forall i, 24 * 80 <= i < 25 * 80 -> cell (crt s') i = cell (crt s) i)
  /\ (forall c s0, 24 * 80 <= advance c (cursor s0) <= 25 * 80 ->
        cgaputc c s0
        = park (fst (scroll (advance c (cursor s0)) (draw c s0)))
               (snd (scroll (advance c (cursor s0)) (draw c s0))))
  /\ (forall c s0, 0 <= advance c (cursor s0) < 24 * 80 ->
        cgaputc c s0 = park (advance c (cursor s0)) (draw c s0)).
Proof.
  intros Hl Hp s' pen. subst s'.
  pose proof (length_moved _ Hl) as Hm.
  split; [reflexivity |].
  unfold scroll, repaintLastRow. cbv zeta. cbn [snd fst].
  repeat split.
  - intros i Hi.
    destruct (currentColor _ =? 0x0700); cbn [crt set_crt];
      rewrite ?(cell_for_cells_out 1840) by lia;
      rewrite cell_for_cells_out by lia;
      rewrite cell_moved by lia;
      (destruct (i <? 1840) eqn:E; [reflexivity | lia]).
  - intros i Hi. cbn [currentColor set_crt].
    destruct (currentColor s =? 0x0700); cbn [crt set_crt].
    + rewrite cell_for_cells_in; [reflexivity | lia | lia].
    + rewrite cell_for_cells_in;
        [| lia | rewrite length_for_cells; lia].
      rewrite cell_for_cells_in; [reflexivity | lia | lia].
  - intros i Hi. cbn [currentColor set_crt].
    destruct (currentColor s =? 0x0700); cbn [crt set_crt].
    + rewrite cell_for_cells_out by lia. rewrite cell_moved by lia.
      destruct (i <? 1840) eqn:E; [lia | reflexivity].
    + rewrite cell_for_cells_in;
        [| lia | rewrite length_for_cells; lia].
      rewrite cell_for_cells_out by lia. rewrite cell_moved by lia.
      destruct (i <? 1840) eqn:E; [lia | reflexivity].
  - intros i Hi.
    destruct (currentColor _ =? 0x0700); cbn [crt set_crt];
      rewrite ?(cell_for_cells_out 1840) by lia;
      rewrite cell_for_cells_out by lia;
      rewrite cell_moved by lia;
      (destruct (i <? 1840) eqn:E; [lia | reflexivity]).
  - intros c s0 H. now apply cgaputc_scrolls.
  - intros c s0 H. now apply cgaputc_stays.
Qed.

Lemma scroll_rows_witness :
  fst (scroll 1920 blank) = 1920 - 80
  /\ cell (crt (snd (scroll 1920 blank))) 1840 = 0.
Proof.
  pose proof (scroll_rows 1920 blank eq_refl ltac:(lia)) as H.
  cbv zeta in H. destruct H as (H1 & _ & H3 & _).
  split; [exact H1 | exact (H3 1840 ltac:(lia))].
Defined.

(** A grid with a letter on row 24 and another on row 1. *)
Definition lettered : list Z :=
  <[1921%nat := 0x0741]> (<[80%nat := 0x0742]> (replicate 2000 0x0720)).

(** C8 as stated fails.  A character put at 1919 brings the cursor to row
    24 and scrolls: the letter of row 24 is neither copied up to row 23 nor
    cleared.  A character put at 1850 leaves the cursor on row 23, the last
    row in use, and nothing scrolls: row 0 does not receive row 1. *)
Lemma scroll_rows_counterexample :
  Z.quot (advance 120 1919) 80 = 24
  /\ cell lettered 1921 = 0x0741
  /\ cell (crt (cgaputc 120 (boot lettered 1919))) 1841 = 0
  /\ cell (crt (cgaputc 120 (boot lettered 1919))) 1921 = 0x0741
  /\ cell (crt (cgaputc 120 (boot lettered 1919))) 0 = 0x0742
  /\ cursor (cgaputc 120 (boot lettered 1850)) = 23 * 80 + 11
  /\ cell lettered 80 = 0x0742
  /\ cell (crt (cgaputc 120 (boot lettered 1850))) 0 = 0x0720.
Proof. vm_compute. repeat split; reflexivity. Qed.

(** ** What the menu and the screen code leave alone *)

Ltac open_menu :=
  unfold menu_forward, handleInput, repaint, getColor, getBrightColor,
    showMenu, displaySelection, saveBackground, loadBackground, clearFlags;
  cbv zeta.

Ltac frame_menu := intros; open_menu; split_ifs; reflexivity.

(** The three indices of the input buffer. *)
Definition indices (s : state) : Z * Z * Z := (input_r s, input_w s, input_e s).

Lemma consputc_indices c s : indices (consputc c s) = indices s.
Proof. unfold indices. now autorewrite with putframe. Qed.
Lemma clearFlags_indices s : indices (clearFlags s) = indices s.
Proof. reflexivity. Qed.
Lemma menu_forward_indices c s : indices (menu_forward c s) = indices s.
Proof. frame_menu. Qed.
Lemma saveBackground_indices s : indices (saveBackground s) = indices s.
Proof. reflexivity. Qed.
Lemma loadBackground_indices s : indices (loadBackground s) = indices s.
Proof. reflexivity. Qed.

(** ** C2: the indices of the input buffer *)

(** [read <= write <= edit <= read + N] on indices that are not wrapped:
    the three [uint] fields are such indices cut to 32 bits. *)
Definition buf_inv (s : state) : Prop :=
  exists R W E : Z,
    input_r s = to_uint R /\ input_w s = to_uint W /\ input_e s = to_uint E
    /\ R <= W /\ W <= E /\ E <= R + INPUT_BUF.

(** The same on the fields, with the distances the code computes. *)
Definition indices_ok (i : Z * Z * Z) : Prop :=
  let '(r, w, e) := i in
  0 <= r < 2 ^ 32 /\ 0 <= w < 2 ^ 32 /\ 0 <= e < 2 ^ 32
  /\ to_uint (w - r) <= to_uint (e - r) <= INPUT_BUF.

Lemma buf_inv_indices (s : state) : buf_inv s <-> indices_ok (indices s).
Proof.
  unfold buf_inv, indices_ok, indices, to_uint, INPUT_BUF. split.
  - intros (R & W & E & -> & -> & -> & H1 & H2 & H3). zlia.
  - intros (Hr & Hw & He & H).
    exists (input_r s), (input_r s + (input_w s - input_r s) mod 2 ^ 32),
      (input_r s + (input_e s - input_r s) mod 2 ^ 32).
    zlia.
Qed.

Lemma kill_line_indices (rounds : nat) (s : state) :
  indices_ok (indices s) -> indices_ok (indices (kill_line rounds s)).
Proof.
  revert s. induction rounds as [| k IH]; intros s H; [exact H |].
  cbn [kill_line].
  destruct (negb (input_e s =? input_w s) && _) eqn:E; [| exact H].
  apply andb_prop in E as [E _]. apply negb_true_iff, Z.eqb_neq in E.
  unfold andthen.
  assert (H' : indices_ok
                 (indices (consputc BACKSPACE
                             (set_input_e (to_uint (input_e s - 1)) s)))).
  { rewrite consputc_indices. revert H E.
    unfold indices_ok, indices, to_uint, INPUT_BUF. cbn. intros H E. zlia. }
  destruct (panicked _); [exact H' | now apply IH].
Qed.

Lemma line_input_indices (c : Z) (s : state) :
  indices_ok (indices s) -> indices_ok (indices (line_input c s)).
Proof.
  intros H. unfold line_input.
  destruct (negb (c =? 0) && (to_uint (input_e s - input_r s) <? INPUT_BUF))
    eqn:E; [| exact H].
  apply andb_prop in E as [_ E]. apply Z.ltb_lt in E.
  cbv zeta. unfold andthen.
  set (s1 := consputc _ _).
  assert (H1 : indices s1 = (input_r s, input_w s, to_uint (input_e s + 1))).
  { unfold s1. now rewrite consputc_indices. }
  assert (H' : indices_ok (indices s1)).
  { rewrite H1. revert H E.
    unfold indices_ok, indices, to_uint, INPUT_BUF. intros H E. zlia. }
  clearbody s1. destruct (panicked s1); [exact H' |].
  destruct (_ || _); [| exact H'].
  unfold indices in H1. injection H1 as Hr Hw He.
  unfold indices. cbn [input_r input_w input_e set_input_w].
  rewrite Hr, He. revert H E.
  unfold indices_ok, indices, to_uint, INPUT_BUF. intros H E. zlia.
Qed.

Lemma consoleintr_char_indices (c : Z) (s : state) :
  indices_ok (indices s) -> indices_ok (indices (consoleintr_char c s)).
Proof.
  intros H. unfold consoleintr_char.
  destruct (panicked s); [exact H |].
  destruct (c =? C_P); [exact H |].
  destruct (c =? C_U).
  { unfold andthen.
    pose proof (kill_line_indices
                  (Z.to_nat (to_uint (input_e s - input_w s))) s H) as H'.
    now destruct (panicked _). }
  destruct ((c =? C_H) || (c =? DEL)).
  { unfold andthen.
    set (s1 := if negb (menuStatus s) && negb (input_e s =? input_w s)
               then _ else s).
    assert (H' : indices_ok (indices s1)).
    { unfold s1.
      destruct (negb (menuStatus s) && negb (input_e s =? input_w s)) eqn:E;
        [| exact H].
      apply andb_prop in E as [_ E]. apply negb_true_iff, Z.eqb_neq in E.
      rewrite consputc_indices. revert H E.
      unfold indices_ok, indices, to_uint, INPUT_BUF. cbn. intros H E. zlia. }
    now destruct (panicked s1). }
  destruct (c =? A_c); [exact H |].
  destruct (c =? A_o); [now destruct (flagO s), (flagC s) |].
  destruct (c =? A_l).
  { now destruct (flagC s && flagO s), (menuStatus s). }
  destruct (negb (menuStatus s)).
  - now apply line_input_indices.
  - now rewrite menu_forward_indices.
Qed.

Lemma consoleintr_indices (cs : list Z) (s : state) :
  indices_ok (indices s) -> indices_ok (indices (consoleintr cs s)).
Proof.
  intros H. unfold consoleintr. destruct (panicked s); [exact H |].
  assert (H0 : indices_ok (indices (set_doprocdump false s))) by exact H.
  revert H0. generalize (set_doprocdump false s). clear H s.
  induction cs as [| c cs IH]; intros s H; [exact H |].
  cbn [consoleintr_loop]. destruct (c <? 0); [exact H |].
  now apply IH, consoleintr_char_indices.
Qed.

Lemma keys_indices (cs : list Z) (s : state) :
  indices_ok (indices s) -> indices_ok (indices (keys cs s)).
Proof.
  revert s. induction cs as [| c cs IH]; intros s H; [exact H |].
  now apply IH, consoleintr_char_indices.
Qed.

Lemma consoleread_loop_indices killed target (n : nat) dst (s : state) :
  indices_ok (indices s) ->
  indices_ok (indices (result_state (consoleread_loop killed target n dst s))).
Proof.
  revert dst s. induction n as [| n IH]; intros dst s H; [exact H |].
  cbn [consoleread_loop].
  destruct (input_r s =? input_w s) eqn:E; [now destruct killed |].
  apply Z.eqb_neq in E. cbv zeta.
  assert (H' : indices_ok (indices (set_input_r (to_uint (input_r s + 1)) s))).
  { revert H E. unfold indices_ok, indices, to_uint, INPUT_BUF. cbn.
    intros H E. zlia. }
  destruct (_ =? C_D).
  { cbn [result_state]. destruct (_ <? target); [| exact H'].
    revert H E. unfold indices_ok, indices, to_uint, INPUT_BUF. cbn.
    intros H E. zlia. }
  destruct (_ =? 10); [exact H' | now apply IH].
Qed.

Lemma consoleread_indices killed (n : Z) (s : state) :
  indices_ok (indices s) ->
  indices_ok (indices (result_state (consoleread killed n s))).
Proof.
  intros H. unfold consoleread. destruct (n <=? 0); [exact H |].
  now apply consoleread_loop_indices.
Qed.

Lemma consolewrite_indices (buf : list Z) (s : state) :
  indices (fst (consolewrite buf s)) = indices s.
Proof.
  unfold consolewrite. cbn [fst]. revert s.
  induction buf as [| b buf IH]; intros s; [reflexivity |].
  cbn [fold_left]. rewrite IH.
  destruct (panicked s); [reflexivity | apply consputc_indices].
Qed.

(** C2. [read <= write <= edit <= read + N], with N = 128 and the indices
    not wrapped, holds at boot and again after every character the
    interrupt handler takes (append, kill-line, backspace, line commit),
    after every interrupt, and after every consoleread, whether it returns
    or stops in [sleep]; it holds on the fields as they are while [read] is
    not within N of the 32-bit wrap. *)
Theorem input_indices_invariant (s : state) :
  buf_inv s ->
  (forall c, buf_inv (consoleintr_char c s))
  /\ (forall cs, buf_inv (consoleintr cs s))
  /\ (forall killed n, buf_inv (result_state (consoleread killed n s)))
  /\ (forall killed target n dst,
        buf_inv (result_state (consoleread_loop killed target n dst s)))
  /\ (forall grid pos, buf_inv (boot grid pos))
  /\ (input_r s + INPUT_BUF < 2 ^ 32 ->
      input_r s <= input_w s <= input_e s
      /\ input_e s <= input_r s + INPUT_BUF).
Proof.
  intros H. apply buf_inv_indices in H.
  split; [| split; [| split; [| split; [| split]]]].
  - intros c. now apply buf_inv_indices, consoleintr_char_indices.
  - intros cs. now apply buf_inv_indices, consoleintr_indices.
  - intros k n. now apply buf_inv_indices, consoleread_indices.
  - intros k t n d. now apply buf_inv_indices, consoleread_loop_indices.
  - intros g p. exists 0, 0, 0.
    repeat split; try reflexivity; unfold INPUT_BUF; lia.
  - revert H. unfold indices_ok, indices, to_uint, INPUT_BUF. zlia.
Qed.

Lemma input_indices_invariant_witness :
  buf_inv blank /\ buf_inv (consoleintr_char 104 blank).
Proof.
  assert (H : buf_inv blank)
    by (exists 0, 0, 0; repeat split; try reflexivity; unfold INPUT_BUF; lia).
  split; [exact H | apply (input_indices_invariant blank H)].
Defined.

(** ** C1: what consoleread copies *)

(** The committed bytes, from [input.r] up to [input.w]. *)
Definition committed (s : state) : list Z :=
  (fun i => cell (input_buf s) ((input_r s + i) mod INPUT_BUF))
    <$> seqZ 0 (to_uint (input_w s - input_r s)).

(** Neither a newline nor the end-of-input marker. *)
Definition plain (c : Z) : Prop := c <> 10 /\ c <> C_D.

Definition in_range (s : state) : Prop :=
  0 <= input_r s < 2 ^ 32 /\ 0 <= input_w s < 2 ^ 32.

(** [input.r] moved forward by [k]. *)
Definition consumed (k : Z) (s : state) : state :=
  set_input_r (to_uint (input_r s + k)) s.

Lemma consumed_0 (s : state) : in_range s -> consumed 0 s = s.
Proof.
  intros [Hr _]. unfold consumed, to_uint.
  replace ((input_r s + 0) mod 2 ^ 32) with (input_r s) by zlia.
  now destruct s.
Qed.

Lemma consumed_consumed (j k : Z) (s : state) :
  consumed k (consumed j s) = consumed (j + k) s.
Proof.
  unfold consumed, set_input_r, to_uint. cbn. f_equal. zlia.
Qed.

Lemma consumed_in_range (k : Z) (s : state) :
  in_range s -> in_range (consumed k s).
Proof. unfold in_range, consumed, to_uint. cbn. zlia. Qed.

Lemma committed_empty (s : state) :
  in_range s -> (input_r s =? input_w s) = true -> committed s = [].
Proof.
  intros _ E. apply Z.eqb_eq in E. unfold committed. rewrite E.
  now replace (input_w s - input_w s) with 0 by lia.
Qed.

Lemma committed_next (s : state) :
  in_range s -> (input_r s =? input_w s) = false ->
  committed s
  = cell (input_buf s) (input_r s mod INPUT_BUF) :: committed (consumed 1 s).
Proof.
  intros [Hr Hw] E. apply Z.eqb_neq in E. unfold committed.
  rewrite seqZ_cons by (unfold to_uint; zlia).
  cbn [fmap list_fmap]. f_equal.
  - f_equal. f_equal. lia.
  - unfold consumed. cbn [input_buf input_r input_w set_input_r].
    replace (to_uint (input_w s - to_uint (input_r s + 1)))
      with (Z.pred (to_uint (input_w s - input_r s)))
      by (unfold to_uint; zlia).
    rewrite <- (fmap_add_seqZ 1 0). rewrite <- list_fmap_compose.
    apply list_fmap_ext. intros _ i _. cbn. f_equal.
    unfold to_uint, INPUT_BUF. zlia.
Qed.

(** A run of plain committed bytes is copied as it is. *)
Lemma consoleread_loop_plain killed target (pre : list Z) :
  forall (n : nat) (dst rest : list Z) (s : state),
    in_range s -> Forall plain pre -> committed s = pre ++ rest ->
    consoleread_loop killed target (length pre + n) dst s
    = consoleread_loop killed target n (dst ++ (to_char <$> pre))
        (consumed (Z.of_nat (length pre)) s).
Proof.
  induction pre as [| c pre IH]; intros n dst rest s Hs Hp Hc.
  - cbn. now rewrite app_nil_r, consumed_0.
  - destruct (input_r s =? input_w s) eqn:E.
    { rewrite committed_empty in Hc by assumption. discriminate. }
    rewrite committed_next in Hc by assumption.
    injection Hc as Hc0 Hc. apply Forall_cons in Hp as [[H10 HD] Hp].
    cbn [length Nat.add consoleread_loop]. rewrite E. cbv zeta.
    rewrite Hc0.
    destruct (c =? C_D) eqn:ED; [apply Z.eqb_eq in ED; contradiction |].
    destruct (c =? 10) eqn:E1; [apply Z.eqb_eq in E1; contradiction |].
    fold (consumed 1 s).
    rewrite (IH n _ rest) by (auto using consumed_in_range).
    rewrite consumed_consumed. cbn [fmap list_fmap].
    rewrite <- app_assoc. cbn [app]. do 2 f_equal. lia.
Qed.

Lemma committed_head (c : Z) (rest : list Z) (s : state) :
  in_range s -> committed s = c :: rest ->
  (input_r s =? input_w s) = false
  /\ cell (input_buf s) (input_r s mod INPUT_BUF) = c
  /\ committed (consumed 1 s) = rest.
Proof.
  intros Hs Hc. destruct (input_r s =? input_w s) eqn:E.
  - rewrite committed_empty in Hc by assumption. discriminate.
  - rewrite committed_next in Hc by assumption. injection Hc as H1 H2. auto.
Qed.

Lemma unconsumed (s : state) :
  in_range s ->
  set_input_r (to_uint (input_r (consumed 1 s) - 1)) (consumed 1 s) = s.
Proof.
  intros [Hr _]. unfold consumed, set_input_r, to_uint. cbn.
  replace (((input_r s + 1) mod 2 ^ 32 - 1) mod 2 ^ 32) with (input_r s)
    by zlia.
  now destruct s.
Qed.

Lemma committed_after (pre rest : list Z) (s : state) :
  in_range s -> committed s = pre ++ rest ->
  committed (consumed (Z.of_nat (length pre)) s) = rest.
Proof.
  revert s. induction pre as [| c pre IH]; intros s Hs Hc.
  - now rewrite consumed_0.
  - destruct (committed_head _ _ _ Hs Hc) as (_ & _ & H).
    apply IH in H; [| now apply consumed_in_range].
    rewrite consumed_consumed in H.
    now replace (Z.of_nat (length (c :: pre)))
      with (1 + Z.of_nat (length pre)) by (cbn [length]; lia).
Qed.

(** The line typed as h, i, newline on a console just booted. *)
Definition hi_typed : state := keys [104; 105; 10] blank.

(** The cases of consoleread, see [consoleread_line]. *)
Lemma consoleread_cases (killed : bool) (n : Z) (s : state)
    (pre rest : list Z) :
  in_range s -> 0 < n -> Forall plain pre -> committed s = pre ++ rest ->
  let len := Z.of_nat (length pre) in
  (len < n -> forall rest', rest = 10 :: rest' ->
     consoleread killed n s
     = ReadDone (consumed (len + 1) s) ((to_char <$> pre) ++ [10]) (len + 1))
  /\ (len < n -> forall rest', rest = C_D :: rest' ->
        consoleread killed n s
        = ReadDone (consumed (if len =? 0 then 1 else len) s)
            (to_char <$> pre) len
        /\ (0 < len -> forall n', 0 < n' ->
              consoleread killed n' (consumed len s)
              = ReadDone (consumed (len + 1) s) [] 0))
  /\ (len = n ->
        consoleread killed n s = ReadDone (consumed n s) (to_char <$> pre) n)
  /\ (len < n -> rest = [] ->
        consoleread killed n s
        = if killed then ReadKilled (consumed len s) (to_char <$> pre)
          else ReadSleep (consumed len s) (to_char <$> pre)
                 (Z.to_nat (n - len))).
Proof.
  intros Hs Hn Hp Hc len.
  assert (Hgo : forall m : nat, Z.to_nat n = (length pre + m)%nat ->
            consoleread killed n s
            = consoleread_loop killed n m (to_char <$> pre) (consumed len s)).
  { intros m Hm. unfold consoleread.
    destruct (n <=? 0) eqn:E; [apply Z.leb_le in E; lia |].
    rewrite Hm. now rewrite (consoleread_loop_plain _ _ pre m [] rest). }
  assert (Hs2 : in_range (consumed len s)) by now apply consumed_in_range.
  assert (Hc2 : committed (consumed len s) = rest)
    by now apply committed_after.
  assert (Hlen : len = Z.of_nat (length pre)) by reflexivity.
  clearbody len.
  split; [| split; [| split]].
  - intros Hl rest' ->.
    destruct (committed_head _ _ _ Hs2 Hc2) as (E & Hcell & _).
    rewrite (Hgo (S (Z.to_nat (n - len - 1)))) by (clear - Hn Hlen Hl; lia).
    cbn [consoleread_loop]. rewrite E. cbv zeta. rewrite Hcell.
    cbn [Z.eqb C_D Pos.eqb]. fold (consumed 1 (consumed len s)).
    rewrite consumed_consumed. f_equal. lia.
  - intros Hl rest' ->.
    destruct (committed_head _ _ _ Hs2 Hc2) as (E & Hcell & _).
    split.
    + rewrite (Hgo (S (Z.to_nat (n - len - 1)))) by (clear - Hn Hlen Hl; lia).
      cbn [consoleread_loop]. rewrite E. cbv zeta. rewrite Hcell.
      rewrite Z.eqb_refl. fold (consumed 1 (consumed len s)).
      f_equal; [| lia].
      destruct (len =? 0) eqn:E0.
      * apply Z.eqb_eq in E0.
        destruct (_ <? n) eqn:E1; [apply Z.ltb_lt in E1; lia |].
        rewrite consumed_consumed. f_equal. lia.
      * apply Z.eqb_neq in E0.
        destruct (_ <? n) eqn:E1; [| apply Z.ltb_ge in E1; lia].
        now apply unconsumed.
    + intros Hpos n' Hn'. unfold consoleread.
      destruct (n' <=? 0) eqn:E'; [apply Z.leb_le in E'; lia |].
      destruct (Z.to_nat n') as [| k] eqn:Ek; [lia |].
      cbn [consoleread_loop]. rewrite E. cbv zeta. rewrite Hcell.
      rewrite Z.eqb_refl. fold (consumed 1 (consumed len s)).
      destruct (_ <? n') eqn:E1; [apply Z.ltb_lt in E1; lia |].
      rewrite consumed_consumed. f_equal. lia.
  - intros Hl. rewrite (Hgo 0%nat) by (clear - Hn Hlen Hl; lia). cbn [consoleread_loop].
    now rewrite <- Hl.
  - intros Hl ->.
    assert (E : (input_r (consumed len s) =? input_w (consumed len s)) = true).
    { destruct (_ =? _) eqn:E; [reflexivity |].
      rewrite committed_next in Hc2 by assumption. discriminate. }
    rewrite (Hgo (S (Z.to_nat (n - len - 1)))) by (clear - Hn Hlen Hl; lia).
    cbn [consoleread_loop]. rewrite E.
    destruct killed; [reflexivity |]. f_equal. lia.
Qed.

(** C1. A call with [n > 0] on committed bytes [pre ++ rest], [pre] free of
    newlines and markers, copies [pre] from [input.r] on and then
    - with a newline next and room for it, copies the newline and returns;
    - with the end-of-input marker next, returns without copying it: the
      marker is consumed when nothing was copied, and pushed back ([input.r]
      stays on it, the next call returns 0 and consumes it) otherwise;
    - with [n] bytes copied, returns;
    - with the committed bytes used up, waits in [sleep] (or returns -1 when
      the process is killed).
    What it returns is the number of bytes copied.  For the line typed as
    h, i, newline it returns 3 with those three bytes. *)
Theorem consoleread_line (killed : bool) (n : Z) (s : state)
    (pre rest : list Z) :
  in_range s -> 0 < n -> Forall plain pre -> committed s = pre ++ rest ->
  let len := Z.of_nat (length pre) in
  (len < n -> forall rest', rest = 10 :: rest' ->
     consoleread killed n s
     = ReadDone (consumed (len + 1) s) ((to_char <$> pre) ++ [10]) (len + 1))
  /\ (len < n -> forall rest', rest = C_D :: rest' ->
        consoleread killed n s
        = ReadDone (consumed (if len =? 0 then 1 else len) s)
            (to_char <$> pre) len
        /\ (0 < len -> forall n', 0 < n' ->
              consoleread killed n' (consumed len s)
              = ReadDone (consumed (len + 1) s) [] 0))
  /\ (len = n ->
        consoleread killed n s = ReadDone (consumed n s) (to_char <$> pre) n)
  /\ (len < n -> rest = [] ->
        consoleread killed n s
        = if killed then ReadKilled (consumed len s) (to_char <$> pre)
          else ReadSleep (consumed len s) (to_char <$> pre)
                 (Z.to_nat (n - len)))
  /\ (forall m, 3 <= m ->
        consoleread killed m hi_typed
        = ReadDone (consumed 3 hi_typed) [104; 105; 10] 3).
Proof.
  intros Hs Hn Hp Hc len.
  destruct (consoleread_cases killed n s pre rest Hs Hn Hp Hc)
    as (Ha & Hb & Hc' & Hd).
  split; [exact Ha |]. split; [exact Hb |]. split; [exact Hc' |].
  split; [exact Hd |].
  intros m Hm.
  assert (Hh : in_range hi_typed) by (vm_compute; repeat split; congruence).
  assert (Hp' : Forall plain [104; 105])
    by (repeat constructor; unfold C_D; lia).
  assert (Hhc : committed hi_typed = [104; 105] ++ [10])
    by (vm_compute; reflexivity).
  destruct (consoleread_cases killed m hi_typed _ _ Hh ltac:(lia) Hp' Hhc)
    as (H & _).
  exact (H ltac:(cbn [length]; lia) [] eq_refl).
Qed.

Lemma consoleread_line_witness :
  in_range hi_typed /\ committed hi_typed = [104; 105] ++ [10]
  /\ consoleread false 16 hi_typed
     = ReadDone (consumed (2 + 1) hi_typed)
         ((to_char <$> [104; 105]) ++ [10]) (2 + 1).
Proof.
  assert (Hh : in_range hi_typed) by (vm_compute; repeat split; congruence).
  assert (Hp : Forall plain [104; 105])
    by (repeat constructor; unfold C_D; lia).
  assert (Hc : committed hi_typed = [104; 105] ++ [10])
    by (vm_compute; reflexivity).
  split; [exact Hh |]. split; [exact Hc |].
  exact (proj1 (consoleread_line false 16 hi_typed [104; 105] [10]
                  Hh ltac:(lia) Hp Hc) ltac:(cbn [length]; lia) [] eq_refl).
Defined.

(** ** The interrupt handler while the CPU runs *)

Lemma menu_forward_on_rows c s : on_rows (menu_forward c s) <-> on_rows s.
Proof. unfold on_rows. open_menu. split_ifs; reflexivity. Qed.

Lemma kill_line_on_rows (rounds : nat) (s : state) :
  on_rows s -> on_rows (kill_line rounds s).
Proof.
  revert s. induction rounds as [| k IH]; intros s H; [exact H |].
  cbn [kill_line]. destruct (_ && _); [| exact H].
  unfold andthen.
  assert (H' : on_rows (consputc BACKSPACE
                          (set_input_e (to_uint (input_e s - 1)) s)))
    by now apply consputc_on_rows.
  destruct (panicked _); [exact H' | now apply IH].
Qed.

Lemma kill_line_flags (rounds : nat) (s : state) :
  flagC (kill_line rounds s) = flagC s
  /\ flagO (kill_line rounds s) = flagO s
  /\ menuStatus (kill_line rounds s) = menuStatus s
  /\ backgroundBackup (kill_line rounds s) = backgroundBackup s.
Proof.
  revert s. induction rounds as [| k IH]; intros s; [auto |].
  cbn [kill_line]. destruct (_ && _); [| auto].
  unfold andthen. destruct (panicked _).
  - now autorewrite with putframe.
  - destruct (IH (consputc BACKSPACE
                    (set_input_e (to_uint (input_e s - 1)) s)))
      as (-> & -> & -> & ->).
    now autorewrite with putframe.
Qed.

Lemma line_input_on_rows (c : Z) (s : state) :
  on_rows s -> on_rows (line_input c s).
Proof.
  intros H. unfold line_input. destruct (_ && _); [| exact H].
  cbv zeta. unfold andthen.
  set (s1 := consputc _ _).
  assert (H' : on_rows s1) by now apply consputc_on_rows.
  clearbody s1. destruct (panicked s1); [exact H' |].
  now destruct (_ || _).
Qed.

Lemma consoleintr_char_on_rows (c : Z) (s : state) :
  on_rows s -> on_rows (consoleintr_char c s).
Proof.
  intros H. unfold consoleintr_char.
  destruct (panicked s); [exact H |].
  destruct (c =? C_P); [exact H |].
  destruct (c =? C_U).
  { unfold andthen.
    pose proof (kill_line_on_rows
                  (Z.to_nat (to_uint (input_e s - input_w s))) s H) as H'.
    now destruct (panicked _). }
  destruct ((c =? C_H) || (c =? DEL)).
  { unfold andthen.
    set (s1 := if negb (menuStatus s) && negb (input_e s =? input_w s)
               then _ else s).
    assert (H' : on_rows s1).
    { unfold s1. destruct (_ && _); [| exact H].
      now apply consputc_on_rows. }
    clearbody s1. now destruct (panicked s1). }
  destruct (c =? A_c); [exact H |].
  destruct (c =? A_o); [now destruct (flagO s), (flagC s) |].
  destruct (c =? A_l).
  { now destruct (flagC s && flagO s), (menuStatus s). }
  destruct (negb (menuStatus s)).
  - now apply line_input_on_rows.
  - now apply menu_forward_on_rows.
Qed.

Lemma keys_on_rows (cs : list Z) (s : state) :
  on_rows s -> on_rows (keys cs s).
Proof.
  revert s. induction cs as [| c cs IH]; intros s H; [exact H |].
  now apply IH, consoleintr_char_on_rows.
Qed.

Lemma keys_snoc (cs : list Z) (c : Z) (s : state) :
  keys (cs ++ [c]) s = consoleintr_char c (keys cs s).
Proof. unfold keys. now rewrite fold_left_app. Qed.

Lemma keys_app (cs cs' : list Z) (s : state) :
  keys (cs ++ cs') s = keys cs' (keys cs s).
Proof. unfold keys. now rewrite fold_left_app. Qed.

(** A character of the default case that leaves the two flags as they
    are: a NUL, or, with the menu closed, a character that finds the
    buffer full. *)
Definition keeps_flags (c : Z) (s : state) : bool :=
  is_default c
  && ((c =? 0)
      || (negb (menuStatus s)
          && negb (to_uint (input_e s - input_r s) <? INPUT_BUF))).

(** The two flags after one character. *)
Lemma consoleintr_char_flags (c : Z) (s : state) :
  on_rows s ->
  (flagC (consoleintr_char c s), flagO (consoleintr_char c s))
  = if c =? A_c then (true, false)
    else if c =? A_o
         then (flagC s && negb (flagO s), flagC s && negb (flagO s))
         else if keeps_flags c s then (flagC s, flagO s)
              else (false, false).
Proof.
  intros H. pose proof H as [Hp _].
  unfold consoleintr_char, keeps_flags, is_default. rewrite Hp.
  destruct (c =? C_P) eqn:EP.
  { apply Z.eqb_eq in EP. subst c. reflexivity. }
  destruct (c =? C_U) eqn:EU.
  { apply Z.eqb_eq in EU. subst c. cbn [Z.eqb A_c A_o C_U Pos.eqb orb negb andb].
    unfold andthen.
    pose proof (kill_line_on_rows
                  (Z.to_nat (to_uint (input_e s - input_w s))) s H) as [-> _].
    reflexivity. }
  destruct ((c =? C_H) || (c =? DEL)) eqn:EH.
  { assert (Ec : c = C_H \/ c = DEL).
    { apply orb_prop in EH as [E | E]; apply Z.eqb_eq in E; auto. }
    unfold andthen.
    set (s1 := if negb (menuStatus s) && negb (input_e s =? input_w s)
               then _ else s).
    assert (H' : on_rows s1).
    { unfold s1. destruct (_ && _); [| exact H].
      now apply consputc_on_rows. }
    clearbody s1. destruct H' as [-> _].
    destruct Ec as [-> | ->]; reflexivity. }
  apply orb_false_elim in EH as [EH ED]. rewrite EH, ED.
  destruct (c =? A_c) eqn:Ec; [reflexivity |].
  destruct (c =? A_o) eqn:Eo.
  { destruct (flagO s) eqn:E1, (flagC s) eqn:E2; cbn;
      rewrite ?E1, ?E2; reflexivity. }
  destruct (c =? A_l) eqn:El.
  { apply Z.eqb_eq in El. subst c. reflexivity. }
  cbn [orb negb andb].
  destruct (menuStatus s) eqn:Em; cbn [negb andb orb].
  - unfold menu_forward. cbv zeta.
    destruct (c =? 0); cbn [negb orb]; open_menu; split_ifs; reflexivity.
  - unfold line_input.
    destruct (c =? 0); cbn [negb andb orb]; [reflexivity |].
    destruct (to_uint (input_e s - input_r s) <? INPUT_BUF);
      cbn [negb]; [| reflexivity].
    cbv zeta. unfold andthen.
    set (s1 := consputc _ _).
    assert (Hf : flagC s1 = false /\ flagO s1 = false).
    { unfold s1. now autorewrite with putframe. }
    clearbody s1. destruct Hf as [Hf1 Hf2].
    destruct (panicked s1); [now rewrite Hf1, Hf2 |].
    destruct (_ || _); cbn; now rewrite Hf1, Hf2.
Qed.

(** The menu flag after one character. *)
Lemma consoleintr_char_menuStatus (c : Z) (s : state) :
  on_rows s ->
  menuStatus (consoleintr_char c s)
  = if (c =? A_l) && flagC s && flagO s
    then negb (menuStatus s) else menuStatus s.
Proof.
  intros H. pose proof H as [Hp _].
  unfold consoleintr_char. rewrite Hp.
  destruct (c =? C_P) eqn:EP.
  { apply Z.eqb_eq in EP. subst c. reflexivity. }
  destruct (c =? C_U) eqn:EU.
  { apply Z.eqb_eq in EU. subst c. cbn [Z.eqb A_l C_U Pos.eqb andb].
    unfold andthen.
    destruct (kill_line_flags
                (Z.to_nat (to_uint (input_e s - input_w s))) s)
      as (_ & _ & Hm & _).
    destruct (panicked (kill_line _ s)); exact Hm. }
  destruct ((c =? C_H) || (c =? DEL)) eqn:EH.
  { assert (Ec : (c =? A_l) = false).
    { apply orb_prop in EH as [E | E]; apply Z.eqb_eq in E; now subst c. }
    rewrite Ec. cbn [andb]. unfold andthen.
    destruct (negb (menuStatus s) && negb (input_e s =? input_w s));
      [| now rewrite Hp].
    destruct (panicked (consputc _ _));
      exact (consputc_menuStatus _ (set_input_e _ s)). }
  destruct (c =? A_c) eqn:Ec.
  { apply Z.eqb_eq in Ec. subst c. reflexivity. }
  destruct (c =? A_o) eqn:Eo.
  { apply Z.eqb_eq in Eo. subst c. now destruct (flagO s), (flagC s). }
  destruct (c =? A_l) eqn:El.
  { cbn [andb]. destruct (flagC s && flagO s); reflexivity. }
  cbn [andb]. destruct (menuStatus s) eqn:Em; cbn [negb].
  - open_menu. split_ifs; exact Em.
  - unfold line_input. destruct (_ && _); [| exact Em].
    cbv zeta. unfold andthen.
    set (s1 := consputc _ _).
    assert (Hf : menuStatus s1 = false).
    { unfold s1. now autorewrite with putframe. }
    clearbody s1. destruct (panicked s1); [exact Hf |].
    destruct (_ || _ || _); exact Hf.
Qed.

(** ** C5: the two flags after a character *)

(** A console whose input buffer is full: 128 letters typed, nothing read. *)
Definition full_buffer : state := keys (replicate 128 120) blank.


Lemma blank_on_rows : on_rows blank.
Proof. split; [reflexivity | cbn; lia]. Qed.



(** ** C3: what toggles the menu *)

(** Characters of the default case that leave the flags as they are, each
    at the state it is handled in. *)
Fixpoint unseen (mid : list Z) (s : state) : bool :=
  match mid with
  | [] => true
  | c :: mid => keeps_flags c s && unseen mid (consoleintr_char c s)
  end.

(** The keys so far end with Alt-c and such characters. *)
Definition armed1 (s : state) (cs : list Z) : Prop :=
  exists pre mid,
    cs = pre ++ A_c :: mid /\ unseen mid (keys (pre ++ [A_c]) s) = true.

(** The keys so far end with Alt-c, Alt-o, with such characters only in
    between and after. *)
Definition armed2 (s : state) (cs : list Z) : Prop :=
  exists pre mid1 mid2,
    cs = pre ++ A_c :: mid1 ++ A_o :: mid2
    /\ unseen mid1 (keys (pre ++ [A_c]) s) = true
    /\ unseen mid2 (keys (pre ++ A_c :: mid1 ++ [A_o]) s) = true.

Lemma unseen_snoc (mid : list Z) (c : Z) (s : state) :
  unseen (mid ++ [c]) s = unseen mid s && keeps_flags c (keys mid s).
Proof.
  revert s. induction mid as [| d mid IH]; intros s; cbn [unseen app].
  - now rewrite andb_true_r.
  - rewrite IH. now rewrite andb_assoc.
Qed.

Lemma keeps_flags_default (c : Z) (s : state) :
  keeps_flags c s = true -> c <> A_c /\ c <> A_o /\ c <> A_l.
Proof.
  unfold keeps_flags, is_default. intros H.
  apply andb_prop in H as [H _]. apply negb_true_iff in H.
  repeat (apply orb_false_elim in H as [H ?]).
  repeat split; intros ->; discriminate.
Qed.

Ltac flat_app :=
  repeat first [rewrite <- app_assoc | progress cbn [app]].

Lemma armed1_snoc (s : state) (cs : list Z) (c : Z) :
  armed1 s (cs ++ [c])
  <-> c = A_c \/ (keeps_flags c (keys cs s) = true /\ armed1 s cs).
Proof.
  split.
  - intros (pre & mid & Hcs & Hu).
    destruct mid as [| d mid _] using rev_ind.
    + apply app_inj_tail in Hcs as [_ ->]. now left.
    + right. rewrite unseen_snoc in Hu. apply andb_prop in Hu as [Hu Hk].
      assert (Hcs' : cs ++ [c] = (pre ++ A_c :: mid) ++ [d])
        by (rewrite Hcs; now flat_app).
      apply app_inj_tail in Hcs' as [-> ->].
      split.
      * rewrite <- keys_app in Hk. revert Hk. now flat_app.
      * now exists pre, mid.
  - intros [-> | [Hk (pre & mid & -> & Hu)]].
    + exists cs, []. split; reflexivity.
    + exists pre, (mid ++ [c]). split.
      * now flat_app.
      * rewrite unseen_snoc, Hu. cbn [andb].
        rewrite <- keys_app. revert Hk. now flat_app.
Qed.

Lemma armed2_snoc (s : state) (cs : list Z) (c : Z) :
  armed2 s (cs ++ [c])
  <-> (c = A_o /\ armed1 s cs)
      \/ (keeps_flags c (keys cs s) = true /\ armed2 s cs).
Proof.
  split.
  - intros (pre & mid1 & mid2 & Hcs & Hu1 & Hu2).
    destruct mid2 as [| d mid2 _] using rev_ind.
    + left.
      assert (Hcs' : cs ++ [c] = (pre ++ A_c :: mid1) ++ [A_o])
        by (rewrite Hcs; now flat_app).
      apply app_inj_tail in Hcs' as [-> ->].
      split; [reflexivity |]. now exists pre, mid1.
    + right. rewrite unseen_snoc in Hu2. apply andb_prop in Hu2 as [Hu2 Hk].
      assert (Hcs' : cs ++ [c] = (pre ++ A_c :: mid1 ++ A_o :: mid2) ++ [d])
        by (rewrite Hcs; now flat_app).
      apply app_inj_tail in Hcs' as [-> ->].
      split.
      * rewrite <- keys_app in Hk. revert Hk. now flat_app.
      * now exists pre, mid1, mid2.
  - intros [[-> (pre & mid & -> & Hu)]
           | [Hk (pre & mid1 & mid2 & -> & Hu1 & Hu2)]].
    + exists pre, mid, []. split; [now flat_app |]. split; [exact Hu |].
      reflexivity.
    + exists pre, mid1, (mid2 ++ [c]).
      split; [now flat_app |]. split; [exact Hu1 |].
      rewrite unseen_snoc, Hu2. cbn [andb].
      rewrite <- keys_app. revert Hk. now flat_app.
Qed.

(** The saved background is written by the opening toggle only. *)
Lemma consoleintr_char_backgroundBackup (c : Z) (s : state) :
  on_rows s ->
  backgroundBackup (consoleintr_char c s)
  = if (c =? A_l) && flagC s && flagO s && negb (menuStatus s)
    then backgroundBackup (saveBackground s) else backgroundBackup s.
Proof.
  intros H. pose proof H as [Hp _].
  unfold consoleintr_char. rewrite Hp.
  destruct (c =? C_P) eqn:EP.
  { apply Z.eqb_eq in EP. subst c. reflexivity. }
  destruct (c =? C_U) eqn:EU.
  { apply Z.eqb_eq in EU. subst c. cbn [Z.eqb A_l C_U Pos.eqb andb].
    unfold andthen.
    destruct (kill_line_flags
                (Z.to_nat (to_uint (input_e s - input_w s))) s)
      as (_ & _ & _ & Hm).
    destruct (panicked (kill_line _ s)); exact Hm. }
  destruct ((c =? C_H) || (c =? DEL)) eqn:EH.
  { assert (Ec : (c =? A_l) = false).
    { apply orb_prop in EH as [E | E]; apply Z.eqb_eq in E; now subst c. }
    rewrite Ec. cbn [andb]. unfold andthen.
    destruct (negb (menuStatus s) && negb (input_e s =? input_w s));
      [| now rewrite Hp].
    destruct (panicked (consputc _ _));
      exact (consputc_backgroundBackup _ (set_input_e _ s)). }
  destruct (c =? A_c) eqn:Ec.
  { apply Z.eqb_eq in Ec. subst c. reflexivity. }
  destruct (c =? A_o) eqn:Eo.
  { apply Z.eqb_eq in Eo. subst c. now destruct (flagO s), (flagC s). }
  destruct (c =? A_l) eqn:El.
  { cbn [andb]. destruct (flagC s && flagO s); [| reflexivity].
    cbn [andb]. destruct (menuStatus s); reflexivity. }
  cbn [andb]. destruct (menuStatus s) eqn:Em; cbn [negb].
  - open_menu. split_ifs; reflexivity.
  - unfold line_input. destruct (_ && _); [| reflexivity].
    cbv zeta. unfold andthen.
    set (s1 := consputc _ _).
    assert (Hf : backgroundBackup s1 = backgroundBackup s).
    { unfold s1. now autorewrite with putframe. }
    clearbody s1. destruct (panicked s1); [exact Hf |].
    destruct (_ || _ || _); exact Hf.
Qed.

(** The flags follow the keys typed so far. *)
Lemma flags_armed (s : state) (cs : list Z) :
  on_rows s -> flagC s = false -> flagO s = false ->
  (flagC (keys cs s) = true /\ flagO (keys cs s) = false <-> armed1 s cs)
  /\ (flagC (keys cs s) = true /\ flagO (keys cs s) = true <-> armed2 s cs).
Proof.
  intros H HC HO. induction cs as [| c cs IH] using rev_ind.
  - cbn [keys fold_left]. rewrite HC, HO. split; split.
    + intros [? _]. discriminate.
    + intros (pre & mid & E & _). now destruct pre.
    + intros [? _]. discriminate.
    + intros (pre & mid1 & mid2 & E & _). now destruct pre.
  - rewrite keys_snoc, armed1_snoc, armed2_snoc.
    pose proof (consoleintr_char_flags c (keys cs s) (keys_on_rows cs s H))
      as Hf.
    pose proof (keeps_flags_default c (keys cs s)) as Hk.
    destruct IH as [IH1 IH2].
    destruct (c =? A_c) eqn:Ec;
      [apply Z.eqb_eq in Ec | apply Z.eqb_neq in Ec].
    { injection Hf as -> ->. subst c. split; split.
      - now left.
      - auto.
      - intros [_ ?]. discriminate.
      - intros [[? _] | [Hk' _]]; [discriminate |].
        now destruct (Hk Hk') as (? & _). }
    destruct (c =? A_o) eqn:Eo;
      [apply Z.eqb_eq in Eo | apply Z.eqb_neq in Eo].
    { injection Hf as -> ->. subst c. split; split.
      - intros [H1 H2]. rewrite H1 in H2. discriminate.
      - intros [? | [Hk' _]]; [discriminate |].
        now destruct (Hk Hk') as (_ & ? & _).
      - intros [H1 _]. left. split; [reflexivity |]. apply IH1.
        destruct (flagC (keys cs s)), (flagO (keys cs s)); auto; discriminate.
      - intros [[_ Ha] | [Hk' _]].
        + apply IH1 in Ha as [-> ->]. auto.
        + now destruct (Hk Hk') as (_ & ? & _). }
    destruct (keeps_flags c (keys cs s)).
    + injection Hf as -> ->. split; split.
      * intros Hx. right. split; [reflexivity |]. now apply IH1.
      * intros [? | [_ Ha]]; [contradiction |]. now apply IH1.
      * intros Hx. right. split; [reflexivity |]. now apply IH2.
      * intros [[? _] | [_ Ha]]; [contradiction |]. now apply IH2.
    + injection Hf as -> ->. split; split.
      * intros [? _]. discriminate.
      * intros [? | [? _]]; [contradiction | discriminate].
      * intros [? _]. discriminate.
      * intros [[? _] | [? _]]; [contradiction | discriminate].
Qed.

Lemma consoleintr_char_toggle (s : state) :
  panicked s = false -> flagC s = true -> flagO s = true ->
  consoleintr_char A_l s
  = clearFlags (set_menuStatus (negb (menuStatus s))
                  (if menuStatus s then loadBackground s
                   else saveBackground s)).
Proof.
  intros Hp HC HO. unfold consoleintr_char. rewrite Hp, HC, HO. reflexivity.
Qed.




(** ** C4: the keys while the menu is open *)

(** A console with one letter typed and the menu opened after it. *)
Definition menu_open : state := keys [97; A_c; A_o; A_l] blank.

(** C4, as the code has it.  While the menu is open, a character of the
    default case (any character but Ctrl-P, Ctrl-U, Ctrl-H, DEL, Alt-c,
    Alt-o, Alt-l) goes to the menu handler and to the redraw of the menu:
    nothing is appended to the input buffer and nothing is echoed.
    Backspace (Ctrl-H, DEL) only clears the flags: the input buffer is
    untouched and no erase is echoed.  Ctrl-P only asks for the process
    listing and clears the flags. *)
Theorem menu_mode_keys (c : Z) (s : state) :
  menuStatus s = true -> panicked s = false ->
  (is_default c = true ->
     consoleintr_char c s = menu_forward c s
     /\ input_buf (consoleintr_char c s) = input_buf s
     /\ indices (consoleintr_char c s) = indices s
     /\ uart (consoleintr_char c s) = uart s
     /\ cursor (consoleintr_char c s) = cursor s)
  /\ (c = C_H \/ c = DEL -> consoleintr_char c s = clearFlags s)
  /\ (c = C_P -> consoleintr_char c s = clearFlags (set_doprocdump true s)).
Proof.
  intros Hm Hp. split; [| split].
  - intros Hd. unfold is_default in Hd. apply negb_true_iff in Hd.
    repeat (apply orb_false_elim in Hd as [Hd ?]).
    assert (E : consoleintr_char c s = menu_forward c s).
    { unfold consoleintr_char.
      rewrite Hp, Hd, Hm.
      repeat match goal with H : (c =? _) = false |- _ => rewrite H end.
      reflexivity. }
    rewrite E. repeat split; open_menu; split_ifs; reflexivity.
  - intros Hc. unfold consoleintr_char, andthen. rewrite Hp, Hm.
    destruct Hc as [-> | ->]; cbn [Z.eqb C_H DEL C_P C_U Pos.eqb orb negb andb];
      now rewrite Hp.
  - intros ->. unfold consoleintr_char. now rewrite Hp.
Qed.

Lemma menu_mode_keys_witness :
  menuStatus menu_open = true /\ panicked menu_open = false
  /\ consoleintr_char C_H menu_open = clearFlags menu_open.
Proof.
  split; [reflexivity |]. split; [reflexivity |].
  apply (menu_mode_keys C_H menu_open eq_refl eq_refl). now left.
Defined.

(** C4 as stated fails.  With the menu open, Ctrl-U still erases the
    letter typed before and echoes the erase; and Ctrl-P, which is no key
    of the toggle sequence, does not reach the menu handler: the menu is
    not drawn. *)
Lemma menu_mode_keys_counterexample :
  menuStatus menu_open = true
  /\ indices menu_open = (0, 0, 1)
  /\ indices (consoleintr_char C_U menu_open) = (0, 0, 0)
  /\ uart (consoleintr_char C_U menu_open) = [8; 32; 8] ++ uart menu_open
  /\ cell (crt (consoleintr_char C_P menu_open)) 57 = cell (crt menu_open) 57
  /\ cell (crt (menu_forward C_P menu_open)) 57 = 0x0f2f
  /\ cell (crt menu_open) 57 = 0.
Proof. vm_compute. repeat split; reflexivity. Qed.

(** ** C7: committing a colour *)

Lemma mask_merge (x m k f : Z) :
  Z.land (Z.lor (Z.land x m) k) f
  = Z.lor (Z.land x (Z.land m f)) (Z.land k f).
Proof. now rewrite Z.land_lor_distr_l, <- Z.land_assoc. Qed.

(** The bits of [keep] survive [(x & m) | k], and the bits of [f] are [k]. *)
Lemma field_kept (x m k keep : Z) :
  Z.land m keep = keep -> Z.land k keep = 0 ->
  Z.land (Z.lor (Z.land x m) k) keep = Z.land x keep.
Proof. intros Hm Hk. rewrite mask_merge, Hm, Hk. apply Z.lor_0_r. Qed.

Lemma field_set (x m k f : Z) :
  Z.land m f = 0 -> Z.land k f = k ->
  Z.land (Z.lor (Z.land x m) k) f = k.
Proof.
  intros Hm Hk. rewrite mask_merge, Hm, Hk, Z.land_0_r. apply Z.lor_0_l.
Qed.

Lemma selection_cases (sel : Z) :
  0 <= sel < 16 ->
  sel = 0 \/ sel = 1 \/ sel = 2 \/ sel = 3 \/ sel = 4 \/ sel = 5 \/ sel = 6
  \/ sel = 7 \/ sel = 8 \/ sel = 9 \/ sel = 10 \/ sel = 11 \/ sel = 12
  \/ sel = 13 \/ sel = 14 \/ sel = 15.
Proof. lia. Qed.

Ltac each_selection H :=
  apply selection_cases in H;
  repeat (destruct H as [H | H]).

(** C7. With the selection in [0, 16), a commit on an odd selection sets
    the background nibble of the pen colour to the palette entry (plus
    0x8000 for a bright commit) and leaves every other bit, the foreground
    nibble among them; on an even selection it sets the foreground nibble
    to the palette entry (plus 0x0800 for a bright commit) and leaves every
    other bit, the background nibble among them.  Nothing but the pen
    colour changes.  With selection 0 the foreground nibble becomes the
    palette entry 0, which is zero. *)
Theorem commit_color_nibbles (s : state) :
  0 <= currentSelection s < 16 ->
  let sel := currentSelection s in
  let pen := currentColor s in
  let normal := currentColor (getColor s) in
  let bright := currentColor (getBrightColor s) in
  (Z.odd sel = true ->
     Z.land normal 0xf000 = cell clrs sel
     /\ Z.land normal 0x0fff = Z.land pen 0x0fff
     /\ Z.land bright 0xf000 = cell clrs sel + 0x8000
     /\ Z.land bright 0x0fff = Z.land pen 0x0fff)
  /\ (Z.even sel = true ->
     Z.land normal 0x0f00 = cell clrs sel
     /\ Z.land normal 0xf0ff = Z.land pen 0xf0ff
     /\ Z.land bright 0x0f00 = cell clrs sel + 0x0800
     /\ Z.land bright 0xf0ff = Z.land pen 0xf0ff)
  /\ getColor s = set_currentColor normal s
  /\ getBrightColor s = set_currentColor bright s
  /\ (sel = 0 ->
      cell clrs sel = 0 /\ Z.land normal 0x0f00 = 0
      /\ Z.land normal 0xf000 = Z.land pen 0xf000).
Proof.
  intros H sel pen normal bright.
  subst normal bright. unfold getColor, getBrightColor. cbv zeta.
  fold sel. fold pen. clearbody pen.
  assert (Hsel : 0 <= sel < 16) by exact H. clear H. clearbody sel.
  each_selection Hsel; subst sel;
    (split; [intros Ho; try discriminate Ho |
     split; [intros He; try discriminate He |
     split; [reflexivity | split; [reflexivity |
       intros E0; try discriminate E0]]]]);
    cbn [negb Z.rem Z.eqb Z.quotrem Z.pos_div_eucl snd fst currentColor
         set_currentColor];
    repeat split;
    first [ reflexivity
          | apply field_set; reflexivity
          | apply field_kept; reflexivity ].
Qed.

Lemma commit_color_nibbles_witness :
  Z.land (currentColor (getColor blank)) 0xf000
  = Z.land (currentColor blank) 0xf000.
Proof.
  apply (commit_color_nibbles blank); [cbn; lia | reflexivity].
Defined.

(** ** The repaint of a commit *)

(** The pen colour has no bit in the character byte. *)
Definition pen_ok (s : state) : Prop := Z.land (currentColor s) 0xff = 0.

(** The shape of the pen colour after a commit. *)
Lemma commit_shape (s : state) :
  0 <= currentSelection s < 16 ->
  forall s', s' = getColor s \/ s' = getBrightColor s ->
  exists m k,
    currentColor s' = Z.lor (Z.land (currentColor s) m) k
    /\ Z.land m 0xff = 0xff /\ Z.land m 0xffff = m
    /\ Z.land k 0xff = 0 /\ Z.land k 0xffff = k.
Proof.
  intros H s' Hs'. unfold getColor, getBrightColor in Hs'. cbv zeta in Hs'.
  destruct (negb (Z.rem (currentSelection s) 2 =? 0));
    destruct Hs' as [-> | ->]; cbn [currentColor set_currentColor];
    eexists _, _; (split; [reflexivity |]);
    (split; [reflexivity |]); (split; [reflexivity |]);
    each_selection H; rewrite H; split; reflexivity.
Qed.

Lemma commit_pen (s s' : state) :
  0 <= currentSelection s < 16 -> pen_ok s ->
  s' = getColor s \/ s' = getBrightColor s ->
  pen_ok s' /\ Z.land (currentColor s') 0xffff = currentColor s'.
Proof.
  intros H Hp Hs'. unfold pen_ok in *.
  destruct (commit_shape s H s' Hs') as (m & k & -> & Hm1 & Hm2 & Hk1 & Hk2).
  split.
  - now rewrite mask_merge, Hm1, Hk1, Hp.
  - now rewrite mask_merge, Hm2, Hk2.
Qed.

Lemma painted_cell (v p : Z) :
  Z.land p 0xff = 0 -> Z.land p 0xffff = p ->
  Z.land (to_ushort (Z.lor (Z.land v 0xff) p)) 0xff = Z.land v 0xff
  /\ Z.land (to_ushort (Z.lor (Z.land v 0xff) p)) 0xff00 = p.
Proof.
  intros H1 H2. unfold to_ushort. rewrite <- !Z.land_assoc.
  change (Z.land 0xFFFF 0xff) with 0xff.
  change (Z.land 0xFFFF 0xff00) with 0xff00.
  rewrite !mask_merge.
  change (Z.land 0xff 0xff) with 0xff.
  change (Z.land 0xff 0xff00) with 0.
  rewrite H1, Z.land_0_r, Z.lor_0_r, Z.lor_0_l. split; [reflexivity |].
  rewrite <- H2 at 2.
  change 0xffff with (Z.lor 0xff00 0xff).
  now rewrite Z.land_lor_distr_r, H1, Z.lor_0_r.
Qed.

Lemma repaint_cell (s : state) (i : Z) :
  length (crt s) = 2000%nat -> 0 <= i < 2000 ->
  cell (crt (repaint s)) i
  = to_ushort (Z.lor (Z.land (cell (crt s) i) 0xff) (currentColor s)).
Proof.
  intros Hl Hi. unfold repaint. cbn [crt set_crt].
  now rewrite cell_for_cells_in by lia.
Qed.

Lemma blank_grid : length (crt blank) = 2000%nat.
Proof. reflexivity. Qed.

(** ** The overlay: showMenu, saveBackground, loadBackground *)

(** The grid position of the [i]-th cell of the overlay: 10 rows of 23
    cells from column 57 on. *)
Definition overlay_pos (i : Z) : Z := 57 + 80 * (i / 23) + i mod 23.

(** The loop the three functions share, with its [startingPosition]. *)
Definition overlay_step {A : Type} (body : Z -> Z -> A -> A)
    (acc : Z * A) (i : Z) : Z * A :=
  let '(startingPosition, a) := acc in
  let startingPosition :=
    if Z.rem i 23 =? 0 then 57 + 80 * Z.quot i 23 else startingPosition in
  (startingPosition + 1, body startingPosition i a).

Lemma overlay_fold {A : Type} (body : Z -> Z -> A -> A) (a0 : A) (k : nat) :
  fold_left (overlay_step body) (seqZ 0 (Z.of_nat k)) (57, a0)
  = (if Z.of_nat k =? 0 then 57 else overlay_pos (Z.of_nat k - 1) + 1,
     fold_left (fun a i => body (overlay_pos i) i a) (seqZ 0 (Z.of_nat k)) a0).
Proof.
  induction k as [| k IH]; [reflexivity |].
  rewrite seqZ_S, !fold_left_app, IH. cbn [fold_left overlay_step].
  replace (0 + Z.of_nat k) with (Z.of_nat k) by lia.
  set (p := if Z.rem (Z.of_nat k) 23 =? 0 then _ else _).
  assert (Hp : p = overlay_pos (Z.of_nat k)).
  { subst p. unfold overlay_pos.
    rewrite Z.rem_mod_nonneg, Z.quot_div_nonneg by lia.
    destruct (Z.eqb_spec (Z.of_nat k mod 23) 0) as [E | E];
      destruct (Z.eqb_spec (Z.of_nat k) 0) as [E0 | E0]; zlia. }
  rewrite Hp.
  replace (Z.of_nat (S k) =? 0) with false by (symmetry; apply Z.eqb_neq; lia).
  do 3 f_equal. lia.
Qed.

Lemma overlay_pos_inj (i j : Z) :
  0 <= i -> 0 <= j -> overlay_pos i = overlay_pos j -> i = j.
Proof.
  unfold overlay_pos. intros Hi Hj H.
  pose proof (Z.div_mod i 23 ltac:(lia)).
  pose proof (Z.div_mod j 23 ltac:(lia)).
  pose proof (Z.mod_pos_bound i 23 ltac:(lia)).
  pose proof (Z.mod_pos_bound j 23 ltac:(lia)).
  generalize dependent (i / 23). generalize dependent (i mod 23).
  generalize dependent (j / 23). generalize dependent (j mod 23).
  intros. lia.
Qed.

Lemma overlay_pos_bounds (i : Z) :
  0 <= i < 230 -> 57 <= overlay_pos i < 800.
Proof. unfold overlay_pos. zlia. Qed.

(** Stores at the overlay positions: each position holds its value, the
    other cells are as before. *)
Lemma scatter_length (val : Z -> Z) (g0 : list Z) (k : nat) :
  length (fold_left (fun g i => store g (overlay_pos i) (val i))
            (seqZ 0 (Z.of_nat k)) g0) = length g0.
Proof.
  induction k as [| k IH]; [reflexivity |].
  rewrite seqZ_S, fold_left_app. cbn [fold_left]. now rewrite length_store.
Qed.

Lemma scatter_in (val : Z -> Z) (g0 : list Z) (k : nat) (i : Z) :
  length g0 = 2000%nat -> (k <= 230)%nat -> 0 <= i < Z.of_nat k ->
  cell (fold_left (fun g i => store g (overlay_pos i) (val i))
          (seqZ 0 (Z.of_nat k)) g0) (overlay_pos i) = val i.
Proof.
  intros Hl. induction k as [| k IH]; intros Hk Hi; [lia |].
  rewrite seqZ_S, fold_left_app. cbn [fold_left].
  replace (0 + Z.of_nat k) with (Z.of_nat k) by lia.
  destruct (Z.eq_dec i (Z.of_nat k)) as [-> | Hne].
  - apply cell_store_eq. rewrite scatter_length, Hl.
    pose proof (overlay_pos_bounds (Z.of_nat k)). lia.
  - rewrite cell_store_ne; [apply IH; lia |].
    intros E. apply overlay_pos_inj in E; lia.
Qed.

Lemma scatter_out (val : Z -> Z) (g0 : list Z) (k : nat) (j : Z) :
  (forall i, 0 <= i < Z.of_nat k -> overlay_pos i <> j) ->
  cell (fold_left (fun g i => store g (overlay_pos i) (val i))
          (seqZ 0 (Z.of_nat k)) g0) j = cell g0 j.
Proof.
  induction k as [| k IH]; intros Hj; [reflexivity |].
  rewrite seqZ_S, fold_left_app. cbn [fold_left].
  replace (0 + Z.of_nat k) with (Z.of_nat k) by lia.
  rewrite cell_store_ne by (apply Hj; lia).
  apply IH. intros i Hi. apply Hj. lia.
Qed.

Lemma showMenu_crt (s : state) :
  crt (showMenu s)
  = fold_left (fun g i => store g (overlay_pos i)
                 (to_ushort (Z.lor (Z.land (cell menustr i) 0xff) 0x0f00)))
      (seqZ 0 230) (crt s).
Proof.
  unfold showMenu. cbn [crt set_crt].
  change (fold_left _ (seqZ 0 230) (57, crt s))
    with (fold_left
            (overlay_step (fun sp i g =>
               store g sp
                 (to_ushort (Z.lor (Z.land (cell menustr i) 0xff) 0x0f00))))
            (seqZ 0 (Z.of_nat 230)) (57, crt s)).
  now rewrite overlay_fold.
Qed.

Lemma loadBackground_crt (s : state) :
  crt (loadBackground s)
  = fold_left (fun g i => store g (overlay_pos i)
                 (to_ushort (Z.lor (cell (backgroundBackup s) i)
                               (currentColor s))))
      (seqZ 0 230) (crt s).
Proof.
  unfold loadBackground. cbn [crt set_crt].
  change (fold_left _ (seqZ 0 230) (57, crt s))
    with (fold_left
            (overlay_step (fun sp i g =>
               store g sp
                 (to_ushort (Z.lor (cell (backgroundBackup s) i)
                               (currentColor s)))))
            (seqZ 0 (Z.of_nat 230)) (57, crt s)).
  now rewrite overlay_fold.
Qed.

Lemma saveBackground_backup (s : state) :
  backgroundBackup (saveBackground s)
  = for_cells 0 230 (fun i _ => to_char (cell (crt s) (overlay_pos i)))
      (backgroundBackup s).
Proof.
  unfold saveBackground. cbn [backgroundBackup set_backgroundBackup].
  change (fold_left _ (seqZ 0 230) (57, backgroundBackup s))
    with (fold_left
            (overlay_step (fun sp i bk =>
               store bk i (to_char (cell (crt s) sp))))
            (seqZ 0 (Z.of_nat 230)) (57, backgroundBackup s)).
  now rewrite overlay_fold.
Qed.

(** ** C6: opening and closing the menu *)

(** A console with the byte 0x80 written at column 57 of row 0, the first
    cell under the menu. *)
Definition high_char : state :=
  fst (consolewrite [0x80] (boot (replicate 2000 0x0720) 57)).

(** C6 at the failing input.  The cell under the menu holds the character
    0x80 with the attribute 0x07, and the pen colour is 0x0700.  After
    saveBackground and loadBackground, and likewise after the keys that
    open and close the menu, the cell holds the character 0x80 with the
    attribute 0xFF, not the 0x07 of the pen colour: the saved [char] is
    sign-extended before the [|]. *)
Theorem restore_high_char_attribute :
  currentColor high_char = 0x0700
  /\ cell (crt high_char) 57 = 0x0780
  /\ cell (crt (loadBackground (saveBackground high_char))) 57 = 0xFF80
  /\ currentColor (keys [A_c; A_o; A_l; A_c; A_o; A_l] high_char) = 0x0700
  /\ cell (crt (keys [A_c; A_o; A_l; A_c; A_o; A_l] high_char)) 57 = 0xFF80
  /\ cell (crt (keys [A_c; A_o; A_l; A_c; A_o; A_l] high_char)) 58 = 0x0720.
Proof. vm_compute. repeat split; reflexivity. Qed.

(** * Further properties of the driver *)

(** ** The selection of the menu: handleInput *)

Lemma kill_line_menu_fields (rounds : nat) (s : state) :
  currentSelection (kill_line rounds s) = currentSelection s
  /\ currentColor (kill_line rounds s) = currentColor s.
Proof.
  revert s. induction rounds as [| k IH]; intros s; [auto |].
  cbn [kill_line]. destruct (_ && _); [| auto].
  unfold andthen. destruct (panicked _).
  - now autorewrite with putframe.
  - destruct (IH (consputc BACKSPACE
                    (set_input_e (to_uint (input_e s - 1)) s))) as (-> & ->).
    now autorewrite with putframe.
Qed.

Lemma line_input_menu_fields (c : Z) (s : state) :
  currentSelection (line_input c s) = currentSelection s
  /\ currentColor (line_input c s) = currentColor s.
Proof.
  unfold line_input. destruct (_ && _); [| auto].
  cbv zeta. unfold andthen. set (s1 := consputc _ _).
  assert (H : currentSelection s1 = currentSelection s
              /\ currentColor s1 = currentColor s)
    by (unfold s1; now autorewrite with putframe).
  clearbody s1. destruct (panicked s1); [exact H |].
  destruct (_ || _ || _); exact H.
Qed.

Lemma menu_forward_menu_fields (c : Z) (s : state) :
  currentSelection (menu_forward c s) = currentSelection (handleInput c s)
  /\ currentColor (menu_forward c s) = currentColor (handleInput c s).
Proof.
  unfold menu_forward, showMenu, displaySelection, clearFlags. cbv zeta.
  destruct (negb (c =? 0)); auto.
Qed.

(** The selection and the pen colour change in the menu handler only. *)
Lemma consoleintr_char_menu_fields (c : Z) (s : state) :
  (currentSelection (consoleintr_char c s) = currentSelection s
   /\ currentColor (consoleintr_char c s) = currentColor s)
  \/ (panicked s = false /\ menuStatus s = true /\ is_default c = true
      /\ currentSelection (consoleintr_char c s)
         = currentSelection (handleInput c s)
      /\ currentColor (consoleintr_char c s) = currentColor (handleInput c s)).
Proof.
  unfold consoleintr_char, is_default.
  destruct (panicked s) eqn:Hp; [now left |].
  destruct (c =? C_P); [now left |].
  destruct (c =? C_U).
  { left. unfold andthen.
    destruct (kill_line_menu_fields
                (Z.to_nat (to_uint (input_e s - input_w s))) s) as [H1 H2].
    destruct (panicked (kill_line _ s)); auto. }
  destruct (c =? C_H); cbn [orb].
  { left. unfold andthen.
    destruct (negb (menuStatus s) && negb (input_e s =? input_w s));
      [| now rewrite Hp].
    destruct (panicked (consputc _ _)); cbn [clearFlags];
      split; first [exact (consputc_currentSelection _ (set_input_e _ s))
                   | exact (consputc_currentColor _ (set_input_e _ s))]. }
  destruct (c =? DEL).
  { left. unfold andthen.
    destruct (negb (menuStatus s) && negb (input_e s =? input_w s));
      [| now rewrite Hp].
    destruct (panicked (consputc _ _)); cbn [clearFlags];
      split; first [exact (consputc_currentSelection _ (set_input_e _ s))
                   | exact (consputc_currentColor _ (set_input_e _ s))]. }
  destruct (c =? A_c); [now left |].
  destruct (c =? A_o); [left; now destruct (flagO s), (flagC s) |].
  destruct (c =? A_l).
  { left. now destruct (flagC s && flagO s), (menuStatus s). }
  destruct (menuStatus s); cbn [negb].
  - right. pose proof (menu_forward_menu_fields c s) as [H1 H2]. auto.
  - left. apply line_input_menu_fields.
Qed.

Lemma handleInput_selection (c : Z) (s : state) :
  0 <= currentSelection s < 16 ->
  0 <= currentSelection (handleInput c s) < 16.
Proof.
  intros H. unfold handleInput, repaint, getColor, getBrightColor. cbv zeta.
  destruct (to_char c =? 115); [cbn; zlia |].
  destruct (to_char c =? 119); [cbn; zlia |].
  destruct ((to_char c =? 100) || (to_char c =? 97)).
  { cbn. destruct (Z.eqb_spec (Z.rem (currentSelection s) 2) 0);
      cbn [negb]; zlia. }
  split_ifs; exact H.
Qed.

Lemma selection_kept (c : Z) (s : state) :
  0 <= currentSelection s < 16 ->
  0 <= currentSelection (handleInput c s) < 16
  /\ 0 <= currentSelection (consoleintr_char c s) < 16
  /\ (forall cs, 0 <= currentSelection (keys cs s) < 16).
Proof.
  intros H.
  assert (Hstep : forall c s, 0 <= currentSelection s < 16 ->
                    0 <= currentSelection (consoleintr_char c s) < 16).
  { intros c0 s0 H0.
    destruct (consoleintr_char_menu_fields c0 s0)
      as [[-> _] | (_ & _ & _ & -> & _)];
      [exact H0 | now apply handleInput_selection]. }
  split; [now apply handleInput_selection |]. split; [now apply Hstep |].
  intros cs. revert s H. induction cs as [| d cs IH]; intros s H; [exact H |].
  cbn [keys fold_left]. apply IH. now apply Hstep.
Qed.

(** The selection stays in [0, 16): under the menu handler for every
    character, and under the interrupt handler for every character and
    every state. *)
Theorem selection_in_range (c : Z) (s : state) :
  0 <= currentSelection s < 16 ->
  0 <= currentSelection (handleInput c s) < 16
  /\ 0 <= currentSelection (consoleintr_char c s) < 16
  /\ (forall cs, 0 <= currentSelection (keys cs s) < 16).
Proof. apply selection_kept. Qed.

Lemma selection_in_range_witness :
  0 <= currentSelection (keys [A_c; A_o; A_l; 119] blank) < 16.
Proof.
  apply (selection_in_range 0 blank); cbn; lia.
Defined.

(** Move-down ('s') and move-up ('w') undo each other, and move by one row
    of the menu, around the eight rows. *)
Theorem selection_down_up (s : state) :
  0 <= currentSelection s < 16 ->
  currentSelection (handleInput 119 (handleInput 115 s)) = currentSelection s
  /\ currentSelection (handleInput 115 (handleInput 119 s))
     = currentSelection s
  /\ currentSelection (handleInput 115 s) = (currentSelection s + 2) mod 16
  /\ currentSelection (handleInput 119 s) = (currentSelection s - 2) mod 16
  /\ currentSelection (handleInput 115 s) mod 2 = currentSelection s mod 2.
Proof.
  intros H. unfold handleInput. cbv zeta.
  cbn [to_char Z.add Z.modulo Z.div_eucl Z.pos_div_eucl Z.sub Z.eqb Pos.eqb
       orb currentSelection set_currentSelection snd fst Z.opp Z.leb Z.ltb
       Z.compare Pos.compare Pos.compare_cont Z.pos_sub Pos.add Pos.succ
       Z.succ_double Z.pred_double Z.double Pos.pred_double Z.mul Pos.mul].
  change (to_char 119 =? 115) with false.
  change (to_char 119 =? 119) with true.
  change (to_char 115 =? 115) with true.
  cbn [currentSelection set_currentSelection].
  repeat split; zlia.
Qed.

Lemma selection_down_up_witness :
  currentSelection (handleInput 119 (handleInput 115 blank))
  = currentSelection blank.
Proof. apply (selection_down_up blank). cbn. lia. Defined.

(** Move-left ('a') and move-right ('d') are the same action: the low bit
    of the selection is flipped, the row stays, and doing it twice gives
    the selection back. *)
Theorem selection_left_right (c : Z) (s : state) :
  to_char c = 97 \/ to_char c = 100 ->
  0 <= currentSelection s < 16 ->
  currentSelection (handleInput c s) = Z.lxor (currentSelection s) 1
  /\ currentSelection (handleInput c s) / 2 = currentSelection s / 2
  /\ currentSelection (handleInput c (handleInput c s)) = currentSelection s
  /\ currentSelection (handleInput 97 s) = currentSelection (handleInput 100 s).
Proof.
  intros Hc H.
  assert (Hflip : forall d s0, to_char d = 97 \/ to_char d = 100 ->
            currentSelection (handleInput d s0)
            = if negb (Z.rem (currentSelection s0) 2 =? 0)
              then currentSelection s0 - 1 else currentSelection s0 + 1).
  { intros d s0 Hd. unfold handleInput. cbv zeta.
    destruct Hd as [-> | ->]; reflexivity. }
  rewrite !Hflip by (first [exact Hc | now left | now right]).
  each_selection H; rewrite H; cbn; repeat split; reflexivity.
Qed.

Lemma selection_left_right_witness :
  currentSelection (handleInput 97 blank) = Z.lxor (currentSelection blank) 1.
Proof.
  apply (selection_left_right 97 blank); [now left | cbn; lia].
Defined.

(** ** The cells of the menu: showMenu and displaySelection *)

(** The cells the menu covers: columns 57..79 of rows 0..9. *)
Definition in_overlay (j : Z) : bool :=
  (0 <=? j) && (j / 80 <? 10) && (57 <=? j mod 80).

Lemma in_overlay_pos (j : Z) :
  in_overlay j = true <-> exists i, 0 <= i < 230 /\ overlay_pos i = j.
Proof.
  unfold in_overlay, overlay_pos. split.
  - intros H. apply andb_prop in H as [H H3]. apply andb_prop in H as [H1 H2].
    apply Z.leb_le in H1, H3. apply Z.ltb_lt in H2.
    exists (23 * (j / 80) + (j mod 80 - 57)). zlia.
  - intros (i & Hi & <-).
    pose proof (Z.div_mod i 23 ltac:(lia)).
    pose proof (Z.mod_pos_bound i 23 ltac:(lia)).
    generalize dependent (i / 23). generalize dependent (i mod 23).
    intros r Hr q Hq.
    assert (0 <= q < 10) by lia.
    replace ((57 + 80 * q + r) / 80) with q by zlia.
    replace ((57 + 80 * q + r) mod 80) with (57 + r) by zlia.
    rewrite !andb_true_iff, !Z.leb_le, Z.ltb_lt. lia.
Qed.

Lemma not_in_overlay (j : Z) :
  in_overlay j = false -> forall i, 0 <= i < 230 -> overlay_pos i <> j.
Proof.
  intros H i Hi E.
  assert (in_overlay j = true) by (apply in_overlay_pos; eauto).
  congruence.
Qed.

(** Two arrays of the same length with the same cells are the same. *)
Lemma cells_eq (l1 l2 : list Z) :
  length l1 = length l2 ->
  (forall i, 0 <= i < Z.of_nat (length l1) -> cell l1 i = cell l2 i) ->
  l1 = l2.
Proof.
  intros Hl H. apply list_eq_same_length with (n := length l1); auto.
  intros i x y Hi Hx Hy.
  specialize (H (Z.of_nat i) ltac:(lia)). unfold cell in H.
  destruct (Z.of_nat i <? 0) eqn:E; [lia |].
  rewrite Nat2Z.id in H.
  rewrite (list_lookup_total_correct _ _ _ Hx) in H.
  rewrite (list_lookup_total_correct _ _ _ Hy) in H. exact H.
Qed.

Lemma showMenu_length (s : state) : length (crt (showMenu s)) = length (crt s).
Proof.
  rewrite showMenu_crt. change 230 with (Z.of_nat 230).
  apply scatter_length.
Qed.

(** showMenu writes the 230 characters of the frame, white on black, on
    the cells of the overlay and no other cell; drawing it twice is
    drawing it once. *)
Theorem showMenu_cells (s : state) :
  length (crt s) = 2000%nat ->
  (forall i, 0 <= i < 230 ->
     cell (crt (showMenu s)) (overlay_pos i) = Z.lor (cell menustr i) 0x0f00)
  /\ (forall j, in_overlay j = false ->
        cell (crt (showMenu s)) j = cell (crt s) j)
  /\ showMenu (showMenu s) = showMenu s.
Proof.
  intros Hl.
  assert (Hin : forall s0, length (crt s0) = 2000%nat ->
            forall i, 0 <= i < 230 ->
            cell (crt (showMenu s0)) (overlay_pos i)
            = to_ushort (Z.lor (Z.land (cell menustr i) 0xff) 0x0f00)).
  { intros s0 H0 i Hi. rewrite showMenu_crt. change 230 with (Z.of_nat 230).
    rewrite (scatter_in (fun i => to_ushort
               (Z.lor (Z.land (cell menustr i) 0xff) 0x0f00)));
      [reflexivity | exact H0 | lia | lia]. }
  assert (Hout : forall s0 j, in_overlay j = false ->
            cell (crt (showMenu s0)) j = cell (crt s0) j).
  { intros s0 j Hj. rewrite showMenu_crt. change 230 with (Z.of_nat 230).
    apply scatter_out. intros i Hi. now apply not_in_overlay. }
  split; [| split].
  - intros i Hi. rewrite Hin by assumption.
    assert (Hc : exists k : nat, (k < 230)%nat /\ i = Z.of_nat k)
      by (exists (Z.to_nat i); lia).
    destruct Hc as (k & Hk & ->). clear Hi.
    do 230 (destruct k as [| k]; [reflexivity |]). lia.
  - intros j Hj. now apply Hout.
  - assert (E : crt (showMenu (showMenu s)) = crt (showMenu s)).
    { apply cells_eq; [now rewrite !showMenu_length |].
      intros j Hj. destruct (in_overlay j) eqn:Ej.
      - apply in_overlay_pos in Ej as (i & Hi & <-).
        rewrite !Hin; auto. now rewrite showMenu_length.
      - now rewrite Hout. }
    unfold showMenu in E |- *. cbn [crt set_crt] in E |- *.
    unfold set_crt. cbn. now rewrite E.
Qed.

Lemma showMenu_cells_witness :
  cell (crt (showMenu blank)) (overlay_pos 0) = Z.lor (cell menustr 0) 0x0f00.
Proof.
  apply (showMenu_cells blank eq_refl). lia.
Defined.

(** The row of the menu and the column inside the frame of the label a
    selection stands for. *)
Lemma computeLowerBound_pos (x : Z) :
  0 <= x < 16 ->
  computeLowerBound x = 80 * (x / 2 + 1) + 58 + 11 * (x mod 2).
Proof.
  intros H. unfold computeLowerBound. cbv zeta.
  rewrite Z.rem_mod_nonneg, Z.quot_div_nonneg by lia.
  destruct (Z.eqb_spec (x mod 2) 0); cbn [negb]; zlia.
Qed.

Lemma highlight_cells (cur : Z) (s : state) :
  0 <= cur < 16 -> length (crt s) = 2000%nat ->
  let lb := computeLowerBound cur in
  let label := 23 * (cur / 2 + 1) + 1 + 11 * (cur mod 2) in
  (forall j, 0 <= j < 10 ->
     lb + j = overlay_pos (label + j)
     /\ 1 <= (lb + j) / 80 <= 8
     /\ (cell menustr (label + j) = 32
         \/ 65 <= cell menustr (label + j) <= 122))
  /\ (forall i, lb <= i < lb + 10 ->
        Z.land (cell (crt (displaySelection cur s)) i) 0xff
        = Z.land (cell (crt s) i) 0xff
        /\ Z.land (cell (crt (displaySelection cur s)) i) 0xff00 = 0xf000)
  /\ (forall i, i < lb \/ lb + 10 <= i ->
        cell (crt (displaySelection cur s)) i = cell (crt s) i)
  /\ length (crt (displaySelection cur s)) = 2000%nat.
Proof.
  intros Hc Hl lb label.
  assert (Hlb : lb = 80 * (cur / 2 + 1) + 58 + 11 * (cur mod 2))
    by now apply computeLowerBound_pos.
  split; [| split; [| split]].
  - intros j Hj. subst label. rewrite Hlb. clear Hlb lb.
    each_selection Hc; subst cur;
      assert (Hj' : j = 0 \/ j = 1 \/ j = 2 \/ j = 3 \/ j = 4 \/ j = 5
                    \/ j = 6 \/ j = 7 \/ j = 8 \/ j = 9) by lia;
      repeat (destruct Hj' as [Hj' | Hj']); subst j;
      (split; [reflexivity |]); (split; [vm_compute; split; discriminate |]);
      vm_compute; first [left; reflexivity
                        | right; split; discriminate].
  - intros i Hi. unfold displaySelection. cbn [crt set_crt]. fold lb.
    clearbody lb.
    rewrite cell_for_cells_in by (rewrite ?Hl; zlia).
    apply (painted_cell (cell (crt s) i) 0xf000); reflexivity.
  - intros i Hi. unfold displaySelection. cbn [crt set_crt]. fold lb.
    now apply cell_for_cells_out.
  - unfold displaySelection. cbn [crt set_crt].
    now rewrite length_for_cells.
Qed.

(** The highlight of a selection in [0, 16) is the run of 10 cells of one
    label of the menu: cells of the overlay, on the rows 1..8 of the grid,
    none of them a cell of the frame.  displaySelection gives these cells
    the attribute 0xf0, keeps their characters and touches no other cell. *)
Theorem displaySelection_cells (cur : Z) (s : state) :
  0 <= cur < 16 -> length (crt s) = 2000%nat ->
  let lb := computeLowerBound cur in
  let label := 23 * (cur / 2 + 1) + 1 + 11 * (cur mod 2) in
  (forall j, 0 <= j < 10 ->
     lb + j = overlay_pos (label + j)
     /\ 1 <= (lb + j) / 80 <= 8
     /\ (cell menustr (label + j) = 32
         \/ 65 <= cell menustr (label + j) <= 122))
  /\ (forall i, lb <= i < lb + 10 ->
        Z.land (cell (crt (displaySelection cur s)) i) 0xff
        = Z.land (cell (crt s) i) 0xff
        /\ Z.land (cell (crt (displaySelection cur s)) i) 0xff00 = 0xf000)
  /\ (forall i, i < lb \/ lb + 10 <= i ->
        cell (crt (displaySelection cur s)) i = cell (crt s) i)
  /\ length (crt (displaySelection cur s)) = 2000%nat.
Proof. apply highlight_cells. Qed.

Lemma displaySelection_cells_witness :
  cell (crt (displaySelection 3 blank)) 0 = cell (crt blank) 0.
Proof.
  pose proof (displaySelection_cells 3 blank ltac:(lia) eq_refl) as H.
  cbv zeta in H. destruct H as (_ & _ & H & _).
  apply H. left. vm_compute. reflexivity.
Defined.

(** ** Closing the menu after opening it: saveBackground, loadBackground *)

(** The saved [char] of a cell is its character byte, read as signed. *)
Lemma to_char_byte (v : Z) :
  to_char v = if Z.land v 0xff <? 128 then Z.land v 0xff
              else Z.land v 0xff - 256.
Proof.
  change 0xff with (Z.ones 8). rewrite Z.land_ones by lia.
  unfold to_char. destruct (Z.ltb_spec (v mod 2 ^ 8) 128); zlia.
Qed.

Lemma lor_absorb (a p : Z) : Z.lor a (Z.land p a) = a.
Proof.
  apply Z.bits_inj'. intros n Hn. rewrite Z.lor_spec, Z.land_spec.
  destruct (Z.testbit a n), (Z.testbit p n); reflexivity.
Qed.

(** A cell restored from a saved character below 0x80. *)
Lemma restored_low (v p : Z) :
  Z.land p 0xff = 0 -> Z.land p 0xffff = p -> Z.land v 0xff < 128 ->
  Z.land (to_ushort (Z.lor (to_char v) p)) 0xff = Z.land v 0xff
  /\ Z.land (to_ushort (Z.lor (to_char v) p)) 0xff00 = p.
Proof.
  intros H1 H2 Hv. rewrite to_char_byte.
  destruct (Z.ltb_spec (Z.land v 0xff) 128); [| lia].
  now apply painted_cell.
Qed.

(** A cell restored from a saved character from 0x80 on: the sign bits of
    the [char] fill the attribute byte. *)
Lemma restored_high (v p : Z) :
  128 <= Z.land v 0xff ->
  Z.land (to_ushort (Z.lor (to_char v) p)) 0xff
  = Z.lor (Z.land v 0xff) (Z.land p 0xff)
  /\ Z.land (to_ushort (Z.lor (to_char v) p)) 0xff00 = 0xff00.
Proof.
  intros Hv. rewrite to_char_byte.
  destruct (Z.ltb_spec (Z.land v 0xff) 128); [lia |].
  assert (Hd : Z.land (Z.land v 0xff) (-256) = 0).
  { rewrite <- Z.land_assoc. change (Z.land 0xff (-256)) with 0.
    apply Z.land_0_r. }
  replace (Z.land v 0xff - 256) with (Z.lor (Z.land v 0xff) (-256)).
  2:{ rewrite <- Z.lxor_lor, <- Z.add_nocarry_lxor by exact Hd. lia. }
  unfold to_ushort. rewrite <- !Z.land_assoc.
  change (Z.land 0xFFFF 0xff) with 0xff.
  change (Z.land 0xFFFF 0xff00) with 0xff00.
  rewrite !Z.land_lor_distr_l, <- !Z.land_assoc.
  change (Z.land 0xff 0xff) with 0xff.
  change (Z.land (-256) 0xff) with 0.
  change (Z.land 0xff 0xff00) with 0.
  change (Z.land (-256) 0xff00) with 0xff00.
  rewrite Z.land_0_r, Z.lor_0_r, Z.lor_0_l. split; [reflexivity |].
  apply lor_absorb.
Qed.

Lemma saved_cell (s : state) (i : Z) :
  length (backgroundBackup s) = 230%nat -> 0 <= i < 230 ->
  cell (backgroundBackup (saveBackground s)) i
  = to_char (cell (crt s) (overlay_pos i)).
Proof.
  intros Hl Hi. rewrite saveBackground_backup.
  now rewrite cell_for_cells_in by lia.
Qed.

Lemma loaded_cell (s : state) (i : Z) :
  length (crt s) = 2000%nat -> 0 <= i < 230 ->
  cell (crt (loadBackground s)) (overlay_pos i)
  = to_ushort (Z.lor (cell (backgroundBackup s) i) (currentColor s)).
Proof.
  intros Hl Hi. rewrite loadBackground_crt. change 230 with (Z.of_nat 230).
  rewrite (scatter_in (fun i => to_ushort
             (Z.lor (cell (backgroundBackup s) i) (currentColor s))));
    [reflexivity | exact Hl | lia | lia].
Qed.

Lemma loaded_outside (s : state) (j : Z) :
  in_overlay j = false -> cell (crt (loadBackground s)) j = cell (crt s) j.
Proof.
  intros Hj. rewrite loadBackground_crt. change 230 with (Z.of_nat 230).
  apply scatter_out. intros i Hi. now apply not_in_overlay.
Qed.

(** saveBackground and then loadBackground, with a pen colour that is a
    16-bit attribute: the cells outside the overlay are left alone; every
    cell of the overlay gets its character byte back; its attribute byte
    is the pen colour when the character is below 0x80, and 0xFF when the
    character is 0x80 or above. *)
Theorem save_load_cells (s : state) (j : Z) :
  length (crt s) = 2000%nat -> length (backgroundBackup s) = 230%nat ->
  pen_ok s -> Z.land (currentColor s) 0xffff = currentColor s ->
  let s' := loadBackground (saveBackground s) in
  (in_overlay j = false -> cell (crt s') j = cell (crt s) j)
  /\ (in_overlay j = true ->
      Z.land (cell (crt s') j) 0xff = Z.land (cell (crt s) j) 0xff
      /\ (Z.land (cell (crt s) j) 0xff < 128 ->
          Z.land (cell (crt s') j) 0xff00 = currentColor s)
      /\ (128 <= Z.land (cell (crt s) j) 0xff ->
          Z.land (cell (crt s') j) 0xff00 = 0xff00)).
Proof.
  intros Hl Hb Hp H16 s'. subst s'. split.
  - intros Hj. now rewrite loaded_outside.
  - intros Hj. apply in_overlay_pos in Hj as (i & Hi & <-).
    rewrite loaded_cell by (auto; exact Hl).
    rewrite saved_cell by auto.
    change (currentColor (saveBackground s)) with (currentColor s).
    set (v := cell (crt s) (overlay_pos i)).
    split; [| split].
    + destruct (Z_lt_ge_dec (Z.land v 0xff) 128) as [Hv | Hv].
      * now apply restored_low.
      * destruct (restored_high v (currentColor s) ltac:(lia)) as [-> _].
        unfold pen_ok in Hp. rewrite Hp. apply Z.lor_0_r.
    + intros Hv. now apply restored_low.
    + intros Hv. now apply restored_high.
Qed.

Lemma save_load_cells_witness :
  cell (crt (loadBackground (saveBackground blank))) 0 = cell (crt blank) 0.
Proof.
  pose proof (save_load_cells blank 0 eq_refl eq_refl eq_refl eq_refl) as H.
  cbv zeta in H. exact (proj1 H eq_refl).
Defined.

(** ** The pen colour *)

(** The pen colour is a 16-bit attribute: no bit in the character byte,
    none above bit 15. *)
Definition pen_attribute (s : state) : Prop :=
  Z.land (currentColor s) 0xff = 0
  /\ Z.land (currentColor s) 0xffff = currentColor s.

Lemma handleInput_pen (c : Z) (s : state) :
  0 <= currentSelection s < 16 -> pen_attribute s ->
  pen_attribute (handleInput c s).
Proof.
  intros Hs [Hp H16]. unfold handleInput. cbv zeta.
  destruct (to_char c =? 115); [now split |].
  destruct (to_char c =? 119); [now split |].
  destruct ((to_char c =? 100) || (to_char c =? 97)); [now split |].
  destruct (to_char c =? 101).
  { destruct (commit_pen s (getColor s) Hs Hp (or_introl eq_refl)).
    now split. }
  destruct (to_char c =? 114); [| now split].
  destruct (commit_pen s (getBrightColor s) Hs Hp (or_intror eq_refl)).
  now split.
Qed.

(** The pen colour is such an attribute at boot, and stays one under every
    character the interrupt handler takes; only a commit key given to the
    open menu changes it at all. *)
Theorem pen_attribute_kept (c : Z) (s : state) :
  0 <= currentSelection s < 16 -> pen_attribute s ->
  pen_attribute (consoleintr_char c s)
  /\ (forall cs, pen_attribute (keys cs s))
  /\ (forall grid pos cs, pen_attribute (keys cs (boot grid pos)))
  /\ (currentColor (consoleintr_char c s) <> currentColor s ->
      menuStatus s = true /\ (to_char c = 101 \/ to_char c = 114)).
Proof.
  intros Hs Hp.
  assert (Hstep : forall c s, 0 <= currentSelection s < 16 ->
            pen_attribute s -> pen_attribute (consoleintr_char c s)).
  { intros c0 s0 H0 Hp0. unfold pen_attribute.
    destruct (consoleintr_char_menu_fields c0 s0)
      as [[_ ->] | (_ & _ & _ & _ & ->)];
      [exact Hp0 | now apply handleInput_pen]. }
  assert (Hkeys : forall cs s, 0 <= currentSelection s < 16 ->
            pen_attribute s -> pen_attribute (keys cs s)).
  { intros cs. induction cs as [| d cs IH]; intros s0 H0 Hp0; [exact Hp0 |].
    cbn [keys fold_left]. apply IH.
    - now apply (selection_kept d s0).
    - now apply Hstep. }
  split; [now apply Hstep |]. split; [intros cs; now apply Hkeys |].
  split.
  - intros grid pos cs. apply Hkeys; [cbn; lia | split; reflexivity].
  - intros Hne.
    destruct (consoleintr_char_menu_fields c s)
      as [[_ E] | (_ & Hm & _ & _ & E)]; [congruence |].
    split; [exact Hm |]. rewrite E in Hne. revert Hne.
    unfold handleInput. cbv zeta.
    destruct (to_char c =? 115); [cbn; congruence |].
    destruct (to_char c =? 119); [cbn; congruence |].
    destruct ((to_char c =? 100) || (to_char c =? 97)); [cbn; congruence |].
    destruct (Z.eqb_spec (to_char c) 101); [auto |].
    destruct (Z.eqb_spec (to_char c) 114); [auto | congruence].
Qed.

Lemma pen_attribute_kept_witness :
  pen_attribute (consoleintr_char 101 menu_open).
Proof.
  assert (H1 : 0 <= currentSelection menu_open < 16)
    by (vm_compute; split; [discriminate | reflexivity]).
  assert (H2 : pen_attribute menu_open) by (split; reflexivity).
  exact (proj1 (pen_attribute_kept 101 menu_open H1 H2)).
Defined.

(** ** Typing a line: the default case with the menu closed *)

(** The bytes in the buffer, from [input.r] up to [input.e]. *)
Definition window (s : state) : list Z :=
  (fun i => cell (input_buf s) ((input_r s + i) mod INPUT_BUF))
    <$> seqZ 0 (to_uint (input_e s - input_r s)).

(** A state in which typed characters go to the line. *)
Definition typing (s : state) : Prop :=
  on_rows s /\ menuStatus s = false /\ indices_ok (indices s)
  /\ length (input_buf s) = 128%nat.

(** A character that is stored as it is and commits nothing. *)
Definition ordinary (c : Z) : Prop :=
  0 < c < 256 /\ is_default c = true /\ c <> 10 /\ c <> 13 /\ c <> C_D.

Lemma committed_window (s : state) :
  input_w s = input_e s -> committed s = window s.
Proof. intros H. unfold committed, window. now rewrite H. Qed.

(** What line_input does with a character it takes. *)
Lemma line_input_takes (c : Z) (s : state) :
  typing s -> c <> 0 -> to_uint (input_e s - input_r s) < INPUT_BUF ->
  let c' := if c =? 13 then 10 else c in
  let s' := line_input c s in
  typing s'
  /\ window s' = window s ++ [to_char c']
  /\ input_r s' = input_r s
  /\ input_e s' = to_uint (input_e s + 1)
  /\ input_w s'
     = (if (c' =? 10) || (c' =? C_D)
           || (to_uint (input_e s + 1) =? to_uint (input_r s + INPUT_BUF))
        then to_uint (input_e s + 1) else input_w s)
  /\ (c <> BACKSPACE -> uart s' = c' :: uart s)
  /\ flagC s' = false /\ flagO s' = false.
Proof.
  intros (Hrows & Hm & Hi & Hl) Hc Hfull c' s'.
  assert (Hin : indices_ok (indices s')) by now apply line_input_indices.
  assert (Hr' : on_rows s') by now apply line_input_on_rows.
  subst s'. revert Hin Hr'. unfold line_input.
  destruct (Z.eqb_spec c 0) as [| _]; [contradiction |].
  destruct (Z.ltb_spec (to_uint (input_e s - input_r s)) INPUT_BUF);
    [| lia].
  cbn [negb andb]. cbv zeta. fold c'. unfold andthen.
  set (s0 := set_input_e _ (set_input_buf _ (clearFlags s))).
  assert (Hs0 : on_rows s0) by exact Hrows.
  pose proof (consputc_on_rows c' s0 Hs0) as [Hp1 _].
  rewrite Hp1.
  set (s1 := consputc c' s0).
  assert (Hbuf : input_buf s1
                 = store (input_buf s) (input_e s mod INPUT_BUF) (to_char c'))
    by (unfold s1; now rewrite consputc_input_buf).
  assert (Hr1 : input_r s1 = input_r s)
    by (unfold s1; now rewrite consputc_input_r).
  assert (He1 : input_e s1 = to_uint (input_e s + 1))
    by (unfold s1; now rewrite consputc_input_e).
  assert (Hw1 : input_w s1 = input_w s)
    by (unfold s1; now rewrite consputc_input_w).
  assert (Hm1 : menuStatus s1 = false)
    by (unfold s1; now rewrite consputc_menuStatus).
  assert (Hf1 : flagC s1 = false /\ flagO s1 = false)
    by (unfold s1; now rewrite consputc_flagC, consputc_flagO).
  assert (Hu1 : c <> BACKSPACE -> uart s1 = c' :: uart s).
  { intros Hb. unfold s1, consputc. destruct Hs0 as [-> _].
    rewrite cgaputc_uart. unfold uartputc.
    destruct (Z.eqb_spec c' BACKSPACE) as [E | _]; [| reflexivity].
    exfalso. revert E Hb. unfold c', BACKSPACE.
    destruct (c =? 13); lia. }
  clearbody s1. clear Hp1 Hs0. clear s0.
  intros Hin Hr'.
  assert (Hwin : forall s2, input_buf s2 = input_buf s1 ->
            input_r s2 = input_r s1 -> input_e s2 = input_e s1 ->
            window s2 = window s ++ [to_char c']).
  { intros s2 E1 E2 E3. unfold window. rewrite E1, E2, E3, Hbuf, Hr1, He1.
    revert Hi Hfull. unfold indices_ok, indices, INPUT_BUF, to_uint.
    intros (Hri & Hwi & Hei & Hd) Hfull.
    replace (((input_e s + 1) mod 2 ^ 32 - input_r s) mod 2 ^ 32)
      with ((input_e s - input_r s) mod 2 ^ 32 + 1) by zlia.
    rewrite seqZ_app by zlia. rewrite fmap_app. f_equal.
    - apply list_fmap_ext. intros k i Hk.
      apply lookup_seqZ in Hk as [-> Hk].
      apply cell_store_ne. zlia.
    - rewrite (seqZ_cons _ 1) by lia. rewrite seqZ_nil by lia.
      cbn [fmap list_fmap]. f_equal.
      replace ((input_r s + (0 + (input_e s - input_r s) mod 2 ^ 32))
               mod 128) with (input_e s mod 128) by zlia.
      apply cell_store_eq. rewrite Hl. zlia. }
  assert (Hlen1 : length (input_buf s1) = 128%nat)
    by (rewrite Hbuf, length_store; exact Hl).
  rewrite He1, Hr1 in *.
  destruct (_ || _ || _) eqn:Ec.
  - split; [split; [exact Hr' | split; [exact Hm1 | split; assumption]] |].
    split; [now apply Hwin |].
    split; [exact Hr1 |]. split; [exact He1 |]. split; [reflexivity |].
    split; [exact Hu1 | exact Hf1].
  - split; [split; [exact Hr' | split; [exact Hm1 | split; assumption]] |].
    split; [now apply Hwin |].
    split; [exact Hr1 |]. split; [exact He1 |]. split; [exact Hw1 |].
    split; [exact Hu1 | exact Hf1].
Qed.

Lemma consoleintr_char_typing (c : Z) (s : state) :
  typing s -> is_default c = true -> consoleintr_char c s = line_input c s.
Proof.
  intros ([Hp _] & Hm & _) Hd. unfold is_default in Hd.
  apply negb_true_iff in Hd.
  repeat (apply orb_false_elim in Hd as [Hd ?]).
  unfold consoleintr_char. rewrite Hp, Hd, Hm.
  repeat match goal with H : (c =? _) = false |- _ => rewrite H end.
  reflexivity.
Qed.

Lemma keys_cons (c : Z) (cs : list Z) (s : state) :
  keys (c :: cs) s = keys cs (consoleintr_char c s).
Proof. reflexivity. Qed.

(** Ordinary characters typed while there is room: they are stored in
    order behind what is in the buffer, echoed, and not yet committed. *)
Lemma typed_ordinary (l : list Z) :
  forall s, typing s -> Forall ordinary l ->
    to_uint (input_e s - input_r s) + Z.of_nat (length l) < INPUT_BUF ->
    typing (keys l s)
    /\ window (keys l s) = window s ++ (to_char <$> l)
    /\ input_r (keys l s) = input_r s
    /\ input_w (keys l s) = input_w s
    /\ to_uint (input_e (keys l s) - input_r (keys l s))
       = to_uint (input_e s - input_r s) + Z.of_nat (length l)
    /\ uart (keys l s) = rev l ++ uart s.
Proof.
  induction l as [| c l IH]; intros s Hs Hl Hroom.
  - cbn [keys fold_left length fmap list_fmap rev app].
    rewrite app_nil_r. repeat split; try apply Hs. cbn. lia.
  - apply Forall_cons in Hl as [(Hc & Hd & H10 & H13 & H4) Hl].
    cbn [length] in Hroom. rewrite keys_cons.
    rewrite consoleintr_char_typing by assumption.
    destruct (line_input_takes c s Hs ltac:(lia) ltac:(lia))
      as (Ht & Hwin & Hr & He & Hw & Hu & _).
    destruct (Z.eqb_spec c 13) as [| _]; [contradiction |].
    assert (Hd1 : to_uint (input_e (line_input c s) - input_r (line_input c s))
                  = to_uint (input_e s - input_r s) + 1).
    { rewrite He, Hr. destruct Hs as (_ & _ & Hi & _). revert Hi Hroom.
      unfold indices_ok, indices, to_uint, INPUT_BUF. intros Hi Hroom. zlia. }
    assert (Hw1 : input_w (line_input c s) = input_w s).
    { rewrite Hw.
      destruct (Z.eqb_spec c 10) as [| _]; [contradiction |].
      destruct (Z.eqb_spec c C_D) as [| _]; [contradiction |].
      cbn [orb].
      destruct (Z.eqb_spec (to_uint (input_e s + 1))
                  (to_uint (input_r s + INPUT_BUF))) as [E | _];
        [| reflexivity].
      exfalso. destruct Hs as (_ & _ & Hi & _). revert Hi Hroom E.
      unfold indices_ok, indices, to_uint, INPUT_BUF. intros Hi Hroom E.
      zlia. }
    destruct (IH (line_input c s) Ht Hl ltac:(lia))
      as (Ht' & Hwin' & Hr' & Hw' & Hd' & Hu').
    split; [exact Ht' |].
    split. { rewrite Hwin', Hwin. cbn [fmap list_fmap]. now rewrite <- app_assoc. }
    split; [congruence |]. split; [congruence |].
    split; [cbn [length]; lia |].
    rewrite Hu', Hu by (unfold BACKSPACE; lia).
    cbn [rev]. now rewrite <- app_assoc.
Qed.

Lemma to_char_ordinary (c : Z) :
  ordinary c -> plain (to_char c) /\ to_char (to_char c) = to_char c.
Proof.
  intros (Hc & _ & H10 & _ & H4). unfold plain, to_char, C_D in *. zlia.
Qed.

Lemma empty_window (s : state) :
  typing s -> input_e s = input_r s ->
  window s = [] /\ to_uint (input_e s - input_r s) = 0.
Proof.
  intros _ E. unfold window. rewrite E.
  replace (input_r s - input_r s) with 0 by lia. split; reflexivity.
Qed.

Lemma typing_in_range (s : state) : typing s -> in_range s.
Proof.
  intros (_ & _ & Hi & _). revert Hi. unfold indices_ok, indices, in_range.
  tauto.
Qed.

(** A line typed on an empty buffer and read back.  For ordinary
    characters (bytes that are no control key of the driver) followed by a
    newline or a carriage return, consoleread gives exactly the typed
    bytes and a newline, in order, and the serial line has echoed them. *)
Theorem typed_line_read (killed : bool) (n : Z) (l : list Z) (nl : Z)
    (s : state) :
  typing s -> input_e s = input_r s ->
  Forall ordinary l -> Z.of_nat (length l) < INPUT_BUF ->
  nl = 10 \/ nl = 13 -> Z.of_nat (length l) < n ->
  consoleread killed n (keys (l ++ [nl]) s)
  = ReadDone (consumed (Z.of_nat (length l) + 1) (keys (l ++ [nl]) s))
      ((to_char <$> l) ++ [10]) (Z.of_nat (length l) + 1)
  /\ uart (keys (l ++ [nl]) s) = 10 :: rev l ++ uart s
  /\ window (consumed (Z.of_nat (length l) + 1) (keys (l ++ [nl]) s)) = [].
Proof.
  intros Hs He Hl Hlen Hnl Hn.
  destruct (empty_window s Hs He) as [Hw0 Hd0].
  destruct (typed_ordinary l s Hs Hl ltac:(lia))
    as (Ht & Hwin & Hr & Hw & Hd & Hu).
  rewrite keys_snoc.
  assert (Hdef : is_default nl = true) by (destruct Hnl as [-> | ->]; reflexivity).
  rewrite consoleintr_char_typing by assumption.
  destruct (line_input_takes nl (keys l s) Ht
              ltac:(destruct Hnl; lia) ltac:(lia))
    as (Ht1 & Hwin1 & Hr1 & He1 & Hw1 & Hu1 & _).
  assert (Hc' : (if nl =? 13 then 10 else nl) = 10)
    by (destruct Hnl as [-> | ->]; reflexivity).
  rewrite Hc' in *. cbn [Z.eqb Pos.eqb orb] in Hw1.
  set (s1 := line_input nl (keys l s)) in *.
  assert (Hcom : committed s1 = (to_char <$> l) ++ [10]).
  { rewrite committed_window by congruence.
    rewrite Hwin1, Hwin, Hw0. reflexivity. }
  assert (Hplain : Forall plain (to_char <$> l)).
  { apply Forall_fmap. eapply Forall_impl; [exact Hl |].
    intros c Hc. now apply to_char_ordinary. }
  assert (Hidem : to_char <$> (to_char <$> l) = to_char <$> l).
  { rewrite <- list_fmap_compose. apply list_fmap_ext.
    intros k c Hk. cbn. apply to_char_ordinary.
    eapply Forall_lookup_1; eauto. }
  destruct (consoleread_cases killed n s1 (to_char <$> l) [10]
              (typing_in_range _ Ht1) ltac:(lia) Hplain Hcom) as (Hread & _).
  rewrite length_fmap in Hread.
  specialize (Hread Hn [] eq_refl). rewrite Hidem in Hread.
  split; [exact Hread |]. split.
  - rewrite Hu1 by (unfold BACKSPACE; destruct Hnl; lia). now rewrite Hu.
  - unfold window, consumed.
    cbn [input_buf input_r input_e set_input_r].
    replace (to_uint (input_e s1 - to_uint (input_r s1 + (Z.of_nat (length l) + 1))))
      with 0; [reflexivity |].
    rewrite He1, Hr1. rewrite Hd0 in Hd.
    destruct Ht as (_ & _ & Hi & _). revert Hi Hd Hlen.
    unfold indices_ok, indices, to_uint, INPUT_BUF.
    intros Hi Hd Hlen. zlia.
Qed.

Lemma blank_typing : typing blank.
Proof.
  split; [apply blank_on_rows |]. split; [reflexivity |].
  split; [| reflexivity]. vm_compute. repeat split; congruence.
Qed.

Lemma typed_line_read_witness :
  consoleread false 16 (keys ([111; 107] ++ [13]) blank)
  = ReadDone (consumed (Z.of_nat (length [111; 107]) + 1)
                (keys ([111; 107] ++ [13]) blank))
      ((to_char <$> [111; 107]) ++ [10]) (Z.of_nat (length [111; 107]) + 1).
Proof.
  assert (Ho : Forall ordinary [111; 107]).
  { repeat constructor; unfold C_D; try lia; reflexivity. }
  exact (proj1 (typed_line_read false 16 [111; 107] 13 blank blank_typing
                  eq_refl Ho ltac:(cbn; unfold INPUT_BUF; lia)
                  (or_intror eq_refl) ltac:(cbn; lia))).
Defined.

(** ** End of input and a full buffer *)

(** Text typed on an empty buffer and ended with Ctrl-D: the first read
    gives the text without the marker, the next read gives 0 bytes and
    takes the marker away; with no text the first read gives 0 bytes. *)
Theorem typed_eof_read (killed : bool) (n n' : Z) (l : list Z) (s : state) :
  typing s -> input_e s = input_r s ->
  Forall ordinary l -> Z.of_nat (length l) < INPUT_BUF ->
  Z.of_nat (length l) < n -> 0 < n' ->
  let s1 := keys (l ++ [C_D]) s in
  let len := Z.of_nat (length l) in
  consoleread killed n s1
  = ReadDone (consumed (if len =? 0 then 1 else len) s1) (to_char <$> l) len
  /\ (0 < len ->
      consoleread killed n' (consumed len s1)
      = ReadDone (consumed (len + 1) s1) [] 0).
Proof.
  intros Hs He Hl Hlen Hn Hn' s1 len.
  destruct (empty_window s Hs He) as [Hw0 Hd0].
  destruct (typed_ordinary l s Hs Hl ltac:(lia))
    as (Ht & Hwin & Hr & Hw & Hd & Hu).
  assert (Es1 : s1 = line_input C_D (keys l s)).
  { unfold s1. rewrite keys_snoc.
    now rewrite consoleintr_char_typing by (auto; reflexivity). }
  destruct (line_input_takes C_D (keys l s) Ht
              ltac:(unfold C_D; lia) ltac:(lia))
    as (Ht1 & Hwin1 & Hr1 & He1 & Hw1 & _).
  rewrite <- Es1 in *. cbn [C_D Z.eqb Pos.eqb orb] in Hw1, Hwin1.
  assert (Hcom : committed s1 = (to_char <$> l) ++ [C_D]).
  { rewrite committed_window by congruence.
    rewrite Hwin1, Hwin, Hw0. reflexivity. }
  assert (Hplain : Forall plain (to_char <$> l)).
  { apply Forall_fmap. eapply Forall_impl; [exact Hl |].
    intros c Hc. now apply to_char_ordinary. }
  assert (Hidem : to_char <$> (to_char <$> l) = to_char <$> l).
  { rewrite <- list_fmap_compose. apply list_fmap_ext.
    intros k c Hk. cbn. apply to_char_ordinary.
    eapply Forall_lookup_1; eauto. }
  destruct (consoleread_cases killed n s1 (to_char <$> l) [C_D]
              (typing_in_range _ Ht1) ltac:(lia) Hplain Hcom)
    as (_ & Hread & _).
  rewrite length_fmap in Hread. fold len in Hread.
  destruct (Hread Hn [] eq_refl) as [H1 H2]. rewrite Hidem in H1.
  split; [exact H1 |]. intros Hpos. now apply H2.
Qed.

Lemma typed_eof_read_witness :
  consoleread false 16 (keys ([111; 107] ++ [C_D]) blank)
  = ReadDone (consumed 2 (keys ([111; 107] ++ [C_D]) blank))
      (to_char <$> [111; 107]) 2.
Proof.
  assert (Ho : Forall ordinary [111; 107]).
  { repeat constructor; unfold C_D; try lia; reflexivity. }
  exact (proj1 (typed_eof_read false 16 1 [111; 107] blank blank_typing
                  eq_refl Ho ltac:(cbn; unfold INPUT_BUF; lia)
                  ltac:(cbn; lia) ltac:(lia))).
Defined.

(** A character of the default case that finds the buffer full, with the
    menu closed, is dropped: no store, no echo, no change at all. *)
Lemma line_input_full (c : Z) (s : state) :
  INPUT_BUF <= to_uint (input_e s - input_r s) -> line_input c s = s.
Proof.
  intros H. unfold line_input.
  destruct (Z.ltb_spec (to_uint (input_e s - input_r s)) INPUT_BUF); [lia |].
  now rewrite andb_false_r.
Qed.

(** 128 ordinary characters typed on an empty buffer, with no newline: the
    128th commits them all.  A read of 128 bytes gets them; a read of more
    gets them and then waits in [sleep]; and until a reader comes, every
    further character of the default case is dropped without an echo. *)
Theorem full_buffer_commit (killed : bool) (n : Z) (l : list Z) (s : state) :
  typing s -> input_e s = input_r s ->
  Forall ordinary l -> Z.of_nat (length l) = INPUT_BUF ->
  let s1 := keys l s in
  input_w s1 = input_e s1
  /\ committed s1 = to_char <$> l
  /\ consoleread killed INPUT_BUF s1
     = ReadDone (consumed INPUT_BUF s1) (to_char <$> l) INPUT_BUF
  /\ (INPUT_BUF < n ->
      consoleread killed n s1
      = if killed then ReadKilled (consumed INPUT_BUF s1) (to_char <$> l)
        else ReadSleep (consumed INPUT_BUF s1) (to_char <$> l)
               (Z.to_nat (n - INPUT_BUF)))
  /\ (forall c, is_default c = true -> consoleintr_char c s1 = s1).
Proof.
  intros Hs He Hl Hlen s1.
  destruct (empty_window s Hs He) as [Hw0 Hd0].
  destruct l as [| c0 l0 _] using rev_ind;
    [cbn in Hlen; unfold INPUT_BUF in Hlen; lia |].
  rewrite length_app in Hlen. cbn [length] in Hlen.
  apply Forall_app in Hl as [Hl0 Hc0]. apply Forall_cons in Hc0 as [Hc0 _].
  destruct (typed_ordinary l0 s Hs Hl0 ltac:(unfold INPUT_BUF in *; lia))
    as (Ht & Hwin & Hr & Hw & Hd & Hu).
  pose proof Hc0 as (Hc & Hdef & H10 & H13 & H4).
  assert (Es1 : s1 = line_input c0 (keys l0 s)).
  { unfold s1. rewrite keys_snoc.
    now rewrite consoleintr_char_typing by auto. }
  destruct (line_input_takes c0 (keys l0 s) Ht ltac:(lia)
              ltac:(unfold INPUT_BUF in *; lia))
    as (Ht1 & Hwin1 & Hr1 & He1 & Hw1 & _).
  rewrite <- Es1 in *.
  destruct (Z.eqb_spec c0 13) as [| _]; [contradiction |].
  assert (Hfull : to_uint (input_e s1 - input_r s1) = INPUT_BUF).
  { rewrite He1, Hr1. rewrite Hd0 in Hd.
    destruct Ht as (_ & _ & Hi & _). revert Hi Hd Hlen.
    unfold indices_ok, indices, to_uint, INPUT_BUF. intros Hi Hd Hlen. zlia. }
  assert (Hwe : input_w s1 = input_e s1).
  { rewrite Hw1, He1.
    destruct (Z.eqb_spec (to_uint (input_e (keys l0 s) + 1))
                (to_uint (input_r (keys l0 s) + INPUT_BUF))) as [_ | E];
      [now rewrite !orb_true_r |].
    exfalso. apply E. rewrite He1, Hr1 in Hfull. rewrite Hd0 in Hd.
    destruct Ht as (_ & _ & Hi & _). revert Hi Hd Hfull.
    unfold indices_ok, indices, to_uint, INPUT_BUF. intros Hi Hd Hfull.
    zlia. }
  assert (Hcom : committed s1 = to_char <$> (l0 ++ [c0])).
  { rewrite committed_window by exact Hwe.
    rewrite Hwin1, Hwin, Hw0, fmap_app. reflexivity. }
  assert (Hall : Forall ordinary (l0 ++ [c0]))
    by (apply Forall_app; split; [exact Hl0 | now constructor]).
  assert (Hplain : Forall plain (to_char <$> (l0 ++ [c0]))).
  { apply Forall_fmap. eapply Forall_impl; [exact Hall |].
    intros c Hc'. now apply to_char_ordinary. }
  assert (Hidem : to_char <$> (to_char <$> (l0 ++ [c0]))
                  = to_char <$> (l0 ++ [c0])).
  { rewrite <- list_fmap_compose. apply list_fmap_ext.
    intros k c Hk. cbn. apply to_char_ordinary.
    eapply Forall_lookup_1; eauto. }
  assert (Hlen' : Z.of_nat (length (to_char <$> (l0 ++ [c0]))) = INPUT_BUF).
  { rewrite length_fmap, length_app. cbn [length]. lia. }
  split; [exact Hwe |]. split; [exact Hcom |]. split; [| split].
  - destruct (consoleread_cases killed INPUT_BUF s1
                (to_char <$> (l0 ++ [c0])) []
                (typing_in_range _ Ht1) ltac:(unfold INPUT_BUF; lia) Hplain
                ltac:(now rewrite app_nil_r)) as (_ & _ & Hread & _).
    rewrite Hidem in Hread. now apply Hread.
  - intros Hn.
    destruct (consoleread_cases killed n s1
                (to_char <$> (l0 ++ [c0])) []
                (typing_in_range _ Ht1) ltac:(unfold INPUT_BUF in *; lia)
                Hplain ltac:(now rewrite app_nil_r)) as (_ & _ & _ & Hread).
    rewrite Hidem, Hlen' in Hread. now apply Hread; [lia |].
  - intros c Hcd. rewrite consoleintr_char_typing by assumption.
    apply line_input_full. lia.
Qed.

Lemma full_buffer_commit_witness :
  committed (keys (replicate 128 120) blank) = to_char <$> replicate 128 120.
Proof.
  assert (Ho : Forall ordinary (replicate 128 120)).
  { apply Forall_replicate. repeat split; unfold C_D; try lia. }
  pose proof (full_buffer_commit false 200 (replicate 128 120) blank
                blank_typing eq_refl Ho eq_refl) as H.
  cbv zeta in H. exact (proj1 (proj2 H)).
Defined.

(** ** Erasing: kill-line and backspace *)

(** The bytes typed and not yet committed, from [input.w] up to [input.e]. *)
Definition pending (s : state) : list Z :=
  (fun i => cell (input_buf s) ((input_w s + i) mod INPUT_BUF))
    <$> seqZ 0 (to_uint (input_e s - input_w s)).

(** The erase sequence on the serial line, once per erased character
    (the log has the latest byte first; the sequence reads the same both
    ways). *)
Definition erase_echo (k : nat) : list Z := mjoin (replicate k [8; 32; 8]).

Definition edit_range (s : state) : Prop :=
  0 <= input_w s < 2 ^ 32 /\ 0 <= input_e s < 2 ^ 32.

Lemma pending_empty (s : state) :
  input_e s = input_w s -> pending s = [].
Proof.
  intros E. unfold pending. rewrite E.
  now replace (input_w s - input_w s) with 0 by lia.
Qed.

Lemma pending_last (s : state) :
  edit_range s -> input_e s <> input_w s ->
  pending s
  = pending (set_input_e (to_uint (input_e s - 1)) s)
    ++ [cell (input_buf s) (to_uint (input_e s - 1) mod INPUT_BUF)].
Proof.
  intros [Hw He] Hne. unfold pending.
  cbn [input_buf input_w input_e set_input_e].
  replace (to_uint (input_e s - input_w s))
    with (to_uint (to_uint (input_e s - 1) - input_w s) + 1)
    by (unfold to_uint; zlia).
  rewrite seqZ_app by (unfold to_uint; zlia). rewrite fmap_app. f_equal.
  rewrite (seqZ_cons _ 1) by lia. rewrite seqZ_nil by lia.
  cbn [fmap list_fmap]. do 2 f_equal. unfold to_uint, INPUT_BUF. zlia.
Qed.

Lemma consputc_erase (s : state) :
  on_rows s -> uart (consputc BACKSPACE s) = [8; 32; 8] ++ uart s.
Proof.
  intros [Hp _]. unfold consputc. rewrite Hp, cgaputc_uart. reflexivity.
Qed.

Lemma consputc_pending (c : Z) (s : state) :
  pending (consputc c s) = pending s.
Proof.
  unfold pending. now autorewrite with putframe.
Qed.

Lemma erase_echo_S (m : nat) :
  erase_echo (S m) = erase_echo m ++ [8; 32; 8].
Proof.
  unfold erase_echo. induction m as [| m IH]; [reflexivity |].
  change (replicate (S (S m)) [8; 32; 8])
    with ([8; 32; 8] :: replicate (S m) [8; 32; 8]).
  change (mjoin ([8; 32; 8] :: replicate (S m) [8; 32; 8]))
    with ([8; 32; 8] ++ mjoin (replicate (S m) [8; 32; 8])).
  rewrite IH at 1. now rewrite app_assoc.
Qed.

(** The loop of kill-line: it takes characters off the end of the pending
    bytes, one erase echo each, and stops at the committed bytes or behind
    a newline. *)
Lemma kill_line_erases (rounds : nat) :
  forall s, on_rows s -> edit_range s ->
    rounds = Z.to_nat (to_uint (input_e s - input_w s)) ->
    exists kept erased,
      pending s = kept ++ erased
      /\ Forall (fun c => c <> 10) erased
      /\ (kept = [] \/ exists k, kept = k ++ [10])
      /\ pending (kill_line rounds s) = kept
      /\ on_rows (kill_line rounds s)
      /\ input_r (kill_line rounds s) = input_r s
      /\ input_w (kill_line rounds s) = input_w s
      /\ input_buf (kill_line rounds s) = input_buf s
      /\ uart (kill_line rounds s) = erase_echo (length erased) ++ uart s.
Proof.
  induction rounds as [| k IH]; intros s Hrows Hrange Hk.
  - exists [], []. cbn [kill_line].
    assert (E : input_e s = input_w s).
    { destruct Hrange. revert Hk. unfold to_uint. intros Hk. zlia. }
    rewrite (pending_empty s E). repeat split; auto; apply Hrows.
  - cbn [kill_line].
    destruct (Z.eqb_spec (input_e s) (input_w s)) as [E | Hne]; cbn [negb andb].
    { exists [], []. rewrite (pending_empty s E).
      repeat split; auto; apply Hrows. }
    pose proof (pending_last s Hrange Hne) as Hpl.
    set (last := cell (input_buf s) (to_uint (input_e s - 1) mod INPUT_BUF))
      in *.
    destruct (Z.eqb_spec last 10) as [E10 | Hn10]; cbn [negb].
    { exists (pending s), []. rewrite app_nil_r.
      split; [reflexivity |]. split; [constructor |].
      split; [right; eexists; rewrite Hpl, E10; reflexivity |].
      repeat split; auto; apply Hrows. }
    unfold andthen.
    set (s1 := consputc BACKSPACE (set_input_e (to_uint (input_e s - 1)) s)).
    assert (Hrows1 : on_rows s1) by now apply consputc_on_rows.
    destruct Hrows1 as [Hp1 Hc1]. rewrite Hp1.
    assert (Hrange1 : edit_range s1).
    { unfold s1, edit_range. autorewrite with putframe.
      cbn [input_w input_e set_input_e]. destruct Hrange.
      unfold to_uint. zlia. }
    assert (Hk1 : k = Z.to_nat (to_uint (input_e s1 - input_w s1))).
    { unfold s1. autorewrite with putframe.
      cbn [input_w input_e set_input_e]. destruct Hrange.
      revert Hk. unfold to_uint. intros Hk. zlia. }
    destruct (IH s1 (conj Hp1 Hc1) Hrange1 Hk1)
      as (kept & erased & Hpend & Hall & Hkept & Hres & Hrows' & Hr' & Hw'
          & Hb' & Hu').
    exists kept, (erased ++ [last]).
    assert (Hp0 : pending s1 = pending (set_input_e (to_uint (input_e s - 1)) s))
      by (unfold s1; apply consputc_pending).
    split; [rewrite Hpl, <- Hp0, Hpend; now rewrite app_assoc |].
    split; [apply Forall_app; split; [exact Hall | now constructor] |].
    split; [exact Hkept |]. split; [exact Hres |]. split; [exact Hrows' |].
    split; [rewrite Hr'; unfold s1; now autorewrite with putframe |].
    split; [rewrite Hw'; unfold s1; now autorewrite with putframe |].
    split; [rewrite Hb'; unfold s1; now autorewrite with putframe |].
    rewrite Hu'. unfold s1. rewrite consputc_erase by exact Hrows.
    cbn [uart set_input_e]. rewrite length_app. cbn [length].
    rewrite Nat.add_1_r, erase_echo_S. now rewrite <- app_assoc.
Qed.

Lemma kill_line_pending (s : state) :
  on_rows s -> edit_range s ->
  let s' := consoleintr_char C_U s in
  exists kept erased,
    pending s = kept ++ erased
    /\ Forall (fun c => c <> 10) erased
    /\ (kept = [] \/ exists k, kept = k ++ [10])
    /\ pending s' = kept
    /\ input_r s' = input_r s /\ input_w s' = input_w s
    /\ input_buf s' = input_buf s
    /\ uart s' = erase_echo (length erased) ++ uart s
    /\ flagC s' = false /\ flagO s' = false.
Proof.
  intros Hrows Hrange s'.
  destruct (kill_line_erases _ s Hrows Hrange eq_refl)
    as (kept & erased & H1 & H2 & H3 & H4 & [Hp Hc] & H5 & H6 & H7 & H8).
  exists kept, erased.
  assert (E : s' = clearFlags
                     (kill_line (Z.to_nat (to_uint (input_e s - input_w s))) s)).
  { unfold s', consoleintr_char, andthen. destruct Hrows as [-> _].
    cbn [Z.eqb C_U C_P Pos.eqb]. now rewrite Hp. }
  rewrite E. repeat split; assumption.
Qed.

(** Ctrl-U, with the menu open or closed: the pending bytes lose their end
    back to the committed bytes or to the last newline among them; the
    bytes read so far, the committed bytes and the buffer stay; the serial
    line gets one erase sequence per erased byte; both flags are cleared. *)
Theorem kill_line_key (s : state) :
  on_rows s -> edit_range s ->
  let s' := consoleintr_char C_U s in
  exists kept erased,
    pending s = kept ++ erased
    /\ Forall (fun c => c <> 10) erased
    /\ (kept = [] \/ exists k, kept = k ++ [10])
    /\ pending s' = kept
    /\ input_r s' = input_r s /\ input_w s' = input_w s
    /\ input_buf s' = input_buf s
    /\ uart s' = erase_echo (length erased) ++ uart s
    /\ flagC s' = false /\ flagO s' = false.
Proof. apply kill_line_pending. Qed.

Lemma kill_line_key_witness :
  exists kept erased,
    pending (keys [97; 98; 99] blank) = kept ++ erased
    /\ Forall (fun c => c <> 10) erased
    /\ (kept = [] \/ exists k, kept = k ++ [10])
    /\ pending (consoleintr_char C_U (keys [97; 98; 99] blank)) = kept
    /\ input_r (consoleintr_char C_U (keys [97; 98; 99] blank))
       = input_r (keys [97; 98; 99] blank)
    /\ input_w (consoleintr_char C_U (keys [97; 98; 99] blank))
       = input_w (keys [97; 98; 99] blank)
    /\ input_buf (consoleintr_char C_U (keys [97; 98; 99] blank))
       = input_buf (keys [97; 98; 99] blank)
    /\ uart (consoleintr_char C_U (keys [97; 98; 99] blank))
       = erase_echo (length erased) ++ uart (keys [97; 98; 99] blank)
    /\ flagC (consoleintr_char C_U (keys [97; 98; 99] blank)) = false
    /\ flagO (consoleintr_char C_U (keys [97; 98; 99] blank)) = false.
Proof.
  apply (kill_line_key (keys [97; 98; 99] blank)).
  - apply keys_on_rows, blank_on_rows.
  - vm_compute. repeat split; congruence.
Defined.

(** Ordinary characters typed on an empty buffer and then Ctrl-U: nothing
    is pending any more, the indices are where they were, and the serial
    line has the characters and as many erase sequences. *)
Theorem typed_then_kill_line (l : list Z) (s : state) :
  typing s -> input_e s = input_r s ->
  Forall ordinary l -> Z.of_nat (length l) < INPUT_BUF ->
  let s' := keys (l ++ [C_U]) s in
  pending s' = [] /\ window s' = []
  /\ indices s' = indices s
  /\ uart s' = erase_echo (length l) ++ rev l ++ uart s.
Proof.
  intros Hs He Hl Hlen s'.
  destruct (empty_window s Hs He) as [Hw0 Hd0].
  destruct (typed_ordinary l s Hs Hl ltac:(lia))
    as (Ht & Hwin & Hr & Hw & Hd & Hu).
  pose proof Hs as (_ & _ & Hi & _).
  assert (Hwr : input_w s = input_r s).
  { revert Hi. unfold indices_ok, indices, to_uint. rewrite He. zlia. }
  assert (Hpw : pending (keys l s) = window (keys l s)).
  { unfold pending, window. now rewrite Hw, Hr, Hwr. }
  pose proof Ht as (Hrows & _ & Hi1 & _).
  assert (Hrange : edit_range (keys l s)).
  { revert Hi1. unfold indices_ok, indices, edit_range. tauto. }
  destruct (kill_line_pending (keys l s) Hrows Hrange)
    as (kept & erased & H1 & H2 & H3 & H4 & H5 & H6 & H7 & H8 & _).
  unfold s'. rewrite keys_snoc.
  rewrite Hpw, Hwin, Hw0 in H1. cbn [app] in H1.
  assert (Hk : kept = []).
  { destruct H3 as [-> | (k & ->)]; [reflexivity |].
    exfalso.
    assert (Hin : In 10 (to_char <$> l)).
    { rewrite H1. rewrite <- app_assoc. apply in_or_app. right. now left. }
    apply list_elem_of_In, list_elem_of_fmap in Hin as (c & Hc & Hin).
    rewrite Forall_forall in Hl.
    destruct (to_char_ordinary c (Hl c Hin)) as [[Hc10 _] _]. congruence. }
  rewrite Hk in *. clear Hk. cbn [app] in H1.
  assert (Hlen' : length erased = length l).
  { rewrite <- H1. apply length_fmap. }
  set (s1 := consoleintr_char C_U (keys l s)) in *.
  assert (He1 : input_e s1 = input_w s1).
  { assert (Hpl : length (pending s1) = 0%nat) by now rewrite H4.
    assert (Hrows1 : indices_ok (indices s1))
      by now apply consoleintr_char_indices.
    revert Hpl Hrows1. unfold pending. rewrite length_fmap, length_seqZ.
    unfold indices_ok, indices, to_uint. intros Hpl Hrows1. zlia. }
  split; [exact H4 |]. split.
  - unfold window. rewrite He1, H6, H5, Hw, Hr, Hwr.
    now replace (input_r s - input_r s) with 0 by lia.
  - split.
    + unfold indices. rewrite He1, H6, H5, Hw, Hr, Hwr, He. reflexivity.
    + rewrite H8, Hlen', Hu. reflexivity.
Qed.

Lemma typed_then_kill_line_witness :
  uart (keys ([97; 98; 99] ++ [C_U]) blank)
  = erase_echo (length [97; 98; 99]) ++ rev [97; 98; 99] ++ uart blank.
Proof.
  assert (Ho : Forall ordinary [97; 98; 99]).
  { repeat constructor; unfold C_D; try lia; reflexivity. }
  pose proof (typed_then_kill_line [97; 98; 99] blank blank_typing eq_refl Ho
                ltac:(cbn; unfold INPUT_BUF; lia)) as H.
  cbv zeta in H. exact (proj2 (proj2 (proj2 H))).
Defined.

(** Backspace (Ctrl-H or DEL) with the menu closed: with nothing pending
    it only clears the flags; otherwise the last pending byte goes, with
    one erase sequence on the serial line, and nothing committed or read
    is touched. *)
Theorem backspace_key (c : Z) (s : state) :
  c = C_H \/ c = DEL ->
  on_rows s -> menuStatus s = false -> edit_range s ->
  let s' := consoleintr_char c s in
  (input_e s = input_w s -> s' = clearFlags s)
  /\ (input_e s <> input_w s ->
      pending s
      = pending s'
        ++ [cell (input_buf s) (to_uint (input_e s - 1) mod INPUT_BUF)]
      /\ input_e s' = to_uint (input_e s - 1)
      /\ input_r s' = input_r s /\ input_w s' = input_w s
      /\ input_buf s' = input_buf s
      /\ uart s' = [8; 32; 8] ++ uart s
      /\ flagC s' = false /\ flagO s' = false).
Proof.
  intros Hc Hrows Hm Hrange s'.
  assert (E : s' = (let s0 := if negb (input_e s =? input_w s)
                              then consputc BACKSPACE
                                     (set_input_e (to_uint (input_e s - 1)) s)
                              else s in
                    if panicked s0 then s0 else clearFlags s0)).
  { unfold s', consoleintr_char, andthen. destruct Hrows as [Hp _].
    rewrite Hp, Hm. cbn [negb andb].
    destruct Hc as [-> | ->]; reflexivity. }
  cbv zeta in E. split.
  - intros He. rewrite E. apply Z.eqb_eq in He. rewrite He. cbn [negb].
    now destruct Hrows as [-> _].
  - intros Hne. apply Z.eqb_neq in Hne as Hne'. rewrite Hne' in E.
    cbn [negb] in E.
    set (s1 := consputc BACKSPACE (set_input_e (to_uint (input_e s - 1)) s))
      in *.
    assert (Hrows1 : on_rows s1) by now apply consputc_on_rows.
    destruct Hrows1 as [Hp1 _]. rewrite Hp1 in E. rewrite E.
    assert (Hpend : pending (clearFlags s1)
                    = pending (set_input_e (to_uint (input_e s - 1)) s))
      by (unfold s1; apply consputc_pending).
    split; [rewrite Hpend; now apply pending_last |].
    unfold s1, clearFlags.
    cbn [input_e input_r input_w input_buf uart flagC flagO
         set_flagO set_flagC].
    autorewrite with putframe. rewrite consputc_erase by exact Hrows.
    repeat split; reflexivity.
Qed.

Lemma backspace_key_witness :
  input_e (consoleintr_char C_H (keys [97] blank))
  = to_uint (input_e (keys [97] blank) - 1).
Proof.
  pose proof (backspace_key C_H (keys [97] blank) (or_introl eq_refl)
                (keys_on_rows _ _ blank_on_rows) eq_refl) as H.
  assert (Hr : edit_range (keys [97] blank))
    by (vm_compute; repeat split; congruence).
  specialize (H Hr). cbv zeta in H.
  destruct H as [_ H].
  assert (Hne : input_e (keys [97] blank) <> input_w (keys [97] blank))
    by (vm_compute; congruence).
  exact (proj1 (proj2 (H Hne))).
Defined.

(** ** What cgaputc draws *)

(** The blank cgaputc leaves under the cursor. *)
Definition blank_cell (s : state) : Z := to_ushort (Z.lor 32 (currentColor s)).

Lemma park_cells (pos : Z) (s : state) :
  length (crt s) = 2000%nat -> 0 <= pos < 2000 ->
  cursor (park pos s) = pos
  /\ cell (crt (park pos s)) pos = blank_cell s
  /\ (forall i, i <> pos -> cell (crt (park pos s)) i = cell (crt s) i)
  /\ length (crt (park pos s)) = 2000%nat.
Proof.
  intros Hl Hp. unfold park, blank_cell. cbv zeta.
  cbn [cursor crt set_crt set_cursor currentColor].
  split; [apply to_ushort_small; lia |].
  split; [apply cell_store_eq; lia |].
  split; [intros i Hi; apply cell_store_ne; congruence |].
  now rewrite length_store.
Qed.

Lemma put_printable (c : Z) (s : state) :
  c <> 10 -> c <> BACKSPACE ->
  length (crt s) = 2000%nat -> 0 <= cursor s < 1919 ->
  let s' := cgaputc c s in
  cursor s' = cursor s + 1
  /\ cell (crt s') (cursor s)
     = to_ushort (Z.lor (Z.land c 0xff) (currentColor s))
  /\ cell (crt s') (cursor s + 1) = blank_cell s
  /\ (forall i, i <> cursor s -> i <> cursor s + 1 ->
        cell (crt s') i = cell (crt s) i)
  /\ panicked s' = panicked s.
Proof.
  intros H10 Hb Hl Hc s'.
  assert (Ha : advance c (cursor s) = cursor s + 1).
  { unfold advance. destruct (Z.eqb_spec c 10); [contradiction |].
    destruct (Z.eqb_spec c BACKSPACE); [contradiction | reflexivity]. }
  assert (Hd : draw c s
               = set_crt (store (crt s) (cursor s)
                            (to_ushort (Z.lor (Z.land c 0xff) (currentColor s))))
                   s).
  { unfold draw. destruct (Z.eqb_spec c 10); [contradiction |].
    destruct (Z.eqb_spec c BACKSPACE); [contradiction | reflexivity]. }
  assert (E : s' = park (cursor s + 1) (draw c s)).
  { unfold s'. rewrite cgaputc_stays by (rewrite Ha; lia). now rewrite Ha. }
  assert (Hl' : length (crt (draw c s)) = 2000%nat).
  { rewrite Hd. cbn [crt set_crt]. now rewrite length_store. }
  destruct (park_cells (cursor s + 1) (draw c s) Hl' ltac:(lia))
    as (H1 & H2 & H3 & _).
  rewrite E. split; [exact H1 |]. split.
  { rewrite H3 by lia. rewrite Hd. cbn [crt set_crt].
    apply cell_store_eq. lia. }
  split. { rewrite H2. rewrite Hd. reflexivity. }
  split.
  { intros i Hi1 Hi2. rewrite H3 by exact Hi2. rewrite Hd. cbn [crt set_crt].
    apply cell_store_ne. congruence. }
  rewrite Hd. reflexivity.
Qed.

(** A character other than newline and the erase marker, put where no
    scroll follows: the cell under the cursor takes the low byte of the
    character with the pen colour, the cursor moves one cell on, the cell
    it moves to becomes a blank in the pen colour, and no other cell
    changes. *)
Theorem cgaputc_printable (c : Z) (s : state) :
  c <> 10 -> c <> BACKSPACE ->
  length (crt s) = 2000%nat -> 0 <= cursor s < 1919 ->
  let s' := cgaputc c s in
  cursor s' = cursor s + 1
  /\ cell (crt s') (cursor s)
     = to_ushort (Z.lor (Z.land c 0xff) (currentColor s))
  /\ cell (crt s') (cursor s + 1) = blank_cell s
  /\ (forall i, i <> cursor s -> i <> cursor s + 1 ->
        cell (crt s') i = cell (crt s) i)
  /\ panicked s' = panicked s.
Proof. apply put_printable. Qed.

Lemma cgaputc_printable_witness :
  cursor (cgaputc 120 blank) = cursor blank + 1.
Proof.
  exact (proj1 (cgaputc_printable 120 blank ltac:(lia)
                  ltac:(unfold BACKSPACE; lia) eq_refl
                  ltac:(change (0 <= 0 < 1919); lia))).
Defined.

(** A newline put on one of the rows 0..22: the cursor goes to column 0 of
    the next row, that cell becomes a blank in the pen colour, and no
    other cell changes.  On row 23 the grid scrolls and the cursor is at
    the start of row 23. *)
Theorem cgaputc_newline (s : state) :
  length (crt s) = 2000%nat -> 0 <= cursor s < 1920 ->
  let s' := cgaputc 10 s in
  let row := cursor s / 80 in
  (row < 23 ->
     cursor s' = 80 * (row + 1)
     /\ cell (crt s') (80 * (row + 1)) = blank_cell s
     /\ (forall i, i <> 80 * (row + 1) -> cell (crt s') i = cell (crt s) i))
  /\ (row = 23 -> cursor s' = 80 * 23)
  /\ cursor s' mod 80 = 0.
Proof.
  intros Hl Hc s' row.
  assert (Ha : advance 10 (cursor s) = 80 * (row + 1)).
  { unfold advance, row. cbn [Z.eqb Pos.eqb].
    rewrite Z.rem_mod_nonneg by lia. zlia. }
  assert (Hrow : 0 <= row <= 23) by (unfold row; zlia).
  assert (Hcur : cursor s' = if row <? 23 then 80 * (row + 1) else 80 * 23).
  { unfold s'. rewrite cgaputc_cursor by (rewrite Ha; lia). rewrite Ha.
    destruct (Z.ltb_spec row 23);
      destruct (Z.leb_spec 24 (Z.quot (80 * (row + 1)) 80)); zlia. }
  split; [| split].
  - intros Hr. destruct (Z.ltb_spec row 23); [| lia].
    assert (E : s' = park (80 * (row + 1)) s).
    { unfold s'. rewrite cgaputc_stays by (rewrite Ha; lia).
      now rewrite Ha. }
    destruct (park_cells (80 * (row + 1)) s Hl ltac:(lia))
      as (H1 & H2 & H3 & _).
    rewrite E. auto.
  - intros Hr. rewrite Hcur. destruct (Z.ltb_spec row 23); lia.
  - rewrite Hcur. destruct (Z.ltb_spec row 23); zlia.
Qed.

Lemma cgaputc_newline_witness : cursor (cgaputc 10 blank) mod 80 = 0.
Proof.
  pose proof (cgaputc_newline blank eq_refl
                ltac:(change (0 <= 0 < 1920); lia)) as H.
  cbv zeta in H. exact (proj2 (proj2 H)).
Defined.

(** The erase marker: at position 0 the cursor stays; elsewhere it moves
    one cell back.  The cell it ends on becomes a blank in the pen colour,
    no other cell changes.  So a character put and erased leaves two
    blanks: where it was drawn, and one cell further. *)
Theorem cgaputc_erase (s : state) :
  length (crt s) = 2000%nat -> 0 <= cursor s < 1920 ->
  let s' := cgaputc BACKSPACE s in
  let back := if 0 <? cursor s then cursor s - 1 else cursor s in
  cursor s' = back
  /\ cell (crt s') back = blank_cell s
  /\ (forall i, i <> back -> cell (crt s') i = cell (crt s) i)
  /\ (forall c, c <> 10 -> c <> BACKSPACE -> cursor s < 1919 ->
      cursor (cgaputc BACKSPACE (cgaputc c s)) = cursor s
      /\ cell (crt (cgaputc BACKSPACE (cgaputc c s))) (cursor s) = blank_cell s
      /\ cell (crt (cgaputc BACKSPACE (cgaputc c s))) (cursor s + 1)
         = blank_cell s).
Proof.
  intros Hl Hc s' back.
  assert (Hstep : forall s0, length (crt s0) = 2000%nat ->
            0 <= cursor s0 < 1920 ->
            let b := if 0 <? cursor s0 then cursor s0 - 1 else cursor s0 in
            cgaputc BACKSPACE s0 = park b s0).
  { intros s0 Hl0 Hc0 b.
    assert (Ha : advance BACKSPACE (cursor s0) = b) by reflexivity.
    rewrite cgaputc_stays by (rewrite Ha; unfold b;
                              destruct (Z.ltb_spec 0 (cursor s0)); lia).
    now rewrite Ha. }
  assert (Hb : 0 <= back < 2000)
    by (unfold back; destruct (Z.ltb_spec 0 (cursor s)); lia).
  destruct (park_cells back s Hl Hb) as (H1 & H2 & H3 & _).
  unfold s'. rewrite (Hstep s Hl Hc). fold back.
  split; [exact H1 |]. split; [exact H2 |]. split; [exact H3 |].
  intros c H10 Hbs Hroom.
  destruct (put_printable c s H10 Hbs Hl ltac:(lia))
    as (P1 & P2 & P3 & P4 & _).
  set (s1 := cgaputc c s) in *.
  assert (Hl1 : length (crt s1) = 2000%nat).
  { unfold s1. rewrite cgaputc_stays.
    - unfold park, draw. cbv zeta. cbn [crt set_crt set_cursor].
      rewrite length_store. split_ifs; cbn [crt set_crt];
        rewrite ?length_store; exact Hl.
    - unfold advance. destruct (Z.eqb_spec c 10); [contradiction |].
      destruct (Z.eqb_spec c BACKSPACE); [contradiction | lia]. }
  rewrite (Hstep s1 Hl1 ltac:(lia)). rewrite P1.
  destruct (Z.ltb_spec 0 (cursor s + 1)); [| lia].
  replace (cursor s + 1 - 1) with (cursor s) by lia.
  destruct (park_cells (cursor s) s1 Hl1 ltac:(lia)) as (Q1 & Q2 & Q3 & _).
  assert (Hpen : blank_cell s1 = blank_cell s).
  { unfold blank_cell, s1. now rewrite cgaputc_currentColor. }
  split; [exact Q1 |]. split; [now rewrite Q2 |].
  rewrite Q3 by lia. exact P3.
Qed.

Lemma cgaputc_erase_witness :
  cursor (cgaputc BACKSPACE blank) = 0.
Proof.
  pose proof (cgaputc_erase blank eq_refl
                ltac:(change (0 <= 0 < 1920); lia)) as H.
  cbv zeta in H. exact (proj1 H).
Defined.

(** ** consolewrite *)

Lemma consputc_uart (c : Z) (s : state) :
  panicked s = false -> c <> BACKSPACE -> uart (consputc c s) = c :: uart s.
Proof.
  intros Hp Hc. unfold consputc. rewrite Hp, cgaputc_uart.
  destruct (Z.eqb_spec c BACKSPACE); [contradiction | reflexivity].
Qed.

(** Everything but the grid, the cursor, the serial line and [panicked]. *)
Definition beside_screen (s : state) :=
  (currentColor s, input_buf s, indices s, backgroundBackup s,
   flagC s, flagO s, menuStatus s, currentSelection s, doprocdump s).

Lemma consputc_beside_screen (c : Z) (s : state) :
  beside_screen (consputc c s) = beside_screen s.
Proof.
  unfold beside_screen, indices. now autorewrite with putframe.
Qed.

(** consolewrite, from a console that runs with its cursor on the rows
    0..23: it returns the number of bytes given; the serial line gets the
    low byte of each, in order (no byte is taken for the erase marker); the
    console still runs with its cursor on those rows; and the input
    buffer, the flags, the menu and the pen colour are as before. *)
Theorem consolewrite_output (buf : list Z) (s : state) :
  on_rows s ->
  snd (consolewrite buf s) = Z.of_nat (length buf)
  /\ uart (fst (consolewrite buf s))
     = rev ((fun b => Z.land b 0xff) <$> buf) ++ uart s
  /\ on_rows (fst (consolewrite buf s))
  /\ beside_screen (fst (consolewrite buf s)) = beside_screen s.
Proof.
  intros H. split; [reflexivity |]. unfold consolewrite. cbn [fst].
  revert s H. induction buf as [| b buf IH]; intros s H.
  - cbn. auto.
  - cbn [fold_left fmap list_fmap rev]. destruct H as [Hp Hc]. rewrite Hp.
    assert (Hb : Z.land b 0xff <> BACKSPACE).
    { change 0xff with (Z.ones 8). rewrite Z.land_ones by lia.
      unfold BACKSPACE. zlia. }
    destruct (IH (consputc (Z.land b 0xff) s)
                (consputc_on_rows _ s (conj Hp Hc))) as (H1 & H2 & H3).
    split; [| split; [exact H2 |]].
    + rewrite H1, consputc_uart by assumption.
      now rewrite <- app_assoc.
    + rewrite H3. apply consputc_beside_screen.
Qed.

Lemma consolewrite_output_witness :
  uart (fst (consolewrite [104; 105] blank))
  = rev ((fun b => Z.land b 0xff) <$> [104; 105]) ++ uart blank.
Proof.
  exact (proj1 (proj2 (consolewrite_output [104; 105] blank blank_on_rows))).
Defined.

(** ** consoleread on any buffer *)

Definition result_bytes (r : read_result) : list Z :=
  match r with
  | ReadDone _ dst _ | ReadSleep _ dst _ | ReadKilled _ dst => dst
  end.

Ltac splits := repeat match goal with |- _ /\ _ => split end.

Lemma consoleread_loop_prefix killed target (n : nat) :
  forall dst s, in_range s ->
    let r := consoleread_loop killed target n dst s in
    exists k j : nat,
      (k <= n)%nat /\ (j <= length (committed s))%nat
      /\ (j = k \/ j = S k)
      /\ result_bytes r = dst ++ (to_char <$> take k (committed s))
      /\ result_state r = consumed (Z.of_nat j) s
      /\ (forall s' d ret, r = ReadDone s' d ret ->
            ret = target - Z.of_nat (n - k)).
Proof.
  induction n as [| n IH]; intros dst s Hs r; subst r.
  - exists 0%nat, 0%nat. cbn [consoleread_loop result_bytes result_state take].
    rewrite consumed_0 by exact Hs. cbn [fmap list_fmap].
    rewrite app_nil_r. splits; auto; try lia;
      try (intros s' d ret E'; injection E' as _ _ <-; cbn; lia).
  - cbn [consoleread_loop].
    destruct (input_r s =? input_w s) eqn:E.
    { exists 0%nat, 0%nat. rewrite consumed_0 by exact Hs.
      destruct killed; cbn [result_bytes result_state take fmap list_fmap];
        rewrite app_nil_r; splits; auto; try lia; discriminate. }
    rewrite (committed_next s Hs E). cbv zeta. fold (consumed 1 s).
    set (c := cell (input_buf s) (input_r s mod INPUT_BUF)).
    destruct (c =? C_D) eqn:ED.
    { destruct (Z.of_nat (S n) <? target).
      - exists 0%nat, 0%nat. fold (consumed 1 s).
        rewrite unconsumed by exact Hs. rewrite consumed_0 by exact Hs.
        cbn [result_bytes result_state take fmap list_fmap length].
        rewrite app_nil_r. splits; auto; try lia;
          try (intros s' d ret E'; injection E' as _ _ <-; f_equal; lia).
      - exists 0%nat, 1%nat.
        cbn [result_bytes result_state take fmap list_fmap length].
        rewrite app_nil_r. splits; auto; try lia;
          try (intros s' d ret E'; injection E' as _ _ <-; f_equal; lia). }
    destruct (c =? 10) eqn:E10.
    { exists 1%nat, 1%nat.
      cbn [result_bytes result_state take fmap list_fmap length].
      splits; auto; try lia;
        try (intros s' d ret E'; injection E' as _ _ <-; f_equal; lia). }
    destruct (IH (dst ++ [to_char c]) (consumed 1 s)
                (consumed_in_range 1 s Hs))
      as (k & j & Hk & Hj & Hjk & Hb & Hst & Hret).
    exists (S k), (S j).
    cbn [take fmap list_fmap length].
    split; [lia |]. split; [lia |]. split; [lia |].
    split; [rewrite Hb; now rewrite <- app_assoc |].
    split.
    + rewrite Hst, consumed_consumed. f_equal. lia.
    + intros s' d ret E'. rewrite (Hret s' d ret E'). f_equal.
Qed.



(** ** A commit key typed while the menu is open *)

Lemma menustr_bytes (i : Z) :
  0 <= i < 230 -> Z.land (cell menustr i) 0xff = cell menustr i.
Proof.
  intros Hi.
  assert (Hc : exists k : nat, (k < 230)%nat /\ i = Z.of_nat k)
    by (exists (Z.to_nat i); lia).
  destruct Hc as (k & Hk & ->). clear Hi.
  do 230 (destruct k as [| k]; [reflexivity |]). lia.
Qed.

Lemma showMenu_drawn (s : state) (i : Z) :
  length (crt s) = 2000%nat -> 0 <= i < 230 ->
  cell (crt (showMenu s)) (overlay_pos i)
  = to_ushort (Z.lor (Z.land (cell menustr i) 0xff) 0x0f00).
Proof.
  intros Hl Hi. rewrite showMenu_crt. change 230 with (Z.of_nat 230).
  rewrite (scatter_in (fun i => to_ushort
             (Z.lor (Z.land (cell menustr i) 0xff) 0x0f00)));
    [reflexivity | exact Hl | lia | lia].
Qed.

Lemma showMenu_outside (s : state) (j : Z) :
  in_overlay j = false -> cell (crt (showMenu s)) j = cell (crt s) j.
Proof.
  intros Hj. rewrite showMenu_crt. change 230 with (Z.of_nat 230).
  apply scatter_out. intros i Hi. now apply not_in_overlay.
Qed.

Lemma highlight_in_overlay (cur i : Z) :
  0 <= cur < 16 ->
  computeLowerBound cur <= i < computeLowerBound cur + 10 ->
  in_overlay i = true.
Proof.
  intros Hc Hi. rewrite computeLowerBound_pos in Hi by exact Hc.
  unfold in_overlay.
  rewrite !andb_true_iff, !Z.leb_le, Z.ltb_lt. zlia.
Qed.

(** The menu as the default case leaves it on the grid: the frame on the
    cells of the overlay, the label of the selection highlighted. *)
Lemma menu_drawn (cur : Z) (s : state) :
  0 <= cur < 16 -> length (crt s) = 2000%nat ->
  let g := crt (displaySelection cur (showMenu s)) in
  (forall j, in_overlay j = false -> cell g j = cell (crt s) j)
  /\ (forall i, 0 <= i < 230 ->
        Z.land (cell g (overlay_pos i)) 0xff = cell menustr i
        /\ Z.land (cell g (overlay_pos i)) 0xff00
           = if (computeLowerBound cur <=? overlay_pos i)
                && (overlay_pos i <? computeLowerBound cur + 10)
             then 0xf000 else 0x0f00).
Proof.
  intros Hc Hl g.
  assert (Hl' : length (crt (showMenu s)) = 2000%nat)
    by now rewrite showMenu_length.
  destruct (highlight_cells cur (showMenu s) Hc Hl')
    as (_ & Hin & Hout & _).
  split.
  - intros j Hj. unfold g. rewrite Hout.
    + now apply showMenu_outside.
    + destruct (Z_lt_ge_dec j (computeLowerBound cur)) as [| H1]; [now left |].
      destruct (Z_lt_ge_dec j (computeLowerBound cur + 10)) as [H2 |];
        [| right; lia].
      rewrite (highlight_in_overlay cur j) in Hj by (auto; lia).
      discriminate.
  - intros i Hi. unfold g.
    pose proof (showMenu_drawn s i Hl Hi) as Hd.
    destruct (painted_cell (cell menustr i) 0x0f00 eq_refl eq_refl)
      as [P1 P2].
    rewrite <- Hd in P1, P2. rewrite menustr_bytes in P1 by exact Hi.
    destruct (Z.leb_spec (computeLowerBound cur) (overlay_pos i));
      destruct (Z.ltb_spec (overlay_pos i) (computeLowerBound cur + 10));
      cbn [andb].
    + destruct (Hin (overlay_pos i) ltac:(lia)) as [-> ->]. auto.
    + rewrite Hout by (right; lia). auto.
    + rewrite Hout by (left; lia). auto.
    + rewrite Hout by (left; lia). auto.
Qed.

Lemma consoleintr_char_menu (c : Z) (s : state) :
  menuStatus s = true -> panicked s = false -> is_default c = true ->
  consoleintr_char c s = menu_forward c s.
Proof.
  intros Hm Hp Hd. unfold is_default in Hd. apply negb_true_iff in Hd.
  repeat (apply orb_false_elim in Hd as [Hd ?]).
  unfold consoleintr_char. rewrite Hp, Hd, Hm.
  repeat match goal with H : (c =? _) = false |- _ => rewrite H end.
  reflexivity.
Qed.

(** The grid and the pen colour after the menu handler took a commit
    key. *)
Lemma handleInput_commit (c : Z) (s : state) :
  c = 101 \/ c = 114 ->
  length (crt s) = 2000%nat -> pen_ok s -> 0 <= currentSelection s < 16 ->
  let h := handleInput c s in
  currentColor h
  = currentColor (if c =? 101 then getColor s else getBrightColor s)
  /\ (forall i, 0 <= i < 2000 ->
        Z.land (cell (crt h) i) 0xff = Z.land (cell (crt s) i) 0xff
        /\ Z.land (cell (crt h) i) 0xff00 = currentColor h)
  /\ length (crt h) = 2000%nat
  /\ currentSelection h = currentSelection s.
Proof.
  intros Hc Hl Hp Hsel h.
  set (s1 := if c =? 101 then getColor s else getBrightColor s).
  assert (Hh : h = repaint s1).
  { subst h s1. unfold handleInput. cbv zeta.
    destruct Hc as [-> | ->]; reflexivity. }
  assert (H1 : s1 = getColor s \/ s1 = getBrightColor s).
  { subst s1. destruct (c =? 101); auto. }
  destruct (commit_pen s s1 Hsel Hp H1) as [Hp1 H16].
  assert (Hcrt : crt s1 = crt s /\ currentSelection s1 = currentSelection s).
  { destruct H1 as [-> | ->]; unfold getColor, getBrightColor;
      cbv zeta; split_ifs; split; reflexivity. }
  destruct Hcrt as [Hcrt Hs1].
  rewrite Hh. split; [reflexivity |]. split; [| split].
  - intros i Hi. rewrite repaint_cell by (rewrite ?Hcrt; lia).
    rewrite Hcrt. now apply painted_cell.
  - unfold repaint. cbn [crt set_crt]. rewrite length_for_cells. congruence.
  - exact Hs1.
Qed.

(** ** C10: a commit key on the open menu *)

(** A commit key is a character of the default case. *)
Lemma commit_key_default (c : Z) :
  to_char c = 101 \/ to_char c = 114 -> is_default c = true.
Proof.
  intros Hc. unfold is_default.
  repeat match goal with
         | |- context [c =? ?k] =>
             destruct (Z.eqb_spec c k) as [-> |];
             [vm_compute in Hc; destruct Hc; discriminate |]
         end.
  reflexivity.
Qed.




(** A commit key ('e' or 'r') typed while the menu is open: the pen
    colour is the committed one; every cell outside the overlay keeps its
    character and takes the new pen colour as attribute; the cells of the
    overlay show the frame of the menu again, white on black, with the
    label of the selection highlighted; the selection stays. *)
Theorem menu_commit_key (c : Z) (s : state) :
  c = 101 \/ c = 114 ->
  menuStatus s = true -> panicked s = false ->
  length (crt s) = 2000%nat -> pen_ok s -> 0 <= currentSelection s < 16 ->
  let s' := consoleintr_char c s in
  currentColor s'
  = currentColor (if c =? 101 then getColor s else getBrightColor s)
  /\ currentSelection s' = currentSelection s
  /\ (forall j, 0 <= j < 2000 -> in_overlay j = false ->
        Z.land (cell (crt s') j) 0xff = Z.land (cell (crt s) j) 0xff
        /\ Z.land (cell (crt s') j) 0xff00 = currentColor s')
  /\ (forall i, 0 <= i < 230 ->
        Z.land (cell (crt s') (overlay_pos i)) 0xff = cell menustr i
        /\ Z.land (cell (crt s') (overlay_pos i)) 0xff00
           = if (computeLowerBound (currentSelection s) <=? overlay_pos i)
                && (overlay_pos i <? computeLowerBound (currentSelection s) + 10)
             then 0xf000 else 0x0f00).
Proof.
  intros Hc Hm Hp Hl Hpen Hsel s'.
  assert (Hdef : is_default c = true)
    by (destruct Hc as [-> | ->]; reflexivity).
  pose proof (consoleintr_char_menu c s Hm Hp Hdef) as E.
  destruct (handleInput_commit c s Hc Hl Hpen Hsel) as (G1 & G2 & G3 & Hsel').
  set (h := handleInput c s) in *.
  assert (Es : crt s' = crt (displaySelection (currentSelection s) (showMenu h))
               /\ currentColor s' = currentColor h
               /\ currentSelection s' = currentSelection s).
  { unfold s'. rewrite E. unfold menu_forward. cbv zeta. fold h.
    cbn [currentSelection showMenu set_crt]. rewrite Hsel'.
    destruct (negb (c =? 0)); auto. }
  destruct Es as (Ecrt & Ecol & Esel).
  destruct (menu_drawn (currentSelection s) h Hsel G3) as [D1 D2].
  cbv zeta in D1, D2. rewrite <- Ecrt in D1, D2.
  split; [now rewrite Ecol |]. split; [exact Esel |]. split.
  - intros j Hj Ho. rewrite (D1 j Ho), Ecol. now apply G2.
  - exact D2.
Qed.

Lemma menu_commit_key_witness :
  currentSelection (consoleintr_char 101 menu_open)
  = currentSelection menu_open.
Proof.
  assert (H1 : 0 <= currentSelection menu_open < 16)
    by (vm_compute; split; [discriminate | reflexivity]).
  pose proof (menu_commit_key 101 menu_open (or_introl eq_refl) eq_refl
                eq_refl eq_refl eq_refl H1) as H.
  cbv zeta in H. exact (proj1 (proj2 H)).
Defined.

(** * The formatted printer: printint and cprintf *)

(** [for each c of cs: consputc(c)]. *)
Definition consputs (cs : list Z) (s : state) : state :=
  fold_left (fun s c => consputc c s) cs s.

Definition to_int (x : Z) : Z := (x + 2 ^ 31) mod 2 ^ 32 - 2 ^ 31.

Definition digits : list Z := Eval vm_compute in chars_of "0123456789abcdef".

(** The do-while loop of printint: the characters stored in [buf], the
    lowest digit first.  A [uint] has no more than 32 digits in any base
    from 2 on, which bounds the loop. *)
Fixpoint printint_digits (rounds : nat) (x base : Z) : list Z :=
  match rounds with
  | O => []
  | S rounds =>
      cell digits (x mod base)
      :: (if x / base =? 0 then [] else printint_digits rounds (x / base) base)
  end.

(** [printint(xx, base, sign)]; [buf] has room for 16 characters, which
    the bases 10 and 16 of this file never exceed
    ([printint_decimal], [printint_hex]). *)
Definition printint (xx base sign : Z) (s : state) : state :=
  let neg := negb (sign =? 0) && (xx <? 0) in
  let x := to_uint (if neg then - xx else xx) in
  let buf := printint_digits 32 x (to_uint base)
             ++ (if neg then [45] else []) in
  consputs (rev buf) s.

Section Cprintf.

(** The words on the stack behind [fmt], and the C string at an
    address, up to its terminator. *)
Variable args : nat -> Z.
Variable string_at : Z -> list Z.

Definition null_text : list Z := Eval vm_compute in chars_of "(null)".

(** The loop of cprintf over the rest of the format, with the number of
    arguments taken so far. *)
Fixpoint cprintf_loop (fmt : list Z) (k : nat) (s : state) : state :=
  match fmt with
  | [] => s
  | b :: rest =>
      let c := Z.land b 0xff in
      if c =? 0 then s
      else if negb (c =? 37) then cprintf_loop rest k (consputc c s)
      else
        match rest with
        | [] => s
        | b2 :: rest2 =>
            let c := Z.land b2 0xff in
            if c =? 0 then s
            else if c =? 100 (* 'd' *) then
              cprintf_loop rest2 (S k) (printint (to_int (args k)) 10 1 s)
            else if (c =? 120) || (c =? 112) (* 'x', 'p' *) then
              cprintf_loop rest2 (S k) (printint (to_int (args k)) 16 0 s)
            else if c =? 115 (* 's' *) then
              let str := if args k =? 0 then null_text
                         else string_at (args k) in
              cprintf_loop rest2 (S k) (consputs (to_char <$> str) s)
            else if c =? 37 then cprintf_loop rest2 k (consputc 37 s)
            else cprintf_loop rest2 k (consputc c (consputc 37 s))
        end
  end.

(** [cprintf(fmt, ...)]; [None] is the null pointer. *)
Definition cprintf (fmt : option (list Z)) (s : state) : state :=
  match fmt with
  | None => panic s
  | Some fmt => cprintf_loop fmt 0 s
  end.

End Cprintf.

(** ** What goes to the serial line *)

Lemma consputs_output (cs : list Z) (s : state) :
  on_rows s -> Forall (fun c => c <> BACKSPACE) cs ->
  uart (consputs cs s) = rev cs ++ uart s
  /\ on_rows (consputs cs s)
  /\ beside_screen (consputs cs s) = beside_screen s.
Proof.
  unfold consputs. revert s. induction cs as [| c cs IH]; intros s H Hc.
  - cbn. auto.
  - apply Forall_cons in Hc as [Hc Hcs]. cbn [fold_left rev].
    destruct (IH (consputc c s) (consputc_on_rows c s H) Hcs)
      as (H1 & H2 & H3).
    split; [| split; [exact H2 |]].
    + rewrite H1, consputc_uart by (auto; apply H).
      now rewrite <- app_assoc.
    + rewrite H3. apply consputc_beside_screen.
Qed.

Lemma consputs_app (cs cs' : list Z) (s : state) :
  consputs (cs ++ cs') s = consputs cs' (consputs cs s).
Proof. unfold consputs. apply fold_left_app. Qed.

(** ** The digits of printint *)

(** The value of a digit character, and of digits with the lowest first. *)
Definition digit_value (c : Z) : Z := if c <=? 57 then c - 48 else c - 87.

Fixpoint digits_value (base : Z) (ds : list Z) : Z :=
  match ds with
  | [] => 0
  | d :: ds => digit_value d + base * digits_value base ds
  end.

Lemma digit_cell (d : Z) :
  0 <= d < 16 ->
  digit_value (cell digits d) = d
  /\ (d < 10 -> cell digits d = 48 + d)
  /\ (10 <= d -> cell digits d = 87 + d).
Proof.
  intros H.
  assert (Hd : d = 0 \/ d = 1 \/ d = 2 \/ d = 3 \/ d = 4 \/ d = 5 \/ d = 6
               \/ d = 7 \/ d = 8 \/ d = 9 \/ d = 10 \/ d = 11 \/ d = 12
               \/ d = 13 \/ d = 14 \/ d = 15) by lia.
  repeat (destruct Hd as [Hd | Hd]); subst d;
    (split; [reflexivity | split; intros; first [reflexivity | lia]]).
Qed.

(** The digits printint stores: they spell [x] in the base, the highest
    digit is not a zero unless [x] is zero, and a value below [base ^ m]
    takes at most [m] of them. *)
Lemma printint_digits_spec (base : Z) (rounds : nat) :
  2 <= base <= 16 ->
  forall x, 0 <= x < base ^ Z.of_nat rounds -> (0 < rounds)%nat ->
    let ds := printint_digits rounds x base in
    digits_value base ds = x
    /\ Forall (fun c => 0 <= digit_value c < base
                        /\ cell digits (digit_value c) = c) ds
    /\ ds <> []
    /\ (0 < x -> exists d, last ds = Some d /\ 0 < digit_value d)
    /\ (forall m : nat, (0 < m)%nat -> x < base ^ Z.of_nat m ->
          (length ds <= m)%nat).
Proof.
  intros Hb. induction rounds as [| k IH]; intros x Hx Hk; [lia |].
  cbn [printint_digits].
  assert (Hm : 0 <= x mod base < base) by (apply Z.mod_pos_bound; lia).
  destruct (digit_cell (x mod base) ltac:(lia)) as (Hv & _).
  assert (Hdm : x = base * (x / base) + x mod base)
    by (apply Z.div_mod; lia).
  assert (Hq : 0 <= x / base) by (apply Z.div_pos; lia).
  destruct (Z.eqb_spec (x / base) 0) as [E | E].
  - cbn [digits_value last length]. rewrite Hv.
    split; [lia |]. split; [repeat constructor; try lia; now rewrite Hv |].
    split; [discriminate |]. split.
    + intros Hpos. eexists. split; [reflexivity |]. rewrite Hv. lia.
    + intros m Hm' _. lia.
  - assert (Hk' : (0 < k)%nat).
    { destruct k; [| lia]. cbn in Hx. nia. }
    assert (Hx' : 0 <= x / base < base ^ Z.of_nat k).
    { split; [lia |]. apply Z.div_lt_upper_bound; [lia |].
      rewrite Nat2Z.inj_succ, Z.pow_succ_r in Hx by lia. lia. }
    destruct (IH (x / base) Hx' Hk') as (I1 & I2 & I3 & I4 & I5).
    cbv zeta in I1, I2, I3, I4, I5.
    set (ds := printint_digits k (x / base) base) in *.
    cbn [digits_value length]. rewrite Hv, I1.
    split; [lia |].
    split; [constructor; [split; [lia | now rewrite Hv] | exact I2] |].
    split; [discriminate |]. split.
    + intros _. destruct (I4 ltac:(lia)) as (d & Hd1 & Hd2).
      exists d. split; [| exact Hd2].
      destruct ds as [| d0 ds0]; [contradiction | exact Hd1].
    + intros m Hm' Hxm. destruct m as [| m]; [lia |].
      destruct m as [| m].
      * exfalso. cbn in Hxm. assert (x / base = 0); [| contradiction].
        apply Z.div_small. lia.
      * assert ((length ds <= S m)%nat); [| lia].
        apply I5; [lia |]. apply Z.div_lt_upper_bound; [lia |].
        rewrite (Nat2Z.inj_succ (S m)), Z.pow_succ_r in Hxm by lia. lia.
Qed.

Lemma digit_chars_sent (base : Z) (ds : list Z) :
  2 <= base <= 16 ->
  Forall (fun c => 0 <= digit_value c < base
                   /\ cell digits (digit_value c) = c) ds ->
  Forall (fun c => c <> BACKSPACE) ds
  /\ Forall (fun c => 48 <= c <= 57 \/ 97 <= c <= 102) ds.
Proof.
  intros Hb H. split; eapply Forall_impl; try exact H; intros c [Hc Hd];
    destruct (digit_cell (digit_value c) ltac:(lia)) as (_ & H1 & H2);
    destruct (Z_lt_ge_dec (digit_value c) 10) as [Hl | Hl];
    first [rewrite H1 in Hd by exact Hl | rewrite H2 in Hd by lia];
    unfold BACKSPACE; lia.
Qed.

(** The decimal form on the serial line, for use below. *)
Lemma printint_number_sent (w : Z) (s : state) :
  on_rows s -> 0 <= w < 2 ^ 32 ->
  exists ds,
    uart (printint (to_int w) 10 1 s)
    = ds ++ (if to_int w <? 0 then [45] else []) ++ uart s
    /\ digits_value 10 ds = Z.abs (to_int w)
    /\ Forall (fun c => 48 <= c <= 57) ds
    /\ on_rows (printint (to_int w) 10 1 s).
Proof.
  intros Hrows Hw. set (xx := to_int w).
  assert (Hxx : - 2 ^ 31 <= xx < 2 ^ 31) by (unfold xx, to_int; zlia).
  set (x := to_uint (if xx <? 0 then - xx else xx)).
  assert (Hx : x = Z.abs xx).
  { unfold x, to_uint. destruct (Z.ltb_spec xx 0); zlia. }
  assert (Hrange : 0 <= x < 10 ^ Z.of_nat 32).
  { rewrite Hx. change (10 ^ Z.of_nat 32) with 100000000000000000000000000000000.
    lia. }
  destruct (printint_digits_spec 10 32 ltac:(lia) x Hrange ltac:(lia))
    as (D1 & D2 & _).
  cbv zeta in D1, D2.
  set (ds := printint_digits 32 x 10) in *.
  destruct (digit_chars_sent 10 ds ltac:(lia) D2) as [Hnb Hchars].
  assert (Es : printint xx 10 1 s
               = consputs (rev (ds ++ (if xx <? 0 then [45] else []))) s).
  { unfold printint. cbv zeta. cbn [Z.eqb negb andb]. reflexivity. }
  assert (Hsent : Forall (fun c => c <> BACKSPACE)
                    (rev (ds ++ (if xx <? 0 then [45] else [])))).
  { apply Forall_rev, Forall_app. split; [exact Hnb |].
    destruct (xx <? 0); repeat constructor. unfold BACKSPACE. lia. }
  destruct (consputs_output _ s Hrows Hsent) as (U1 & U2 & _).
  rewrite rev_involutive, <- app_assoc in U1. rewrite <- Es in U1, U2.
  exists ds. split; [exact U1 |]. split; [congruence |].
  split; [| exact U2].
  eapply Forall_impl; [exact D2 |]. intros c [Hc Hd].
  destruct (digit_cell (digit_value c) ltac:(lia)) as (_ & H1 & _).
  rewrite H1 in Hd by lia. lia.
Qed.

(** printint in base 10 with a sign, as ["%d"] calls it, for every 32-bit
    word taken as an [int]: the serial line gets a minus sign if the
    number is negative and then its decimal digits, highest first with no
    leading zero (the log holds them latest first, so lowest digit first);
    at most 11 characters, inside the 16 of [buf]; the console keeps
    running, and nothing beside the screen and the serial line changes. *)
Theorem printint_decimal (w : Z) (s : state) :
  on_rows s -> 0 <= w < 2 ^ 32 ->
  let xx := to_int w in
  let s' := printint xx 10 1 s in
  exists ds,
    uart s' = ds ++ (if xx <? 0 then [45] else []) ++ uart s
    /\ digits_value 10 ds = Z.abs xx
    /\ Forall (fun c => 48 <= c <= 57) ds
    /\ (xx <> 0 -> exists d, last ds = Some d /\ d <> 48)
    /\ (xx = 0 -> ds = [48])
    /\ (length ds <= 10)%nat
    /\ on_rows s'
    /\ beside_screen s' = beside_screen s.
Proof.
  intros Hrows Hw xx s'.
  assert (Hxx : - 2 ^ 31 <= xx < 2 ^ 31) by (unfold xx, to_int; zlia).
  set (x := to_uint (if xx <? 0 then - xx else xx)).
  assert (Hx : x = Z.abs xx).
  { unfold x, to_uint. destruct (Z.ltb_spec xx 0); zlia. }
  assert (Hrange : 0 <= x < 10 ^ Z.of_nat 32).
  { rewrite Hx. change (10 ^ Z.of_nat 32) with 100000000000000000000000000000000.
    lia. }
  destruct (printint_digits_spec 10 32 ltac:(lia) x Hrange ltac:(lia))
    as (D1 & D2 & D3 & D4 & D5).
  cbv zeta in D1, D2, D3, D4, D5.
  set (ds := printint_digits 32 x 10) in *.
  destruct (digit_chars_sent 10 ds ltac:(lia) D2) as [Hnb Hchars].
  assert (Es : s' = consputs (rev (ds ++ (if xx <? 0 then [45] else []))) s).
  { unfold s', printint. cbv zeta. cbn [Z.eqb negb andb].
    reflexivity. }
  assert (Hsent : Forall (fun c => c <> BACKSPACE)
                    (rev (ds ++ (if xx <? 0 then [45] else [])))).
  { apply Forall_rev, Forall_app. split; [exact Hnb |].
    destruct (xx <? 0); repeat constructor. unfold BACKSPACE. lia. }
  destruct (consputs_output _ s Hrows Hsent) as (U1 & U2 & U3).
  rewrite rev_involutive, <- app_assoc in U1. rewrite <- Es in U1, U2, U3.
  exists ds. split; [exact U1 |]. split; [congruence |].
  split.
  { eapply Forall_impl; [exact D2 |]. intros c [Hc Hd].
    destruct (digit_cell (digit_value c) ltac:(lia)) as (_ & H1 & _).
    rewrite H1 in Hd by lia. lia. }
  split.
  { intros Hne. destruct (D4 ltac:(lia)) as (d & Hd1 & Hd2).
    exists d. split; [exact Hd1 |]. intros ->. cbn in Hd2. lia. }
  split.
  { intros E0. unfold ds. replace x with 0 by lia. reflexivity. }
  split; [apply D5; [lia | rewrite Hx;
     change (10 ^ Z.of_nat 10) with 10000000000; lia] |].
  split; assumption.
Qed.

Lemma printint_decimal_witness :
  exists ds,
    uart (printint (to_int 42) 10 1 blank)
    = ds ++ (if to_int 42 <? 0 then [45] else []) ++ uart blank
    /\ digits_value 10 ds = Z.abs (to_int 42)
    /\ Forall (fun c => 48 <= c <= 57) ds
    /\ (to_int 42 <> 0 -> exists d, last ds = Some d /\ d <> 48)
    /\ (to_int 42 = 0 -> ds = [48])
    /\ (length ds <= 10)%nat
    /\ on_rows (printint (to_int 42) 10 1 blank)
    /\ beside_screen (printint (to_int 42) 10 1 blank) = beside_screen blank.
Proof.
  exact (printint_decimal 42 blank blank_on_rows ltac:(lia)).
Defined.

(** printint in base 16 without a sign, as ["%x"] and ["%p"] call it: the
    serial line gets the hexadecimal digits of the word, highest first
    with no leading zero, in lower case; at most 8 characters. *)
Theorem printint_hex (w : Z) (s : state) :
  on_rows s -> 0 <= w < 2 ^ 32 ->
  let s' := printint (to_int w) 16 0 s in
  exists ds,
    uart s' = ds ++ uart s
    /\ digits_value 16 ds = w
    /\ Forall (fun c => 48 <= c <= 57 \/ 97 <= c <= 102) ds
    /\ (w <> 0 -> exists d, last ds = Some d /\ d <> 48)
    /\ (length ds <= 8)%nat
    /\ on_rows s'
    /\ beside_screen s' = beside_screen s.
Proof.
  intros Hrows Hw s'.
  assert (Hx : to_uint (to_int w) = w) by (unfold to_uint, to_int; zlia).
  assert (Hrange : 0 <= w < 16 ^ Z.of_nat 32).
  { change (16 ^ Z.of_nat 32) with (2 ^ 128). lia. }
  destruct (printint_digits_spec 16 32 ltac:(lia) w Hrange ltac:(lia))
    as (D1 & D2 & D3 & D4 & D5).
  cbv zeta in D1, D2, D3, D4, D5.
  set (ds := printint_digits 32 w 16) in *.
  destruct (digit_chars_sent 16 ds ltac:(lia) D2) as [Hnb Hchars].
  assert (Es : s' = consputs (rev ds) s).
  { unfold s', printint. cbv zeta. cbn [Z.eqb negb andb].
    rewrite Hx. now rewrite app_nil_r. }
  destruct (consputs_output _ s Hrows (Forall_rev Hnb))
    as (U1 & U2 & U3).
  rewrite rev_involutive in U1. rewrite <- Es in U1, U2, U3.
  exists ds. split; [exact U1 |]. split; [exact D1 |].
  split; [exact Hchars |]. split.
  { intros Hne. destruct (D4 ltac:(lia)) as (d & Hd1 & Hd2).
    exists d. split; [exact Hd1 |]. intros ->. cbn in Hd2. lia. }
  split; [apply D5; [lia | change (16 ^ Z.of_nat 8) with (2 ^ 32); lia] |].
  split; assumption.
Qed.

Lemma printint_hex_witness :
  exists ds,
    uart (printint (to_int 255) 16 0 blank) = ds ++ uart blank
    /\ digits_value 16 ds = 255
    /\ Forall (fun c => 48 <= c <= 57 \/ 97 <= c <= 102) ds
    /\ (255 <> 0 -> exists d, last ds = Some d /\ d <> 48)
    /\ (length ds <= 8)%nat
    /\ on_rows (printint (to_int 255) 16 0 blank)
    /\ beside_screen (printint (to_int 255) 16 0 blank) = beside_screen blank.
Proof.
  exact (printint_hex 255 blank blank_on_rows ltac:(lia)).
Defined.

(** ** cprintf *)

(** A byte of the format that is printed as it is. *)
Definition text_byte (b : Z) : Prop :=
  Z.land b 0xff <> 0 /\ Z.land b 0xff <> 37.

Definition low_byte (b : Z) : Z := Z.land b 0xff.

Lemma low_byte_sent (t : list Z) :
  Forall (fun c => c <> BACKSPACE) (low_byte <$> t).
Proof.
  apply Forall_fmap, Forall_forall. intros b _. unfold low_byte.
  cbn. change 0xff with (Z.ones 8). rewrite Z.land_ones by lia.
  unfold BACKSPACE. zlia.
Qed.

Lemma cprintf_loop_text args string_at (t rest : list Z) (k : nat) :
  Forall text_byte t ->
  forall s,
    cprintf_loop args string_at (t ++ rest) k s
    = cprintf_loop args string_at rest k (consputs (low_byte <$> t) s).
Proof.
  intros Ht. induction t as [| b t IH]; intros s; [reflexivity |].
  apply Forall_cons in Ht as [[H0 H37] Ht].
  cbn [app cprintf_loop fmap list_fmap]. cbv zeta.
  destruct (Z.eqb_spec (Z.land b 0xff) 0); [contradiction |].
  destruct (Z.eqb_spec (Z.land b 0xff) 37); [contradiction |].
  cbn [negb]. now rewrite IH.
Qed.

(** One directive of the format. *)
Lemma cprintf_loop_d args string_at (rest : list Z) (k : nat) (s : state) :
  cprintf_loop args string_at (37 :: 100 :: rest) k s
  = cprintf_loop args string_at rest (S k)
      (printint (to_int (args k)) 10 1 s).
Proof. reflexivity. Qed.

Lemma cprintf_loop_x args string_at (c : Z) (rest : list Z) (k : nat)
    (s : state) :
  c = 120 \/ c = 112 ->
  cprintf_loop args string_at (37 :: c :: rest) k s
  = cprintf_loop args string_at rest (S k)
      (printint (to_int (args k)) 16 0 s).
Proof. intros [-> | ->]; reflexivity. Qed.

Lemma cprintf_loop_s args string_at (rest : list Z) (k : nat) (s : state) :
  cprintf_loop args string_at (37 :: 115 :: rest) k s
  = cprintf_loop args string_at rest (S k)
      (consputs (to_char <$> (if args k =? 0 then null_text
                              else string_at (args k))) s).
Proof. reflexivity. Qed.

Lemma cprintf_loop_percent args string_at (rest : list Z) (k : nat)
    (s : state) :
  cprintf_loop args string_at (37 :: 37 :: rest) k s
  = cprintf_loop args string_at rest k (consputc 37 s).
Proof. reflexivity. Qed.

(** A format of plain text (no ['%']): cprintf sends the bytes as they
    are, in order, takes no argument, and stops at the terminator, also at
    one inside the list. *)
Theorem cprintf_text args string_at (t rest : list Z) (s : state) :
  on_rows s -> Forall text_byte t ->
  cprintf args string_at (Some t) s = consputs (low_byte <$> t) s
  /\ cprintf args string_at (Some (t ++ 0 :: rest)) s
     = consputs (low_byte <$> t) s
  /\ uart (cprintf args string_at (Some t) s) = rev (low_byte <$> t) ++ uart s
  /\ on_rows (cprintf args string_at (Some t) s)
  /\ beside_screen (cprintf args string_at (Some t) s) = beside_screen s.
Proof.
  intros Hrows Ht.
  assert (E1 : cprintf args string_at (Some t) s = consputs (low_byte <$> t) s).
  { unfold cprintf. rewrite <- (app_nil_r t) at 1.
    now rewrite cprintf_loop_text. }
  split; [exact E1 |]. split.
  - unfold cprintf. now rewrite cprintf_loop_text.
  - rewrite E1. apply consputs_output; [exact Hrows | apply low_byte_sent].
Qed.

Lemma cprintf_text_witness :
  uart (cprintf (fun _ => 0) (fun _ => []) (Some [104; 105]) blank)
  = rev (low_byte <$> [104; 105]) ++ uart blank.
Proof.
  assert (Ht : Forall text_byte [104; 105]).
  { constructor; [split; vm_compute; discriminate |].
    constructor; [split; vm_compute; discriminate |]. constructor. }
  exact (proj1 (proj2 (proj2
           (cprintf_text (fun _ => 0) (fun _ => []) [104; 105] [] blank
              blank_on_rows Ht)))).
Defined.

(** ["%d"] between two pieces of plain text: the serial line gets the
    first text, the decimal form of the first argument word taken as an
    [int] (a minus sign, then the digits), and the second text. *)
Theorem cprintf_decimal args string_at (t1 t2 : list Z) (s : state) :
  on_rows s -> Forall text_byte t1 -> Forall text_byte t2 ->
  0 <= args 0%nat < 2 ^ 32 ->
  let xx := to_int (args 0%nat) in
  let s' := cprintf args string_at (Some (t1 ++ [37; 100] ++ t2)) s in
  exists ds,
    uart s' = rev (low_byte <$> t2) ++ ds
              ++ (if xx <? 0 then [45] else [])
              ++ rev (low_byte <$> t1) ++ uart s
    /\ digits_value 10 ds = Z.abs xx
    /\ Forall (fun c => 48 <= c <= 57) ds
    /\ on_rows s'.
Proof.
  intros Hrows H1 H2 Hw xx s'.
  destruct (consputs_output _ s Hrows (low_byte_sent t1)) as (U1 & R1 & _).
  set (s1 := consputs (low_byte <$> t1) s) in *.
  destruct (printint_number_sent (args 0%nat) s1 R1 Hw)
    as (ds & U2 & V & F & R2).
  fold xx in U2, V.
  set (s2 := printint xx 10 1 s1) in *.
  destruct (consputs_output _ s2 R2 (low_byte_sent t2)) as (U3 & R3 & _).
  assert (E : s' = consputs (low_byte <$> t2) s2).
  { unfold s', cprintf. rewrite cprintf_loop_text by exact H1.
    cbn [app]. rewrite cprintf_loop_d. fold s1. fold xx. fold s2.
    rewrite <- (app_nil_r t2) at 1. now rewrite cprintf_loop_text. }
  exists ds. rewrite E, U3, U2, U1. split; [reflexivity |]. auto.
Qed.

Lemma cprintf_decimal_witness :
  exists ds,
    uart (cprintf (fun _ => 2 ^ 32 - 42) (fun _ => [])
            (Some ([110; 61] ++ [37; 100] ++ [10])) blank)
    = rev (low_byte <$> [10]) ++ ds
      ++ (if to_int (2 ^ 32 - 42) <? 0 then [45] else [])
      ++ rev (low_byte <$> [110; 61]) ++ uart blank
    /\ digits_value 10 ds = Z.abs (to_int (2 ^ 32 - 42))
    /\ Forall (fun c => 48 <= c <= 57) ds
    /\ on_rows (cprintf (fun _ => 2 ^ 32 - 42) (fun _ => [])
                  (Some ([110; 61] ++ [37; 100] ++ [10])) blank).
Proof.
  assert (H1 : Forall text_byte [110; 61]).
  { constructor; [split; vm_compute; discriminate |].
    constructor; [split; vm_compute; discriminate |]. constructor. }
  assert (H2 : Forall text_byte [10]).
  { constructor; [split; vm_compute; discriminate |]. constructor. }
  assert (Hw : 0 <= 2 ^ 32 - 42 < 2 ^ 32) by lia.
  exact (cprintf_decimal (fun _ => 2 ^ 32 - 42) (fun _ => []) [110; 61] [10]
           blank blank_on_rows H1 H2 Hw).
Defined.

Lemma to_char_sent (t : list Z) :
  Forall (fun c => c <> BACKSPACE) (to_char <$> t).
Proof.
  apply Forall_fmap, Forall_forall. intros b _. unfold to_char, BACKSPACE.
  cbn. zlia.
Qed.

(** ["%s"] between two pieces of plain text: the serial line gets the
    first text, then the bytes of the string the first argument word
    points to, each as a (signed) [char], or the six characters of
    "(null)" when that word is the null pointer, then the second text. *)
Theorem cprintf_string args string_at (t1 t2 : list Z) (s : state) :
  on_rows s -> Forall text_byte t1 -> Forall text_byte t2 ->
  let str := if args 0%nat =? 0 then chars_of "(null)"
             else string_at (args 0%nat) in
  let s' := cprintf args string_at (Some (t1 ++ [37; 115] ++ t2)) s in
  uart s' = rev (low_byte <$> t2) ++ rev (to_char <$> str)
            ++ rev (low_byte <$> t1) ++ uart s
  /\ on_rows s'.
Proof.
  intros Hrows H1 H2 str s'.
  destruct (consputs_output _ s Hrows (low_byte_sent t1)) as (U1 & R1 & _).
  set (s1 := consputs (low_byte <$> t1) s) in *.
  destruct (consputs_output _ s1 R1 (to_char_sent str)) as (U2 & R2 & _).
  set (s2 := consputs (to_char <$> str) s1) in *.
  destruct (consputs_output _ s2 R2 (low_byte_sent t2)) as (U3 & R3 & _).
  assert (E : s' = consputs (low_byte <$> t2) s2).
  { unfold s', cprintf. rewrite cprintf_loop_text by exact H1.
    cbn [app]. rewrite cprintf_loop_s. fold s1.
    change null_text with (chars_of "(null)"). fold str. fold s2.
    rewrite <- (app_nil_r t2) at 1. now rewrite cprintf_loop_text. }
  rewrite E, U3, U2, U1. split; [reflexivity | exact R3].
Qed.

Lemma cprintf_string_witness :
  uart (cprintf (fun _ => 0) (fun _ => []) (Some ([] ++ [37; 115] ++ [10]))
          blank)
  = rev (low_byte <$> [10]) ++ rev (to_char <$> chars_of "(null)")
    ++ rev (low_byte <$> []) ++ uart blank.
Proof.
  assert (H2 : Forall text_byte [10]).
  { constructor; [split; vm_compute; discriminate |]. constructor. }
  exact (proj1 (cprintf_string (fun _ => 0) (fun _ => []) [] [10] blank
                  blank_on_rows (Forall_nil_2 _) H2)).
Defined.

(** Where cprintf stops: after plain text, a NUL byte ends the format
    whatever follows it, and so does a ['%'] that is the last byte or is
    followed by a NUL: nothing is printed for the ['%'] itself. *)
Theorem cprintf_stops args string_at (t rest : list Z) (s : state) :
  Forall text_byte t ->
  let done := cprintf args string_at (Some t) s in
  cprintf args string_at (Some (t ++ 0 :: rest)) s = done
  /\ cprintf args string_at (Some (t ++ [37])) s = done
  /\ cprintf args string_at (Some (t ++ 37 :: 0 :: rest)) s = done.
Proof.
  intros Ht done.
  assert (E : done = consputs (low_byte <$> t) s).
  { unfold done, cprintf. rewrite <- (app_nil_r t) at 1.
    now rewrite cprintf_loop_text. }
  rewrite E. unfold cprintf.
  rewrite !cprintf_loop_text by exact Ht. repeat split.
Qed.

Lemma cprintf_stops_witness :
  cprintf (fun _ => 0) (fun _ => []) (Some ([104; 105] ++ [37])) blank
  = cprintf (fun _ => 0) (fun _ => []) (Some [104; 105]) blank.
Proof.
  assert (Ht : Forall text_byte [104; 105]).
  { constructor; [split; vm_compute; discriminate |].
    constructor; [split; vm_compute; discriminate |]. constructor. }
  exact (proj1 (proj2
           (cprintf_stops (fun _ => 0) (fun _ => []) [104; 105] [] blank Ht))).
Defined.
